(** * Provenance matching and value injection of cstex

    A shallow embedding of [scripts/process-metadata.py] and
    [scripts/extract-values.py]: the glob-to-regex pattern matcher, the
    marker scan over a LaTeX document, the reduction of the provenance log
    and the rendering of [.csf/values.tex].

    Conventions of the embedding.
    - A Python [str] is a [string]; its characters are the code points below
      256.  Offsets are character offsets, as [match.start()] gives them.
    - A function that can raise returns a [result]; the exceptions are the
      Python ones, by name.
    - The manifest and the log are typed as the dataclasses and the log
      format declare them (names, commands and paths are strings); a key
      that may be absent is an [option]. *)

From Stdlib Require Import List String Ascii Bool Arith ZArith Lia Permutation
  Sorted.
From Stdlib Require Import Numbers.DecimalString.
Import ListNotations.
Open Scope string_scope.
Open Scope list_scope.

Set Implicit Arguments.

(** ** Exceptions and results *)

Inductive exn : Type :=
| KeyError (key : string)
| IndexError
| AttributeError
| JSONDecodeError
| FileNotFoundError.

(** [Beyond] is not a Python outcome: it marks an input on which the model
    is silent (a regular expression outside the fragment of [Re]). *)
Inductive result (A : Type) : Type :=
| Ok (a : A)
| Raise (e : exn)
| Beyond.

Arguments Ok {A} a.
Arguments Raise {A} e.
Arguments Beyond {A}.

Definition bind {A B : Type} (m : result A) (k : A -> result B) : result B :=
  match m with
  | Ok a => k a
  | Raise e => Raise e
  | Beyond => Beyond
  end.

Declare Scope result_scope.
Delimit Scope result_scope with result.
Notation "'do' x <- m ; k" := (bind m (fun x => k))
  (at level 10, x name, m at level 100, k at level 200) : result_scope.
Open Scope result_scope.

(** ** Python string operations *)

Module PyStr.

(** [s.replace(c, by)] for a one-character [c]. *)
Fixpoint replace_char (c : ascii) (by_ : string) (s : string) : string :=
  match s with
  | EmptyString => EmptyString
  | String a s' =>
      if Ascii.eqb a c then by_ ++ replace_char c by_ s'
      else String a (replace_char c by_ s')
  end.

(** [s.startswith(p)] *)
Fixpoint startswith (p s : string) : bool :=
  match p, s with
  | EmptyString, _ => true
  | String a p', String b s' => Ascii.eqb a b && startswith p' s'
  | String _ _, EmptyString => false
  end.

(** [sub in s] *)
Fixpoint contains (sub s : string) : bool :=
  match s with
  | EmptyString => startswith sub EmptyString
  | String _ s' => startswith sub s || contains sub s'
  end.

Fixpoint drop (n : nat) (s : string) : string :=
  match n, s with
  | O, _ => s
  | S n', String _ s' => drop n' s'
  | S _, EmptyString => EmptyString
  end.

(** [s.endswith(suf)] *)
Definition endswith (suf s : string) : bool :=
  (String.length suf <=? String.length s)%nat
  && String.eqb (drop (String.length s - String.length suf) s) suf.

(** [c.isspace()] on the code points below 256. *)
Definition isspace (c : ascii) : bool :=
  let n := nat_of_ascii c in
  ((9 <=? n) && (n <=? 13) || (28 <=? n) && (n <=? 32)
   || (n =? 133) || (n =? 160))%nat.

Definition is_empty (s : string) : bool :=
  match s with EmptyString => true | _ => false end.

(** [s.split()]: the maximal runs of non-whitespace characters. [cur] is
    the run being read. *)
Fixpoint split_from (cur : string) (s : string) : list string :=
  match s with
  | EmptyString => if is_empty cur then [] else [cur]
  | String c s' =>
      if isspace c
      then (if is_empty cur then split_from EmptyString s'
            else cur :: split_from EmptyString s')
      else split_from (cur ++ String c EmptyString) s'
  end.

Definition split (s : string) : list string := split_from EmptyString s.

(** [c not in q] for a character [c]. *)
Fixpoint lacks (c : ascii) (q : string) : bool :=
  match q with
  | EmptyString => true
  | String a q' => negb (Ascii.eqb a c) && lacks c q'
  end.

(** [sep.join(l)] *)
Fixpoint join (sep : string) (l : list string) : string :=
  match l with
  | [] => EmptyString
  | [x] => x
  | x :: l' => x ++ sep ++ join sep l'
  end.

(** [str(n)] for a non-negative int. *)
Definition of_nat (n : nat) : string := NilEmpty.string_of_uint (Nat.to_uint n).

End PyStr.

(** ** The fragment of Python's [re] the pattern matcher reaches

    [_find_metadata_for_artifact] and [_match_artifact_to_step] hand a glob,
    with ["*"] rewritten to [".*"] and ["?"] to ["."], to [re.match].  For a
    glob of ordinary characters, dots, stars and question marks the regular
    expression is a sequence of literals, [.] and [.*]; [parse] reads exactly
    those and gives [None] on any other special character. *)

Module Re.

Inductive item : Type :=
| Lit (c : ascii)
| Dot
| DotStar.

Definition is_special (c : ascii) : bool :=
  existsb (Ascii.eqb c)
    (list_ascii_of_string "\^$.|?*+()[]{}").

Fixpoint parse (r : string) : option (list item) :=
  match r with
  | EmptyString => Some []
  | String c r' =>
      if Ascii.eqb c "." then
        match r' with
        | String d r'' =>
            if Ascii.eqb d "*" then option_map (cons DotStar) (parse r'')
            else option_map (cons Dot) (parse r')
        | EmptyString => option_map (cons Dot) (parse r')
        end
      else if is_special c then None
      else option_map (cons (Lit c)) (parse r')
  end.

Definition newline : ascii := "010"%char.

(** Without [re.DOTALL] a dot matches any character but a newline. *)
Definition dot_ok (c : ascii) : bool := negb (Ascii.eqb c newline).

(** [match_items r s]: some prefix of [s] matches [r].  The star is
    greedy: it first tries one more character, then the rest of [r]. *)
Fixpoint match_items (r : list item) : string -> bool :=
  match r with
  | [] => fun _ => true
  | Lit c :: r' => fun s =>
      match s with
      | String a s' => Ascii.eqb a c && match_items r' s'
      | EmptyString => false
      end
  | Dot :: r' => fun s =>
      match s with
      | String a s' => dot_ok a && match_items r' s'
      | EmptyString => false
      end
  | DotStar :: r' =>
      fix star (s : string) : bool :=
        match s with
        | String a s' => (dot_ok a && star s') || match_items r' s
        | EmptyString => match_items r' s
        end
  end.

(** [re.match(regex, s)] as a truth value: anchored at the start of [s],
    not at its end. *)
Definition re_match (regex s : string) : option bool :=
  option_map (fun r => match_items r s) (parse regex).

End Re.

(** ** Glob semantics, as the specification words it

    [*] matches any run of characters, [?] exactly one character, any other
    character itself; the whole candidate must be consumed. *)

Fixpoint glob_match (p : string) : string -> bool :=
  match p with
  | EmptyString => fun s => PyStr.is_empty s
  | String c p' =>
      if Ascii.eqb c "*" then
        fix star (s : string) : bool :=
          glob_match p' s
          || match s with
             | String _ s' => star s'
             | EmptyString => false
             end
      else if Ascii.eqb c "?" then
        fun s =>
          match s with
          | String _ s' => glob_match p' s'
          | EmptyString => false
          end
      else
        fun s =>
          match s with
          | String a s' => Ascii.eqb a c && glob_match p' s'
          | EmptyString => false
          end
  end.

(** ** The manifest *)

(** One object of the manifest's [pipeline] list.  [inputs] and [outputs]
    are read with [.get(key, [])], so an absent list is the empty one. *)
Record StepConfig : Type := mkStep {
  sc_name : option string;
  sc_cmd : option string;
  sc_inputs : list string;
  sc_outputs : list string
}.

Definition Config : Type := list StepConfig.

(** [output_pattern.replace("*", ".*").replace("?", ".")] *)
Definition glob_to_regex (output_pattern : string) : string :=
  PyStr.replace_char "?" "." (PyStr.replace_char "*" ".*" output_pattern).

(** The inner loop over a step's output patterns: does one of them match? *)
Fixpoint any_pattern_matches (patterns : list string) (name : string) : result bool :=
  match patterns with
  | [] => Ok false
  | output_pattern :: rest =>
      match Re.re_match (glob_to_regex output_pattern) name with
      | None => Beyond
      | Some true => Ok true
      | Some false => any_pattern_matches rest name
      end
  end.

(** ** Python dictionaries

    A [dict] keeps its keys in insertion order; assigning to a key that is
    already there replaces the value and leaves the key where it was. *)

Module Dict.
Section Dict.
Variable V : Type.

Definition t : Type := list (string * V).

Definition empty : t := [].

(** [d[k] = v] *)
Fixpoint set (k : string) (v : V) (d : t) : t :=
  match d with
  | [] => [(k, v)]
  | (k', v') :: d' =>
      if String.eqb k' k then (k', v) :: d' else (k', v') :: set k v d'
  end.

(** [d.get(k)] *)
Fixpoint get (k : string) (d : t) : option V :=
  match d with
  | [] => None
  | (k', v') :: d' => if String.eqb k' k then Some v' else get k d'
  end.

Definition keys (d : t) : list string := map fst d.
End Dict.
End Dict.

(** ** process-metadata.py *)

(** The [flake] field of the dataclass is stored and never read; it is
    left out. *)
Record PipelineStep : Type := mkPipelineStep {
  ps_name : string;
  ps_cmd : string;
  ps_inputs : list string;
  ps_outputs : list string
}.

Record ArtifactMetadata : Type := mkArtifactMetadata {
  am_path : string;
  am_step_name : string;
  am_script_path : option string;
  am_line_number : option nat;
  am_dependencies : list string
}.

(** The loop of [_load_config]: [step_config["name"]] and
    [step_config["cmd"]] raise on an absent key; a repeated name overwrites
    the earlier step in [pipeline_steps]. *)
Fixpoint load_steps (pipeline : Config) (pipeline_steps : Dict.t PipelineStep)
  : result (Dict.t PipelineStep) :=
  match pipeline with
  | [] => Ok pipeline_steps
  | step_config :: rest =>
      match sc_name step_config, sc_cmd step_config with
      | None, _ => Raise (KeyError "name")
      | Some _, None => Raise (KeyError "cmd")
      | Some name, Some cmd =>
          let step := mkPipelineStep name cmd (sc_inputs step_config)
                                     (sc_outputs step_config) in
          load_steps rest (Dict.set (ps_name step) step pipeline_steps)
      end
  end.

Record MetadataProcessor : Type := mkProcessor {
  pipeline_steps : Dict.t PipelineStep;
  config : Config
}.

(** [MetadataProcessor.__init__] once the manifest has been read. *)
Definition new_processor (cfg : Config) : result MetadataProcessor :=
  do steps <- load_steps cfg (Dict.empty _);
  Ok (mkProcessor steps cfg).

(** The files under the project root: a path to its text, when it exists. *)
Definition Files : Type := string -> option string.

Definition file_exists (fs : Files) (path : string) : bool :=
  match fs path with Some _ => true | None => false end.

Definition _find_generating_script (fs : Files) (step : PipelineStep)
  : option string :=
  match find (fun part => PyStr.endswith ".py" part && file_exists fs part)
             (PyStr.split (ps_cmd step)) with
  | Some part => Some part
  | None => find (PyStr.endswith ".py") (ps_inputs step)
  end.

Fixpoint match_in_steps (fs : Files) (items : list (string * PipelineStep))
  (artifact_path : string) : result (option ArtifactMetadata) :=
  match items with
  | [] => Ok None
  | (step_name, step) :: rest =>
      do hit <- any_pattern_matches (ps_outputs step) artifact_path;
      if hit
      then Ok (Some (mkArtifactMetadata artifact_path step_name
                       (_find_generating_script fs step) None
                       (ps_inputs step)))
      else match_in_steps fs rest artifact_path
  end.

Definition _match_artifact_to_step (self : MetadataProcessor) (fs : Files)
  (artifact_path : string) : result (option ArtifactMetadata) :=
  match_in_steps fs (pipeline_steps self) artifact_path.

(** The dictionary [_find_metadata_for_artifact] returns. *)
Record Metadata : Type := mkMetadata {
  md_step : option string;
  md_script : string;
  md_dependencies : list string
}.

Definition default (d : string) (o : option string) : string :=
  match o with Some s => s | None => d end.

(** [l[-1]] *)
Definition last_item (l : list string) : result string :=
  match rev l with
  | [] => Raise IndexError
  | x :: _ => Ok x
  end.

Fixpoint find_metadata_in (pipeline : Config) (name : string)
  : result (option Metadata) :=
  match pipeline with
  | [] => Ok None
  | step :: rest =>
      do hit <- any_pattern_matches (sc_outputs step) name;
      if hit
      then do script <- last_item (PyStr.split (default "" (sc_cmd step)));
           Ok (Some (mkMetadata (sc_name step) script (sc_inputs step)))
      else find_metadata_in rest name
  end.

Definition _find_metadata_for_artifact (self : MetadataProcessor)
  (name artifact_type : string) : result (option Metadata) :=
  find_metadata_in (config self) name.

(** *** The marker scan *)

(** The longest prefix of [s] without a closing brace: what [[^}]+] takes. *)
Fixpoint until_brace (s : string) : string :=
  match s with
  | EmptyString => EmptyString
  | String c s' => if Ascii.eqb c "}" then EmptyString else String c (until_brace s')
  end.

(** A match of [opening ([^}]+) \}] at the head of [s]: the group and the
    length of the match.  [opening] is the literal text the regular
    expression starts with. *)
Definition marker_at (opening s : string) : option (string * nat) :=
  if PyStr.startswith opening s then
    let rest := PyStr.drop (String.length opening) s in
    let name := until_brace rest in
    if PyStr.is_empty name then None
    else if PyStr.startswith "}" (PyStr.drop (String.length name) rest)
         then Some (name, String.length opening + String.length name + 1)
         else None
  else None.

Record Match : Type := mkMatch {
  m_group1 : string;
  m_start : nat;
  m_end : nat
}.

(** [re.finditer]: the matches from left to right, none overlapping.
    [skip] counts the characters still inside the last match, [pos] is the
    offset of the head of [s]. *)
Fixpoint finditer_from (opening : string) (skip pos : nat) (s : string)
  : list Match :=
  match s with
  | EmptyString => []
  | String _ s' =>
      match skip with
      | S k => finditer_from opening k (S pos) s'
      | O =>
          match marker_at opening s with
          | Some (name, len) =>
              mkMatch name pos (pos + len)
              :: finditer_from opening (len - 1) (S pos) s'
          | None => finditer_from opening 0 (S pos) s'
          end
      end
  end.

Definition finditer (opening content : string) : list Match :=
  finditer_from opening 0 0 content.

(** The [patterns] dictionary of [discover_artifacts_in_latex], in its
    order: the type and the literal opening of its regular expression. *)
Definition patterns : list (string * string) :=
  [ ("value", "\csfvaluelink{"); ("artifact", "\csflink{") ].

Record Artifact : Type := mkArtifact {
  a_type : string;
  a_name : string;
  a_match_start : nat;
  a_match_end : nat;
  a_metadata : Metadata
}.

Definition warning (artifact_type name : string) : string :=
  "Warning: No metadata found in composable.toml for " ++ artifact_type
  ++ " '" ++ name ++ "'".

(** The inner loop over the matches of one pattern: the artifacts appended
    and the lines printed. *)
Fixpoint resolve_matches (self : MetadataProcessor) (artifact_type : string)
  (ms : list Match) : result (list Artifact * list string) :=
  match ms with
  | [] => Ok ([], [])
  | m :: rest =>
      let name := m_group1 m in
      do metadata <- _find_metadata_for_artifact self name artifact_type;
      do r <- resolve_matches self artifact_type rest;
      match metadata with
      | Some md =>
          Ok (mkArtifact artifact_type name (m_start m) (m_end m) md :: fst r,
              snd r)
      | None => Ok (fst r, warning artifact_type name :: snd r)
      end
  end.

(** The outer loop over [patterns]. *)
Fixpoint discover_in (self : MetadataProcessor) (content : string)
  (pats : list (string * string)) : result (list Artifact * list string) :=
  match pats with
  | [] => Ok ([], [])
  | (artifact_type, opening) :: rest =>
      do r1 <- resolve_matches self artifact_type (finditer opening content);
      do r2 <- discover_in self content rest;
      Ok (fst r1 ++ fst r2, snd r1 ++ snd r2)
  end.

(** [discover_artifacts_in_latex]: the list returned, with the warnings
    printed on the way. *)
Definition discover_artifacts_in_latex (self : MetadataProcessor) (fs : Files)
  (latex_file : string) : result (list Artifact * list string) :=
  match fs latex_file with
  | None => Raise FileNotFoundError
  | Some content => discover_in self content patterns
  end.

(** *** The insertion loop of [enhance_latex_document] *)

(** [list(content)] *)
Fixpoint chars (s : string) : list string :=
  match s with
  | EmptyString => []
  | String c s' => String c EmptyString :: chars s'
  end.

(** [l.insert(i, x)] for [i >= 0]; past the end it appends. *)
Definition insert (i : nat) (x : string) (l : list string) : list string :=
  firstn i l ++ x :: skipn i l.

Definition metadata_comment (artifact : Artifact) : string :=
  let info := a_metadata artifact in
  "% CSF-AUTO-METADATA: type=" ++ a_type artifact
  ++ ", name=" ++ a_name artifact
  ++ ", step=" ++ default "None" (md_step info)
  ++ ", script=" ++ md_script info
  ++ ", line=unknown" ++ String Re.newline EmptyString.

(** [for artifact in reversed(artifacts): enhanced_content.insert(...)],
    then [str.join]: the text before the package line is added. *)
Definition insert_metadata_comments (content : string)
  (artifacts : list Artifact) : string :=
  PyStr.join ""
    (fold_left
       (fun enhanced_content artifact =>
          insert (a_match_start artifact) (metadata_comment artifact)
                 enhanced_content)
       (rev artifacts) (chars content)).

(** ** extract-values.py

    The value a record carries is any JSON scalar; the model is generic in
    its type and in [str] on it. *)

Section ExtractValues.

Variable Value : Type.
(** [str(value)]; the f-string of [generate_values_tex] formats the value
    the same way. *)
Variable py_str : Value -> string.

(** One object of the provenance log; [None] is an absent key. *)
Record LogEntry : Type := mkEntry {
  e_type : option string;
  e_name : option string;
  e_value : option Value;
  e_filepath : option string;
  e_lineno : option Z
}.

(** What [json.loads] returns for a line it accepts: an object, or a
    JSON value of another shape. *)
Inductive Json : Type :=
| JObject (entry : LogEntry)
| JOther.

Record ExtractedValue : Type := mkExtracted {
  ev_name : string;
  ev_value : Value;
  ev_formatted_value : string;
  ev_step : string;
  ev_script : option string;
  ev_value_type : string;
  ev_line : option Z
}.

Record ValueExtractor : Type := mkExtractor {
  ve_config : Config;
  ve_values : Dict.t ExtractedValue
}.

(** The two files under [.csf/]: the log, when it exists, and
    [values.tex], when it has been written.  A line of the log is held
    with what [json.loads] makes of it; [None] is a line it rejects. *)
Record Project : Type := mkProject {
  provenance_log : option (list (option Json));
  values_tex : option string
}.

(** [[json.loads(line) for line in f]] *)
Fixpoint loads_all (lines : list (option Json)) : result (list Json) :=
  match lines with
  | [] => Ok []
  | None :: _ => Raise JSONDecodeError
  | Some entry :: rest => do r <- loads_all rest; Ok (entry :: r)
  end.

Definition read_provenance_log (fs : Project) : result (list Json) :=
  match provenance_log fs with
  | None => Ok []
  | Some lines => loads_all lines
  end.

Fixpoint _find_step_for_script (pipeline : Config) (script_path : string)
  : option string :=
  match pipeline with
  | [] => None
  | step :: rest =>
      let cmd := default "" (sc_cmd step) in
      if PyStr.contains script_path cmd then sc_name step
      else _find_step_for_script rest script_path
  end.

(** [step or "unknown"] *)
Definition or_unknown (step : option string) : string :=
  match step with
  | None => "unknown"
  | Some s => if PyStr.is_empty s then "unknown" else s
  end.

(** [entry.get("type") != "value"] *)
Definition is_value_record (entry : LogEntry) : bool :=
  match e_type entry with
  | Some t => String.eqb t "value"
  | None => false
  end.

(** The [ExtractedValue(...)] call of [extract_values_from_log];
    [value_type] is not passed and takes the dataclass default. *)
Definition extracted (pipeline : Config) (name : string) (value : Value)
  (script : string) (line : Z) : ExtractedValue :=
  mkExtracted name value (py_str value)
              (or_unknown (_find_step_for_script pipeline script))
              (Some script) "unknown" (Some line).

(** The loop of [extract_values_from_log] over the entries read. *)
Fixpoint reduce_entries (pipeline : Config) (log_entries : list Json)
  (values : Dict.t ExtractedValue) : result (Dict.t ExtractedValue) :=
  match log_entries with
  | [] => Ok values
  | JOther :: _ => Raise AttributeError
  | JObject entry :: rest =>
      if negb (is_value_record entry) then reduce_entries pipeline rest values
      else
        match e_name entry with
        | None => Raise (KeyError "name")
        | Some name =>
        match e_value entry with
        | None => Raise (KeyError "value")
        | Some value =>
        match e_filepath entry with
        | None => Raise (KeyError "filepath")
        | Some script =>
        match e_lineno entry with
        | None => Raise (KeyError "lineno")
        | Some line =>
            reduce_entries pipeline rest
              (Dict.set name (extracted pipeline name value script line) values)
        end end end end
  end.

(** [extract_values_from_log]: the object with [self.values] assigned,
    and the mapping returned. *)
Definition extract_values_from_log (self : ValueExtractor) (fs : Project)
  : result (ValueExtractor * Dict.t ExtractedValue) :=
  do log_entries <- read_provenance_log fs;
  do values <- reduce_entries (ve_config self) log_entries (Dict.empty _);
  Ok (mkExtractor (ve_config self) values, values).

Definition definition_line (item : string * ExtractedValue) : string :=
  let (name, value) := item in
  "\csfdefinevalue{" ++ name ++ "}{" ++ py_str (ev_value value) ++ "}{"
  ++ ev_step value ++ "}{" ++ ev_value_type value ++ "}".

Definition no_values : string :=
  "% No values extracted" ++ String Re.newline EmptyString.

Definition generate_values_tex (self : ValueExtractor) : string :=
  match ve_values self with
  | [] => no_values
  | _ =>
      PyStr.join (String Re.newline EmptyString)
        ([ "% CSF Values - Auto-generated by extract-values.py";
           ("% Generated from " ++ PyStr.of_nat (List.length (ve_values self))
            ++ " statistical annotations")%string;
           "% Do not edit manually - regenerate with 'cstex-compile'";
           "" ]
         ++ map definition_line (ve_values self)
         ++ [ ""; "% Mark values as cached"; "\csfvaluescachedtrue"; "" ])
  end.

(** [create_csf_values_file]: [values.tex] is overwritten. *)
Definition create_csf_values_file (self : ValueExtractor) (fs : Project)
  : Project :=
  mkProject (provenance_log fs) (Some (generate_values_tex self)).

Definition process_document (self : ValueExtractor) (fs : Project)
  : result (ValueExtractor * Project) :=
  do r <- extract_values_from_log self fs;
  Ok (fst r, create_csf_values_file (fst r) fs).

(** [main] without [--dry-run], from the manifest once loaded: the exit
    status and the files left behind.  [except Exception] turns every
    exception into status 1. *)
Definition main (cfg : Config) (fs : Project) : result (nat * Project) :=
  match process_document (mkExtractor cfg (Dict.empty _)) fs with
  | Ok r => Ok (0, snd r)
  | Raise _ => Ok (1, fs)
  | Beyond => Beyond
  end.

End ExtractValues.

Arguments JOther {Value}.

(** [str] on Python ints, for the worked examples. *)
Definition str_int (z : Z) : string := NilEmpty.string_of_int (Z.to_int z).

(** The names of the value records of a log, in log order. *)
Fixpoint value_names {Value : Type} (log_entries : list (Json Value))
  : list string :=
  match log_entries with
  | [] => []
  | JObject entry :: rest =>
      match is_value_record entry, e_name entry with
      | true, Some name => name :: value_names rest
      | _, _ => value_names rest
      end
  | JOther :: rest => value_names rest
  end.

(** Each name once, at its first occurrence; [seen] holds the names
    already met. *)
Fixpoint first_occurrences (seen l : list string) : list string :=
  match l with
  | [] => []
  | x :: l' =>
      if existsb (String.eqb x) seen then first_occurrences seen l'
      else x :: first_occurrences (seen ++ [x]) l'
  end.

(** A value record with its four fields. *)
Definition complete {Value : Type} (entry : LogEntry Value) : bool :=
  match e_name entry, e_value entry, e_filepath entry, e_lineno entry with
  | Some _, Some _, Some _, Some _ => true
  | _, _, _, _ => false
  end.

(** The log file whose lines are the objects [es]. *)
Definition log_of {Value : Type} (es : list (LogEntry Value))
  : list (option (Json Value)) :=
  map (fun e => Some (JObject e)) es.

(** What [_load_config] stores for a step that has its name and command. *)
Definition loaded (step_config : StepConfig) : string * PipelineStep :=
  let name := default "" (sc_name step_config) in
  (name, mkPipelineStep name (default "" (sc_cmd step_config))
           (sc_inputs step_config) (sc_outputs step_config)).

(** The manifests the model answers for: every output pattern is a glob
    whose regular expression [Re.parse] reads. *)
Definition pattern_modelled (output_pattern : string) : bool :=
  match Re.parse (glob_to_regex output_pattern) with
  | Some _ => true
  | None => false
  end.

(** A step whose command holds at least one word, so that
    [cmd.split()[-1]] exists. *)
Definition has_script (step : StepConfig) : bool :=
  match PyStr.split (default "" (sc_cmd step)) with
  | [] => false
  | _ :: _ => true
  end.

Definition manifest_modelled (pipeline : Config) : bool :=
  forallb (fun step => forallb pattern_modelled (sc_outputs step)
                       && has_script step) pipeline.

(** ** Worked data *)

Definition demo_cfg : Config :=
  [ mkStep (Some "analyze") (Some "python analyze.py") [] ["results/acc.json"];
    mkStep (Some "plot") (Some "python plot.py analyze.py") ["plot.py"]
           ["fig_*.png"; "a"; "b"; "acc"; "results/*"] ].

Definition value_record (name : string) (value : Z) (script : string) (line : Z)
  : LogEntry Z :=
  mkEntry (Some "value") (Some name) (Some value) (Some script) (Some line).

Definition demo_entries : list (LogEntry Z) :=
  [ value_record "acc" 80 "analyze.py" 42;
    mkEntry (Some "note") None None None None;
    value_record "n" 7 "other.py" 3;
    value_record "acc" 94 "analyze.py" 43 ].

Definition demo_project : Project Z := mkProject (Some (log_of demo_entries)) None.

Definition demo_extractor : ValueExtractor Z := mkExtractor demo_cfg (Dict.empty _).

Definition demo_processor : MetadataProcessor :=
  mkProcessor
    [ ("analyze", mkPipelineStep "analyze" "python analyze.py" [] ["results/acc.json"]);
      ("plot", mkPipelineStep "plot" "python plot.py analyze.py" ["plot.py"]
                 ["fig_*.png"; "a"; "b"; "acc"; "results/*"]) ]
    demo_cfg.

Definition demo_files (content : string) : Files :=
  fun path => if String.eqb path "paper.tex" then Some content else None.

Definition fig_cfg : Config :=
  [ mkStep (Some "plot") (Some "python plot.py") [] ["fig_*.png"] ].

Definition fig_processor : MetadataProcessor :=
  mkProcessor [ ("plot", mkPipelineStep "plot" "python plot.py" [] ["fig_*.png"]) ]
              fig_cfg.

Definition no_files : Files := fun _ => None.

(** A figure of 25 characters, a paragraph, and a caption whose closing
    brace is the 500th character after the figure. *)
Definition captioned_figure : string :=
  ("\includegraphics{fig.png}"
   ++ "The figure shows the accuracy of the model on the held-out "
   ++ "data for each epoch of training. The figure shows the accur"
   ++ "acy of the model on the held-out data for each epoch of tra"
   ++ "ining. The figure shows the accuracy of the model on the he"
   ++ "ld-out data for each epoch of training. The figure shows th"
   ++ "e accuracy of the model on the held-out data for each epoch"
   ++ " of training. The figure shows the accuracy of the model on"
   ++ " the held-out data for each epoch of training. The figure s"
   ++ "\caption{Accuracy over time}")%string.

(** ** The rest of process-metadata.py *)

(** [s[:n]] *)
Fixpoint take (n : nat) (s : string) : string :=
  match n, s with
  | S n', String c s' => String c (take n' s')
  | _, _ => EmptyString
  end.

(** [c.lower()] on the code points below 256: the letters A to Z and the
    capitals from U+00C0 to U+00DE, the multiplication sign apart. *)
Definition lower_char (c : ascii) : ascii :=
  let n := nat_of_ascii c in
  if ((65 <=? n) && (n <=? 90)
      || (192 <=? n) && (n <=? 222) && negb (n =? 215))%nat
  then ascii_of_nat (n + 32)
  else c.

(** [s.lower()] *)
Fixpoint lower (s : string) : string :=
  match s with
  | EmptyString => EmptyString
  | String c s' => String (lower_char c) (lower s')
  end.

(** [f.readlines()]: the text cut after each newline; [cur] is the line
    being read. *)
Fixpoint readlines_from (cur : string) (s : string) : list string :=
  match s with
  | EmptyString => if PyStr.is_empty cur then [] else [cur]
  | String c s' =>
      if Ascii.eqb c Re.newline
      then (cur ++ String c EmptyString)%string :: readlines_from EmptyString s'
      else readlines_from (cur ++ String c EmptyString) s'
  end.

Definition readlines (text : string) : list string :=
  readlines_from EmptyString text.

(** [s.split(sep)] for a one-character [sep]: every piece, the empty ones
    too. *)
Fixpoint split_on (sep : ascii) (cur : string) (s : string) : list string :=
  match s with
  | EmptyString => [cur]
  | String c s' =>
      if Ascii.eqb c sep then cur :: split_on sep EmptyString s'
      else split_on sep (cur ++ String c EmptyString) s'
  end.

(** [Path(p).name]: the last component of the path, empty components and
    single dots set aside; empty when there is none. *)
Definition path_name (p : string) : string :=
  last (filter (fun part => negb (PyStr.is_empty part || String.eqb part "."))
               (split_on "/" EmptyString p))
       EmptyString.

(** [for i, line in enumerate(lines, i): if test(line): return i] *)
Fixpoint first_line (test : string -> bool) (i : nat) (lines : list string)
  : option nat :=
  match lines with
  | [] => None
  | line :: rest => if test line then Some i else first_line test (S i) rest
  end.

(** The test of [_find_script_line_for_artifact] on one line. *)
Definition writes_artifact (artifact_name line : string) : bool :=
  PyStr.contains artifact_name line
  && (PyStr.contains "savefig" line || PyStr.contains "save" line
      || PyStr.contains "write" line).

(** The script is read as text; a script that is not there, or an empty
    path, gives [None]. *)
Definition _find_script_line_for_artifact (fs : Files)
  (script_path artifact_path : string) : option nat :=
  if PyStr.is_empty script_path then None
  else
    match fs script_path with
    | None => None
    | Some text =>
        let artifact_name := path_name artifact_path in
        first_line (writes_artifact artifact_name) 1 (readlines text)
    end.

(** The test of [_find_script_line_for_csv]; [and] binds tighter than
    [or]. *)
Definition writes_csv (csv_name line : string) : bool :=
  PyStr.contains csv_name line
  && (PyStr.contains "to_csv" line
      || PyStr.contains "csv" (lower line) && PyStr.contains "write" line).

Definition _find_script_line_for_csv (fs : Files)
  (script_path csv_path : string) : option nat :=
  if PyStr.is_empty script_path then None
  else
    match fs script_path with
    | None => None
    | Some text =>
        let csv_name := path_name csv_path in
        first_line (writes_csv csv_name) 1 (readlines text)
    end.

Definition statistical_functions : list string :=
  ["corr"; "mean"; "std"; "pvalue"; "ttest"; "chi2"].

Definition _find_statistical_line (fs : Files)
  (script_path stat_value : string) : option nat :=
  if PyStr.is_empty script_path then None
  else
    match fs script_path with
    | None => None
    | Some text =>
        first_line
          (fun line =>
             existsb (fun func => PyStr.contains func (lower line))
                     statistical_functions)
          1 (readlines text)
    end.

(** [re.search] of [opening ([^}]+) \}]: the first match, if any.  The
    pattern matches no empty text, so the scan of [finditer_from], which
    tries the pattern at every character of [s] up to the last one,
    loses nothing by stopping at the end of [s]. *)
Definition search (opening s : string) : option Match :=
  match finditer opening s with
  | [] => None
  | m :: _ => Some m
  end.

(** [_find_caption_for_artifact]: the caption is looked for in the 500
    characters after the artifact. *)
Definition _find_caption_for_artifact (content : string)
  (artifact_end_pos : nat) : option string :=
  let search_region := take 500 (PyStr.drop artifact_end_pos content) in
  match search "\caption{" search_region with
  | Some m => Some (m_group1 m)
  | None => None
  end.

(** The end of [enhance_latex_document]: unless the package line is in the
    text, [re.sub] with [count=1] puts it after the first document class. *)
Definition add_package (enhanced_content : string) : string :=
  if PyStr.contains "\usepackage{composable}" enhanced_content
  then enhanced_content
  else
    match search "\documentclass{" enhanced_content with
    | None => enhanced_content
    | Some m =>
        (take (m_end m) enhanced_content
         ++ String Re.newline "\usepackage{composable}"
         ++ PyStr.drop (m_end m) enhanced_content)%string
    end.

(** [enhance_latex_document], up to the text it writes: the document is
    read, the markers are discovered (the warnings printed on the way are
    dropped here), the comments inserted and the package line added. *)
Definition enhanced_text (self : MetadataProcessor) (fs : Files)
  (latex_file : string) : result string :=
  match fs latex_file with
  | None => Raise FileNotFoundError
  | Some content =>
      do r <- discover_artifacts_in_latex self fs latex_file;
      Ok (add_package (insert_metadata_comments content (fst r)))
  end.

(** The keys of the dictionary [discover_artifacts_in_latex] appends for
    an entry; iterating over the dictionary yields them. *)
Definition artifact_keys (artifact : Artifact) : list string :=
  ["type"; "name"; "match_start"; "match_end"; "metadata"].

(** [a, b = iterable]: more or fewer than two items raise [ValueError]. *)
Definition unpack_pair (items : list string) : option (string * string) :=
  match items with
  | [a; b] => Some (a, b)
  | _ => None
  end.

(** [for artifact_path, info in artifacts: print(... info['step'] ...)]:
    [true] when the loop runs to its end. *)
Fixpoint dry_run_loop (artifacts : list Artifact) : bool :=
  match artifacts with
  | [] => true
  | artifact :: rest =>
      match unpack_pair (artifact_keys artifact) with
      | None => false
      | Some _ => dry_run_loop rest
      end
  end.

(** [main] with [--dry-run], from the manifest once read: the exit
    status.  [except Exception] turns every exception, the [ValueError]
    of the loop among them, into status 1.  (Were the unpacking to
    succeed, [info['step']] would index a string; the case does not
    arise.) *)
Definition main_dry_run (cfg : Config) (fs : Files) (latex_file : string)
  : result nat :=
  match new_processor cfg with
  | Beyond => Beyond
  | Raise _ => Ok 1
  | Ok processor =>
      match discover_artifacts_in_latex processor fs latex_file with
      | Beyond => Beyond
      | Raise _ => Ok 1
      | Ok (artifacts, _) => if dry_run_loop artifacts then Ok 0 else Ok 1
      end
  end.

(** The text a list of entries in document order is meant to give: each
    comment right before its marker, the document otherwise as it was.
    [pos] is the offset of the head of [content]. *)
Fixpoint woven (content : string) (pos : nat) (artifacts : list Artifact)
  : string :=
  match artifacts with
  | [] => content
  | artifact :: rest =>
      let n := a_match_start artifact - pos in
      (take n content ++ metadata_comment artifact
       ++ woven (PyStr.drop n content) (a_match_start artifact) rest)%string
  end.

(** ** Figures: [_discover_figure_artifacts] *)

(** The longest prefix of [s] without a closing bracket: what [[^\]]*]
    takes. *)
Fixpoint until_bracket (s : string) : string :=
  match s with
  | EmptyString => EmptyString
  | String c s' =>
      if Ascii.eqb c "]" then EmptyString else String c (until_bracket s')
  end.

(** A match of [\{([^}]+)\}] at the head of [s]: the group and the length
    of the match. *)
Definition braced_at (s : string) : option (string * nat) :=
  match s with
  | String c rest =>
      if Ascii.eqb c "{" then
        let name := until_brace rest in
        if PyStr.is_empty name then None
        else if PyStr.startswith "}" (PyStr.drop (String.length name) rest)
             then Some (name, 1 + String.length name + 1)
             else None
      else None
  | EmptyString => None
  end.

(** A match of [\\includegraphics(?:\[[^\]]*\])?\{([^}]+)\}] at the head
    of [s].  After an opening bracket the options must close and the
    braces follow; without the options the braces must come at once, so
    giving up the options never helps. *)
Definition includegraphics_at (s : string) : option (string * nat) :=
  if PyStr.startswith "\includegraphics" s then
    let rest := PyStr.drop 16 s in
    match rest with
    | String c after_open =>
        if Ascii.eqb c "[" then
          let options := until_bracket after_open in
          let after := PyStr.drop (String.length options) after_open in
          match after with
          | String _ after_close =>
              match braced_at after_close with
              | Some (name, len) =>
                  Some (name, 16 + (1 + String.length options + 1) + len)
              | None => None
              end
          | EmptyString => None
          end
        else
          match braced_at rest with
          | Some (name, len) => Some (name, 16 + len)
          | None => None
          end
    | EmptyString => None
    end
  else None.

(** [re.finditer] for a pattern given by its matches at a position. *)
Fixpoint finditer_with (match_at : string -> option (string * nat))
  (skip pos : nat) (s : string) : list Match :=
  match s with
  | EmptyString => []
  | String _ s' =>
      match skip with
      | S k => finditer_with match_at k (S pos) s'
      | O =>
          match match_at s with
          | Some (name, len) =>
              mkMatch name pos (pos + len)
              :: finditer_with match_at (len - 1) (S pos) s'
          | None => finditer_with match_at 0 (S pos) s'
          end
      end
  end.

(** The [artifact_info] dictionary of a figure; its ['type'] is always
    ['figure']. *)
Record FigureInfo : Type := mkFigure {
  f_path : string;
  f_step : string;
  f_script : option string;
  f_line : option nat;
  f_dependencies : list string;
  f_caption : option string;
  f_match_start : nat;
  f_match_end : nat
}.

(** [content[a:b]] *)
Definition slice (a b : nat) (s : string) : string :=
  take (b - a) (PyStr.drop a s).

(** The text around a match in which [\csfigure] is looked for. *)
Definition context_of (content : string) (m : Match) : string :=
  let context_start := m_start m - 200 in
  let context_end := Nat.min (String.length content) (m_end m + 200) in
  slice context_start context_end content.

(** [metadata.line_number], set when the metadata have a script. *)
Definition figure_line (fs : Files) (metadata : ArtifactMetadata)
  (artifact_path : string) : option nat :=
  match am_script_path metadata with
  | Some script_path =>
      if PyStr.is_empty script_path then am_line_number metadata
      else _find_script_line_for_artifact fs script_path artifact_path
  | None => am_line_number metadata
  end.

(** The loop of [_discover_figure_artifacts] over the matches. *)
Fixpoint figures_of (self : MetadataProcessor) (fs : Files) (content : string)
  (ms : list Match) : result (list (string * FigureInfo)) :=
  match ms with
  | [] => Ok []
  | m :: rest =>
      let artifact_path := m_group1 m in
      if PyStr.contains "\csfigure" (context_of content m)
      then figures_of self fs content rest
      else
        do metadata <- _match_artifact_to_step self fs artifact_path;
        do artifacts <- figures_of self fs content rest;
        match metadata with
        | Some md =>
            Ok ((artifact_path,
                 mkFigure artifact_path (am_step_name md) (am_script_path md)
                   (figure_line fs md artifact_path) (am_dependencies md)
                   (_find_caption_for_artifact content (m_end m))
                   (m_start m) (m_end m))
                :: artifacts)
        | None => Ok artifacts
        end
  end.

Definition _discover_figure_artifacts (self : MetadataProcessor) (fs : Files)
  (content : string) : result (list (string * FigureInfo)) :=
  figures_of self fs content (finditer_with includegraphics_at 0 0 content).

(** ** Declarative annotations: [_parse_csf_annotation] *)

(** [s.lstrip(chars)], [s.rstrip(chars)] and [s.strip(chars)], the set of
    characters given by its test. *)
Fixpoint lstrip_by (f : ascii -> bool) (s : string) : string :=
  match s with
  | EmptyString => EmptyString
  | String c s' => if f c then lstrip_by f s' else s
  end.

Fixpoint rstrip_by (f : ascii -> bool) (s : string) : string :=
  match s with
  | EmptyString => EmptyString
  | String c s' =>
      let r := rstrip_by f s' in
      if PyStr.is_empty r && f c then EmptyString else String c r
  end.

Definition strip_by (f : ascii -> bool) (s : string) : string :=
  rstrip_by f (lstrip_by f s).

(** [s.strip()] *)
Definition strip (s : string) : string := strip_by PyStr.isspace s.

(** The double and the single quote, the two characters the expression
    is stripped of. *)
Definition is_quote (c : ascii) : bool :=
  Ascii.eqb c (ascii_of_nat 34) || Ascii.eqb c (ascii_of_nat 39).

(** [s.split(sep, 1)] when [sep] is in [s]: the text before the first
    [sep] and the text after it; [None] when [sep] is not in [s]. *)
Fixpoint partition_at (sep : ascii) (s : string) : option (string * string) :=
  match s with
  | EmptyString => None
  | String c s' =>
      if Ascii.eqb c sep then Some (EmptyString, s')
      else
        match partition_at sep s' with
        | Some (before, after) => Some (String c before, after)
        | None => None
        end
  end.

(** The loop over [params_str.split(',')]. *)
Fixpoint parse_params_loop (pieces : list string) (params : Dict.t string)
  : Dict.t string :=
  match pieces with
  | [] => params
  | param :: rest =>
      match partition_at "=" (strip param) with
      | Some (key, value) =>
          parse_params_loop rest (Dict.set (strip key) (strip value) params)
      | None => parse_params_loop rest params
      end
  end.

Definition parse_params (params_str : string) : Dict.t string :=
  parse_params_loop (split_on "," EmptyString params_str) (Dict.empty _).

(** The dictionary returned with the key; a field that a kind of
    annotation does not have is [None]. *)
Record AnnotationInfo : Type := mkAnnotation {
  an_type : string;
  an_path : option string;
  an_name : option string;
  an_value_type : option string;
  an_expression : option string;
  an_step : string;
  an_script : option string;
  an_line : option Z;
  an_annotation_line : Z;
  an_source : string
}.

Inductive annotation_result : Type :=
| Annotation (key : string) (info : AnnotationInfo)
| NoAnnotation
| LineIsNotANumber.

Section Annotations.

(** [int(s)] on a string; [None] is [ValueError]. *)
Variable py_int : string -> option Z.

(** [int(params.get('line', 0)) if params.get('line') else None]; the
    outer [None] is the [ValueError] of [int]. *)
Definition line_param (params : Dict.t string) : option (option Z) :=
  match Dict.get "line" params with
  | None => Some None
  | Some text =>
      if PyStr.is_empty text then Some None
      else match py_int text with
           | Some z => Some (Some z)
           | None => None
           end
  end.

(** [if value:] on what [params.get] returned. *)
Definition present (o : option string) : option string :=
  match o with
  | Some s => if PyStr.is_empty s then None else Some s
  | None => None
  end.

Definition _parse_csf_annotation (annotation_type params_str : string)
  (line_num : Z) : annotation_result :=
  let params := parse_params params_str in
  let step := default "unknown" (Dict.get "step" params) in
  let script := Dict.get "script" params in
  let finish (key : string)
        (info : option Z -> AnnotationInfo) : annotation_result :=
    match line_param params with
    | Some line => Annotation key (info line)
    | None => LineIsNotANumber
    end in
  if String.eqb annotation_type "CSF-ARTIFACT" then
    match present (Dict.get "path" params) with
    | Some artifact_path =>
        finish artifact_path
          (fun line =>
             mkAnnotation "csf_artifact" (Some artifact_path) None None None
               step script line line_num "declarative")
    | None => NoAnnotation
    end
  else if String.eqb annotation_type "CSF-STAT" then
    match present (Dict.get "name" params) with
    | Some name =>
        finish ("stat_" ++ name)%string
          (fun line =>
             mkAnnotation "csf_statistical" None (Some name)
               (Some (default "unknown" (Dict.get "type" params))) None
               step script line line_num "declarative")
    | None => NoAnnotation
    end
  else if String.eqb annotation_type "CSF-TABLE" then
    match present (Dict.get "path" params) with
    | Some path =>
        finish path
          (fun line =>
             mkAnnotation "csf_table" (Some path) None None None
               step script line line_num "declarative")
    | None => NoAnnotation
    end
  else if String.eqb annotation_type "CSF-COMPUTE" then
    match present (Dict.get "name" params) with
    | Some name =>
        finish ("compute_" ++ name)%string
          (fun line =>
             mkAnnotation "csf_computation" None (Some name) None
               (Some (strip_by is_quote (default "" (Dict.get "expr" params))))
               step script line line_num "declarative")
    | None => NoAnnotation
    end
  else NoAnnotation.

End Annotations.

(** ** The metadata path of extract-values.py *)

(** The constants of [_execute_expression], by their literals. *)
Inductive MockValue : Type :=
| Mock_0_847
| Mock_23_7
| Mock_0_943
| Mock_0_003
| Mock_42_0.

(** [str] on those floats. *)
Definition str_mock (v : MockValue) : string :=
  match v with
  | Mock_0_847 => "0.847"
  | Mock_23_7 => "23.7"
  | Mock_0_943 => "0.943"
  | Mock_0_003 => "0.003"
  | Mock_42_0 => "42.0"
  end.

(** [_execute_expression] on an expression that is a string; the script
    path is not used. *)
Definition _execute_expression (script_path expression : string) : MockValue :=
  if PyStr.contains "corr" (lower expression) then Mock_0_847
  else if PyStr.contains "mean" (lower expression) then Mock_23_7
  else if PyStr.contains "score" (lower expression)
          || PyStr.contains "accuracy" (lower expression) then Mock_0_943
  else if PyStr.contains "pvalue" (lower expression)
          || PyStr.contains "p_value" (lower expression) then Mock_0_003
  else Mock_42_0.

(** The dictionary [_find_metadata_for_value] builds; [None] is an absent
    key. *)
Record ValueMetadata : Type := mkValueMetadata {
  vm_step : option string;
  vm_script : option string;
  vm_line : option Z;
  vm_expression : option string;
  vm_value_type : option string
}.

(** [_extract_value_from_metadata].  An absent expression makes
    [expression.lower()] raise inside the [try]; the handler prints and
    the function returns [None]. *)
Definition _extract_value_from_metadata (fs : Files) (name : string)
  (metadata : ValueMetadata) : option (ExtractedValue MockValue) :=
  match vm_script metadata with
  | None => None
  | Some script =>
      if PyStr.is_empty script then None
      else if negb (file_exists fs script) then None
      else
        match vm_expression metadata with
        | None => None
        | Some expression =>
            let value := _execute_expression script expression in
            Some (mkExtracted name value (str_mock value)
                    (default "unknown" (vm_step metadata))
                    (Some script)
                    (default "value" (vm_value_type metadata))
                    (vm_line metadata))
        end
  end.

(** ** Notions the properties are stated with *)

(** The names of the steps, as [_load_config] reads them. *)
Definition step_names (pipeline : Config) : list string :=
  map (fun sc => default "" (sc_name sc)) pipeline.

(** A step with its name and its command. *)
Definition has_name_and_cmd (sc : StepConfig) : bool :=
  match sc_name sc, sc_cmd sc with
  | Some _, Some _ => true
  | _, _ => false
  end.

(** [f] holds of every character of [s]. *)
Fixpoint all_chars (f : ascii -> bool) (s : string) : bool :=
  match s with
  | EmptyString => true
  | String c s' => f c && all_chars f s'
  end.

Definition not_space (c : ascii) : bool := negb (PyStr.isspace c).

(** [a1] ends where [a2] starts, or earlier. *)
Definition ends_before (a1 a2 : Artifact) : Prop :=
  a_match_end a1 <= a_match_start a2.

(** The insertions of [insert_metadata_comments], the last entry first,
    with the offsets counted from [off]. *)
Definition inserted (off : nat) (l : list string) (artifacts : list Artifact)
  : list string :=
  fold_right
    (fun artifact acc =>
       insert (a_match_start artifact - off) (metadata_comment artifact) acc)
    l artifacts.

(** [a1] starts where [a2] starts, or earlier. *)
Definition starts_before (a1 a2 : Artifact) : Prop :=
  a_match_start a1 <= a_match_start a2.

(** One figure ends where the next starts, or earlier. *)
Definition figure_ends_before (f1 f2 : string * FigureInfo) : Prop :=
  f_match_end (snd f1) <= f_match_start (snd f2).

(** A text with no whitespace at either end. *)
Definition trimmed (s : string) : bool :=
  String.eqb (lstrip_by PyStr.isspace s) s
  && String.eqb (rstrip_by PyStr.isspace s) s.

(** A key and a value as [parse_params] can hold them: no comma in
    either, no equals sign in the key, no whitespace at their ends. *)
Definition clean_pair (kv : string * string) : bool :=
  PyStr.lacks "," (fst kv) && PyStr.lacks "=" (fst kv)
  && PyStr.lacks "," (snd kv) && trimmed (fst kv) && trimmed (snd kv).

(** Every [opening] in [pre] is followed in [pre] by a closing brace, so
    that no match of [opening ([^}]+) \}] that starts in [pre] runs
    beyond it. *)
Fixpoint markers_closed (opening pre : string) : bool :=
  match pre with
  | EmptyString => true
  | String _ pre' =>
      (if PyStr.startswith opening pre
       then negb (PyStr.lacks "}" (PyStr.drop (String.length opening) pre))
       else true)
      && markers_closed opening pre'
  end.

(** Where the scan stands with respect to the last match: outside it, or
    [skip] characters before its end, the closing brace included. *)
Definition inside_match (skip : nat) (s : string) : Prop :=
  skip = 0 \/ skip = String.length (until_brace s) + 1.

(** [key=value], as an annotation writes a parameter. *)
Definition render_pair (kv : string * string) : string :=
  (fst kv ++ "=" ++ snd kv)%string.

(** * Properties *)

(** ** Dictionaries *)

Module DictFacts.
Section DictFacts.
Variable V : Type.
Implicit Types (d : Dict.t V) (k : string) (v : V).

Lemma get_set_same d k v : Dict.get k (Dict.set k v d) = Some v.
Proof.
  induction d as [|[k' v'] d IH]; simpl.
  - now rewrite String.eqb_refl.
  - destruct (String.eqb k' k) eqn:E; simpl; rewrite E; auto.
Qed.

Lemma get_set_other d k k' v :
  k <> k' -> Dict.get k' (Dict.set k v d) = Dict.get k' d.
Proof.
  intros Hk. induction d as [|[k0 v0] d IH]; simpl.
  - apply String.eqb_neq in Hk. now rewrite Hk.
  - destruct (String.eqb k0 k) eqn:E; simpl.
    + apply String.eqb_eq in E. subst k0.
      apply String.eqb_neq in Hk. now rewrite Hk.
    + destruct (String.eqb k0 k'); auto.
Qed.

Lemma keys_set d k v :
  Dict.keys (Dict.set k v d)
  = if existsb (String.eqb k) (Dict.keys d) then Dict.keys d
    else Dict.keys d ++ [k].
Proof.
  unfold Dict.keys.
  induction d as [|[k' v'] d IH]; simpl; auto.
  rewrite (String.eqb_sym k k').
  destruct (String.eqb k' k) eqn:E; simpl; auto.
  rewrite IH.
  now destruct (existsb (String.eqb k) (map fst d)).
Qed.

Lemma set_fresh d k v :
  ~ In k (Dict.keys d) -> Dict.set k v d = d ++ [(k, v)].
Proof.
  induction d as [|[k' v'] d IH]; simpl; intros Hn; auto.
  destruct (String.eqb k' k) eqn:E.
  - apply String.eqb_eq in E. tauto.
  - f_equal. apply IH. tauto.
Qed.
End DictFacts.
End DictFacts.

(** ** The reduction of the log *)

Section ExtractValuesFacts.

Variable Value : Type.
Variable py_str : Value -> string.

Implicit Types (es : list (LogEntry Value)) (values : Dict.t (ExtractedValue Value)).

Lemma loads_all_log_of es : loads_all (log_of es) = Ok (map (@JObject Value) es).
Proof.
  unfold log_of. induction es as [|e es IH]; simpl; auto.
  now rewrite IH.
Qed.

(** Records of another type are skipped before any field is read. *)
Lemma reduce_filter pipeline es values :
  reduce_entries py_str pipeline (map (@JObject Value) es) values
  = reduce_entries py_str pipeline
      (map (@JObject Value) (filter (@is_value_record Value) es)) values.
Proof.
  revert values. induction es as [|e es IH]; intros values; simpl; auto.
  destruct (is_value_record e) eqn:E; simpl; rewrite ?E; simpl; auto.
  destruct (e_name e), (e_value e), (e_filepath e), (e_lineno e); auto.
Qed.

Lemma reduce_app pipeline (l1 l2 : list (Json Value)) values :
  reduce_entries py_str pipeline (l1 ++ l2) values
  = bind (reduce_entries py_str pipeline l1 values)
         (reduce_entries py_str pipeline l2).
Proof.
  revert values. induction l1 as [|j l1 IH]; intros values; simpl; auto.
  destruct j as [e|]; auto.
  destruct (is_value_record e); simpl; auto.
  destruct (e_name e), (e_value e), (e_filepath e), (e_lineno e); auto.
Qed.

(** Complete value records never raise. *)
Lemma reduce_total pipeline es values :
  (forall e, In e es -> is_value_record e = true -> complete e = true) ->
  exists values',
    reduce_entries py_str pipeline (map (@JObject Value) es) values = Ok values'.
Proof.
  revert values. induction es as [|e es IH]; intros values Hc; simpl.
  - eauto.
  - assert (Hes : forall e', In e' es -> is_value_record e' = true ->
                             complete e' = true)
      by (intros; apply Hc; simpl; auto).
    destruct (is_value_record e) eqn:E; simpl; auto.
    specialize (Hc e (or_introl eq_refl) E). unfold complete in Hc.
    destruct (e_name e), (e_value e), (e_filepath e), (e_lineno e);
      try discriminate; auto.
Qed.

(** Later records under other names leave a name's entry alone. *)
Lemma reduce_untouched pipeline name es values values' :
  reduce_entries py_str pipeline (map (@JObject Value) es) values = Ok values' ->
  (forall e, In e es -> is_value_record e = true -> e_name e <> Some name) ->
  Dict.get name values' = Dict.get name values.
Proof.
  revert values. induction es as [|e es IH]; intros values Hr Hn; simpl in Hr.
  - now inversion Hr.
  - assert (Hes : forall e', In e' es -> is_value_record e' = true ->
                             e_name e' <> Some name)
      by (intros; apply Hn; simpl; auto).
    destruct (is_value_record e) eqn:E; simpl in Hr; auto.
    specialize (Hn e (or_introl eq_refl) E).
    destruct (e_name e) as [n|]; try discriminate.
    destruct (e_value e), (e_filepath e), (e_lineno e); try discriminate.
    rewrite (IH _ Hr Hes). apply DictFacts.get_set_other. congruence.
Qed.

(** The last record under a name decides its entry. *)
Lemma reduce_last pipeline l1 e l2 name value script line values values' :
  reduce_entries py_str pipeline (map (@JObject Value) (l1 ++ e :: l2)) values
  = Ok values' ->
  is_value_record e = true ->
  e_name e = Some name -> e_value e = Some value ->
  e_filepath e = Some script -> e_lineno e = Some line ->
  (forall e', In e' l2 -> is_value_record e' = true -> e_name e' <> Some name) ->
  Dict.get name values' = Some (extracted py_str pipeline name value script line).
Proof.
  intros Hr Hv Hn Hval Hs Hl Hlater.
  rewrite map_app, reduce_app in Hr.
  destruct (reduce_entries py_str pipeline (map (@JObject Value) l1) values)
    as [mid| |] eqn:E1; try discriminate.
  simpl in Hr. rewrite Hv, Hn, Hval, Hs, Hl in Hr. simpl in Hr.
  rewrite (reduce_untouched _ _ _ Hr Hlater).
  apply DictFacts.get_set_same.
Qed.

(** Every entry of the mapping was built by the [ExtractedValue] call of
    the loop, so it has the default value type. *)
Lemma reduce_value_type pipeline (l : list (Json Value)) values values' :
  reduce_entries py_str pipeline l values = Ok values' ->
  (forall k ev, In (k, ev) values -> ev_value_type ev = "unknown") ->
  forall k ev, In (k, ev) values' -> ev_value_type ev = "unknown".
Proof.
  revert values. induction l as [|j l IH]; intros values Hr Hin; simpl in Hr.
  - now inversion Hr; subst.
  - destruct j as [e|]; try discriminate.
    destruct (is_value_record e); simpl in Hr; eauto.
    destruct (e_name e) as [n|]; try discriminate.
    destruct (e_value e) as [v|]; try discriminate.
    destruct (e_filepath e) as [s|]; try discriminate.
    destruct (e_lineno e) as [z|]; try discriminate.
    apply (IH _ Hr). clear - Hin.
    induction values as [|[k0 v0] values IHv]; simpl; intros k ev Hk.
    + destruct Hk as [Hk|[]]. now inversion Hk.
    + destruct (String.eqb k0 n); simpl in Hk.
      * destruct Hk as [Hk|Hk]; [now inversion Hk | eapply Hin; right; eauto].
      * destruct Hk as [Hk|Hk]; [eapply Hin; left; eauto |].
        eapply IHv; eauto. intros; eapply Hin; right; eauto.
Qed.

Lemma get_in values k ev : Dict.get k values = Some ev -> In (k, ev) values.
Proof.
  induction values as [|[k0 v0] values IH]; simpl; try discriminate.
  destruct (String.eqb k0 k) eqn:E; intros H.
  - apply String.eqb_eq in E. inversion H; subst. now left.
  - right; auto.
Qed.

Lemma get_absent values k :
  ~ In k (Dict.keys values) -> Dict.get k values = None.
Proof.
  induction values as [|[k0 v0] values IH]; simpl; auto.
  intros Hn. destruct (String.eqb k0 k) eqn:E.
  - apply String.eqb_eq in E. tauto.
  - apply IH. tauto.
Qed.

(** The keys come out in the order of first appearance in the log. *)
Lemma reduce_keys pipeline (l : list (Json Value)) values values' :
  reduce_entries py_str pipeline l values = Ok values' ->
  Dict.keys values'
  = Dict.keys values ++ first_occurrences (Dict.keys values) (value_names l).
Proof.
  revert values. induction l as [|j l IH]; intros values Hr; simpl in Hr.
  - inversion Hr; subst. simpl. now rewrite app_nil_r.
  - destruct j as [e|]; try discriminate. simpl.
    destruct (is_value_record e); simpl in Hr; auto.
    destruct (e_name e) as [n|]; try discriminate.
    destruct (e_value e) as [v|]; try discriminate.
    destruct (e_filepath e) as [sc|]; try discriminate.
    destruct (e_lineno e) as [z|]; try discriminate.
    rewrite (IH _ Hr), DictFacts.keys_set. simpl.
    destruct (existsb (String.eqb n) (Dict.keys values)); auto.
    now rewrite <- app_assoc.
Qed.

Ltac raises_on k := exists k; split; [simpl; tauto | reflexivity].

(** The first incomplete value record stops the loop with a [KeyError]
    on one of the four fields, whatever came before. *)
Lemma reduce_incomplete l1 e l2 :
  is_value_record e = true -> complete e = false ->
  exists key,
    In key ["name"; "value"; "filepath"; "lineno"]
    /\ forall pipeline values,
         reduce_entries py_str pipeline
           (map (@JObject Value) (l1 ++ e :: l2)) values
         = Raise (KeyError key).
Proof.
  intros Hv Hc.
  induction l1 as [|e1 l1 [key [Hk IH]]]; simpl.
  - rewrite Hv. unfold complete in Hc. simpl.
    destruct (e_name e); [|raises_on "name"].
    destruct (e_value e); [|raises_on "value"].
    destruct (e_filepath e); [|raises_on "filepath"].
    destruct (e_lineno e); [discriminate|raises_on "lineno"].
  - destruct (is_value_record e1); simpl;
      [|exists key; split; [exact Hk | exact IH]].
    destruct (e_name e1); [|raises_on "name"].
    destruct (e_value e1); [|raises_on "value"].
    destruct (e_filepath e1); [|raises_on "filepath"].
    destruct (e_lineno e1); [|raises_on "lineno"].
    exists key; split; [exact Hk | intros; apply IH].
Qed.

Lemma loads_all_malformed (lines : list (option (Json Value))) :
  In None lines -> loads_all lines = Raise JSONDecodeError.
Proof.
  induction lines as [|[j|] lines IH]; simpl; intros H; auto.
  - contradiction.
  - destruct H as [H|H]; [discriminate|]. now rewrite IH.
Qed.


(** C6, as the code has it: an [ExtractedValue] made by the reduction of
    the log has value type "unknown", the default of the dataclass; the
    log carries no value type and the reduction passes none. *)
Theorem log_value_type_is_unknown :
  forall (self self1 : ValueExtractor Value) (fs : Project Value) values,
    extract_values_from_log py_str self fs = Ok (self1, values) ->
    forall name ev,
      Dict.get name values = Some ev -> ev_value_type ev = "unknown".
Proof.
  intros self self1 fs values He name ev Hg.
  unfold extract_values_from_log in He.
  destruct (read_provenance_log fs) as [entries| |]; try discriminate.
  simpl in He.
  destruct (reduce_entries py_str (ve_config self) entries (Dict.empty _))
    as [vs| |] eqn:Hr; try discriminate.
  inversion He; subst.
  eapply (reduce_value_type _ _ _ Hr); [intros k ev' []|].
  apply get_in; eauto.
Qed.

(** C9: without a log file the reader returns the empty list and does not
    fail, and the generator then writes the line "% No values extracted",
    which is not the empty text. *)
Theorem missing_log_gives_no_values_marker :
  forall (self : ValueExtractor Value) (old : option string),
    let fs := mkProject (@None (list (option (Json Value)))) old in
    read_provenance_log fs = Ok []
    /\ process_document py_str self fs
       = Ok (mkExtractor (ve_config self) (Dict.empty _),
             mkProject None (Some no_values))
    /\ main py_str (ve_config self) fs
       = Ok (0, mkProject None (Some no_values))
    /\ no_values
       = ("% No values extracted" ++ String Re.newline EmptyString)%string
    /\ no_values <> EmptyString.
Proof.
  intros self old fs. repeat split. discriminate.
Qed.

(** C10: a value record without its name, value, filepath or lineno makes
    the reduction raise [KeyError]; nothing is written and the run ends
    with status 1, as it does when a line of the log is not JSON. *)
Theorem incomplete_value_record_is_fatal :
  forall (cfg : Config) (old : option string) l1 (e : LogEntry Value) l2
         (lines : list (option (Json Value))),
    is_value_record e = true ->
    complete e = false ->
    In None lines ->
    let fs := mkProject (Some (log_of (l1 ++ e :: l2))) old in
    let corrupt := mkProject (Some lines) old in
    (exists key,
        In key ["name"; "value"; "filepath"; "lineno"]
        /\ forall self, extract_values_from_log py_str self fs
                        = Raise (KeyError key))
    /\ main py_str cfg fs = Ok (1, fs)
    /\ (forall self, extract_values_from_log py_str self corrupt
                     = Raise JSONDecodeError)
    /\ main py_str cfg corrupt = Ok (1, corrupt).
Proof.
  intros cfg old l1 e l2 lines Hv Hc Hbad fs corrupt.
  destruct (reduce_incomplete l1 e l2 Hv Hc) as [key [Hk Hr]].
  assert (He : forall self, extract_values_from_log py_str self fs
                            = Raise (KeyError key)).
  { intros self. unfold extract_values_from_log, read_provenance_log, fs.
    simpl. rewrite loads_all_log_of. simpl. now rewrite Hr. }
  assert (Hj : forall self, extract_values_from_log py_str self corrupt
                            = Raise JSONDecodeError).
  { intros self. unfold extract_values_from_log, read_provenance_log, corrupt.
    simpl. now rewrite (loads_all_malformed lines Hbad). }
  split; [exists key; auto|]. split; [|split; auto].
  - unfold main, process_document. now rewrite He.
  - unfold main, process_document. now rewrite Hj.
Qed.

Lemma extract_reads_config_and_log (self self' : ValueExtractor Value)
  (fs fs' : Project Value) :
  ve_config self' = ve_config self ->
  provenance_log fs' = provenance_log fs ->
  extract_values_from_log py_str self' fs'
  = extract_values_from_log py_str self fs.
Proof.
  intros Hc Hl. unfold extract_values_from_log, read_provenance_log.
  now rewrite Hc, Hl.
Qed.

(** C5: the table is a function of the manifest and the log alone: a run
    from any earlier state of the object and of [values.tex] writes the
    same text, so a second run over an unchanged log rewrites the file
    byte for byte; the text written is the three lines of the header and
    an empty line, then for each entry of the mapping, in the order of
    the mapping, the line \csfdefinevalue{name}{value}{step}{type} made
    of its name, [str] of its value, its step and its value type, then
    the four closing lines; the order of the mapping is the order in
    which the names first appear in the log. *)
Theorem values_tex_is_reproducible :
  forall (self self1 : ValueExtractor Value) (fs fs1 : Project Value),
    process_document py_str self fs = Ok (self1, fs1) ->
    process_document py_str self1 fs1 = Ok (self1, fs1)
    /\ (forall self' old',
           ve_config self' = ve_config self ->
           process_document py_str self' (mkProject (provenance_log fs) old')
           = Ok (self1, fs1))
    /\ values_tex fs1 = Some (generate_values_tex py_str self1)
    /\ (exists entries,
           read_provenance_log fs = Ok entries
           /\ Dict.keys (ve_values self1)
              = first_occurrences [] (value_names entries))
    /\ (ve_values self1 <> [] ->
        values_tex fs1
        = Some
            (PyStr.join (String Re.newline EmptyString)
               ([ "% CSF Values - Auto-generated by extract-values.py";
                  ("% Generated from "
                   ++ PyStr.of_nat (List.length (ve_values self1))
                   ++ " statistical annotations")%string;
                  "% Do not edit manually - regenerate with 'cstex-compile'";
                  "" ]
                ++ map (fun item : string * ExtractedValue Value =>
                          ("\csfdefinevalue{" ++ fst item ++ "}{"
                           ++ py_str (ev_value (snd item)) ++ "}{"
                           ++ ev_step (snd item) ++ "}{"
                           ++ ev_value_type (snd item) ++ "}")%string)
                     (ve_values self1)
                ++ [ ""; "% Mark values as cached"; "\csfvaluescachedtrue";
                     "" ])))
    /\ (ve_values self1 = [] ->
        values_tex fs1
        = Some ("% No values extracted" ++ String Re.newline EmptyString)%string).
Proof.
  intros self self1 fs fs1 Hp.
  assert (Hany : forall self' fs',
             ve_config self' = ve_config self ->
             provenance_log fs' = provenance_log fs ->
             process_document py_str self' fs' = Ok (self1, fs1)).
  { intros self' fs' Hc Hl. unfold process_document in *.
    rewrite (extract_reads_config_and_log self self' fs fs' Hc Hl).
    destruct (extract_values_from_log py_str self fs) as [r| |];
      try discriminate.
    simpl in *. unfold create_csf_values_file in *. now rewrite Hl. }
  unfold process_document in Hp.
  destruct (extract_values_from_log py_str self fs) as [[self2 values]| |] eqn:He;
    try discriminate.
  simpl in Hp. injection Hp as <- <-.
  unfold extract_values_from_log in He.
  destruct (read_provenance_log fs) as [entries| |] eqn:Hread;
    try discriminate.
  simpl in He.
  destruct (reduce_entries py_str (ve_config self) entries (Dict.empty _))
    as [vs| |] eqn:Hr; try discriminate.
  simpl in He. injection He as <- <-.
  split; [apply Hany; reflexivity|].
  split; [intros; apply Hany; auto|].
  split; [reflexivity|].
  split.
  - exists entries. split; auto. simpl. now rewrite (reduce_keys _ _ _ Hr).
  - unfold create_csf_values_file, generate_values_tex.
    cbn [values_tex ve_values]. split.
    + destruct vs as [|item vs]; [congruence|]. intros _.
      rewrite (map_ext (definition_line py_str)
                 (fun item : string * ExtractedValue Value =>
                    ("\csfdefinevalue{" ++ fst item ++ "}{"
                     ++ py_str (ev_value (snd item)) ++ "}{"
                     ++ ev_step (snd item) ++ "}{"
                     ++ ev_value_type (snd item) ++ "}")%string));
        [reflexivity|].
      now intros [name value].
    + now intros ->.
Qed.

Lemma find_step_none (pipeline : Config) script :
  (forall step, In step pipeline ->
                PyStr.contains script (default "" (sc_cmd step)) = false) ->
  _find_step_for_script pipeline script = None.
Proof.
  induction pipeline as [|step pipeline IH]; simpl; intros H; auto.
  rewrite (H step (or_introl eq_refl)). apply IH. intros; apply H; auto.
Qed.

(** Every entry of the mapping carries the step the loop looked up for
    its own script. *)
Lemma reduce_step pipeline (l : list (Json Value)) values values' :
  reduce_entries py_str pipeline l values = Ok values' ->
  forall k ev,
    In (k, ev) values' ->
    In (k, ev) values
    \/ exists script,
         ev_script ev = Some script
         /\ ev_step ev = or_unknown (_find_step_for_script pipeline script).
Proof.
  revert values. induction l as [|j l IH]; intros values Hr k ev Hin;
    simpl in Hr.
  - inversion Hr; subst; auto.
  - destruct j as [e|]; try discriminate.
    destruct (is_value_record e); simpl in Hr; eauto.
    destruct (e_name e) as [n|]; try discriminate.
    destruct (e_value e) as [v|]; try discriminate.
    destruct (e_filepath e) as [sc|]; try discriminate.
    destruct (e_lineno e) as [z|]; try discriminate.
    destruct (IH _ Hr k ev Hin) as [Hset|]; auto.
    clear - Hset. induction values as [|[k0 v0] values IHv]; simpl in Hset.
    + destruct Hset as [Hk|[]]. inversion Hk; subst. right. exists sc. auto.
    + destruct (String.eqb k0 n); simpl in Hset.
      * destruct Hset as [Hk|Hk].
        -- inversion Hk; subst. right. exists sc. auto.
        -- left. now right.
      * destruct Hset as [Hk|Hk]; [left; now left|].
        destruct (IHv Hk) as [?|?]; [left; now right | now right].
Qed.

(** The log side of C4. *)
Lemma log_value_without_step_is_unknown :
  forall (self : ValueExtractor Value) (old : option string) es,
    (forall e, In e es -> is_value_record e = true -> complete e = true) ->
    exists values,
      extract_values_from_log py_str self (mkProject (Some (log_of es)) old)
      = Ok (mkExtractor (ve_config self) values, values)
      /\ forall name ev script,
           Dict.get name values = Some ev ->
           ev_script ev = Some script ->
           (forall step, In step (ve_config self) ->
              PyStr.contains script (default "" (sc_cmd step)) = false) ->
           ev_step ev = "unknown".
Proof.
  intros self old es Hc.
  destruct (reduce_total (ve_config self) es (Dict.empty _) Hc)
    as [values Hr].
  exists values. unfold extract_values_from_log, read_provenance_log. simpl.
  rewrite loads_all_log_of. simpl. rewrite Hr. split; [reflexivity|].
  intros name ev script Hg Hs Hno.
  destruct (reduce_step _ _ _ Hr name ev (get_in _ _ Hg))
    as [[]|[script' [Hs' Hstep]]].
  rewrite Hs in Hs'. injection Hs' as <-.
  now rewrite Hstep, (find_step_none _ _ Hno).
Qed.

End ExtractValuesFacts.

(** ** First declared step wins *)

Lemma find_step_first (l1 l2 : Config) step script :
  PyStr.contains script (default "" (sc_cmd step)) = true ->
  (forall s', In s' l1 ->
              PyStr.contains script (default "" (sc_cmd s')) = false) ->
  _find_step_for_script (l1 ++ step :: l2) script = sc_name step.
Proof.
  intros Hs. induction l1 as [|s1 l1 IH]; simpl; intros Hl.
  - now rewrite Hs.
  - rewrite (Hl s1 (or_introl eq_refl)). apply IH. intros; apply Hl; auto.
Qed.

Lemma match_in_steps_first fs l1 l2 step_name step artifact_path :
  any_pattern_matches (ps_outputs step) artifact_path = Ok true ->
  (forall item, In item l1 ->
     any_pattern_matches (ps_outputs (snd item)) artifact_path = Ok false) ->
  match_in_steps fs (l1 ++ (step_name, step) :: l2) artifact_path
  = Ok (Some (mkArtifactMetadata artifact_path step_name
                (_find_generating_script fs step) None (ps_inputs step))).
Proof.
  intros Hs. induction l1 as [|[n1 s1] l1 IH]; simpl; intros Hl.
  - now rewrite Hs.
  - pose proof (Hl (n1, s1) (or_introl eq_refl)) as H1. simpl in H1.
    rewrite H1. simpl. apply IH. intros; apply Hl; auto.
Qed.

Lemma find_metadata_first (l1 l2 : Config) step name script :
  any_pattern_matches (sc_outputs step) name = Ok true ->
  last_item (PyStr.split (default "" (sc_cmd step))) = Ok script ->
  (forall s', In s' l1 -> any_pattern_matches (sc_outputs s') name = Ok false) ->
  find_metadata_in (l1 ++ step :: l2) name
  = Ok (Some (mkMetadata (sc_name step) script (sc_inputs step))).
Proof.
  intros Hs Hc. induction l1 as [|s1 l1 IH]; simpl; intros Hl.
  - now rewrite Hs; simpl; rewrite Hc.
  - rewrite (Hl s1 (or_introl eq_refl)). simpl.
    apply IH. intros; apply Hl; auto.
Qed.

(** With no name repeated, [pipeline_steps] lists the steps as declared. *)
Lemma load_steps_in_order (pipeline : Config) acc steps :
  load_steps pipeline acc = Ok steps ->
  NoDup (Dict.keys acc ++ map (fun sc => default "" (sc_name sc)) pipeline) ->
  steps = acc ++ map loaded pipeline.
Proof.
  revert acc. induction pipeline as [|sc pipeline IH]; simpl; intros acc Hl Hn.
  - inversion Hl. now rewrite app_nil_r.
  - destruct (sc_name sc) as [n|] eqn:En; try discriminate.
    destruct (sc_cmd sc) as [c|] eqn:Ec; try discriminate.
    simpl in *.
    assert (Hfresh : ~ In n (Dict.keys acc)).
    { intros Hin. apply NoDup_remove_2 in Hn. apply Hn.
      apply in_or_app. now left. }
    rewrite (DictFacts.set_fresh _ _ _ Hfresh) in Hl.
    apply IH in Hl.
    + rewrite Hl, <- app_assoc. simpl. unfold loaded at 2.
      now rewrite En, Ec.
    + unfold Dict.keys in *. rewrite map_app, <- app_assoc. exact Hn.
Qed.

Lemma load_steps_names (pipeline : Config) acc steps :
  load_steps pipeline acc = Ok steps ->
  forall sc, In sc pipeline -> exists n, sc_name sc = Some n.
Proof.
  revert acc. induction pipeline as [|sc pipeline IH]; simpl; intros acc Hl sc' [].
  - subst sc'. destruct (sc_name sc); eauto. discriminate.
  - destruct (sc_name sc); try discriminate.
    destruct (sc_cmd sc); try discriminate. eauto.
Qed.

(** C3: the steps are tried in the order of the manifest and the first
    that matches is returned, for a script path against the commands and
    for an artifact name against the output patterns (the dictionary of
    steps is in declaration order when no name repeats); the answer for a
    candidate does not depend on where it stands among the candidates. *)
Theorem first_declared_step_wins :
  forall (l1 l2 : Config) (step : StepConfig) (fs : Files),
    let pipeline := l1 ++ step :: l2 in
    (forall script,
        PyStr.contains script (default "" (sc_cmd step)) = true ->
        (forall s', In s' l1 ->
           PyStr.contains script (default "" (sc_cmd s')) = false) ->
        _find_step_for_script pipeline script = sc_name step)
    /\ (forall self artifact_path,
          new_processor pipeline = Ok self ->
          NoDup (map sc_name pipeline) ->
          any_pattern_matches (sc_outputs step) artifact_path = Ok true ->
          (forall s', In s' l1 ->
             any_pattern_matches (sc_outputs s') artifact_path = Ok false) ->
          exists md,
            _match_artifact_to_step self fs artifact_path = Ok (Some md)
            /\ sc_name step = Some (am_step_name md))
    /\ (forall self name artifact_type script,
          config self = pipeline ->
          any_pattern_matches (sc_outputs step) name = Ok true ->
          last_item (PyStr.split (default "" (sc_cmd step))) = Ok script ->
          (forall s', In s' l1 ->
             any_pattern_matches (sc_outputs s') name = Ok false) ->
          exists md,
            _find_metadata_for_artifact self name artifact_type = Ok (Some md)
            /\ md_step md = sc_name step)
    /\ (forall self names names',
          Permutation names names' ->
          Permutation
            (map (fun n => (n, _match_artifact_to_step self fs n,
                            _find_step_for_script pipeline n)) names)
            (map (fun n => (n, _match_artifact_to_step self fs n,
                            _find_step_for_script pipeline n)) names')).
Proof.
  intros l1 l2 step fs pipeline. split; [|split; [|split]].
  - intros script Hs Hl. now apply find_step_first.
  - intros self artifact_path Hnew Hnd Hs Hl.
    unfold new_processor in Hnew.
    destruct (load_steps pipeline (Dict.empty _)) as [steps| |] eqn:Hload;
      try discriminate.
    simpl in Hnew. injection Hnew as <-.
    assert (Hnames := load_steps_names _ _ Hload).
    apply load_steps_in_order in Hload.
    + simpl in Hload. subst steps pipeline.
      unfold _match_artifact_to_step. simpl.
      rewrite map_app. simpl.
      pose proof (match_in_steps_first fs (map loaded l1) (map loaded l2)
                    (fst (loaded step)) (snd (loaded step)) artifact_path) as Hm.
      change (fst (loaded step), snd (loaded step)) with (loaded step) in Hm.
      rewrite Hm.
      * eexists; split; [reflexivity|]. simpl.
        destruct (Hnames step) as [n Hn]; [apply in_elt|]. now rewrite Hn.
      * exact Hs.
      * intros item Hin. apply in_map_iff in Hin.
        destruct Hin as [s' [<- Hin]]. simpl. auto.
    + simpl. clear - Hnd Hnames.
      induction pipeline as [|sc pipeline IH]; simpl; [constructor|].
      inversion Hnd as [|? ? Hnotin Hnd']; subst.
      constructor.
      * intros Hin. apply Hnotin. apply in_map_iff in Hin.
        destruct Hin as [sc' [Heq Hin]]. apply in_map_iff. exists sc'.
        split; auto.
        destruct (Hnames sc (or_introl eq_refl)) as [n Hn].
        destruct (Hnames sc' (or_intror Hin)) as [n' Hn'].
        rewrite Hn, Hn' in *. simpl in Heq. now subst.
      * apply IH; auto. intros; apply Hnames; now right.
  - intros self name artifact_type script Hcfg Hs Hc Hl.
    unfold _find_metadata_for_artifact. rewrite Hcfg. unfold pipeline.
    erewrite find_metadata_first; eauto.
  - intros self names names' Hp. now apply Permutation_map.
Qed.

(** ** Strings *)

Module PyStrFacts.

Lemma startswith_app p s : PyStr.startswith p (p ++ s) = true.
Proof.
  induction p as [|a p IH]; simpl; auto.
  now rewrite Ascii.eqb_refl.
Qed.

Lemma drop_app p s : PyStr.drop (String.length p) (p ++ s) = s.
Proof. induction p as [|a p IH]; simpl; auto. Qed.

Lemma startswith_split p s :
  PyStr.startswith p s = true -> s = (p ++ PyStr.drop (String.length p) s)%string.
Proof.
  revert s. induction p as [|a p IH]; intros s H; simpl in *; auto.
  destruct s as [|b s]; try discriminate.
  apply andb_true_iff in H. destruct H as [Hab Hp].
  apply Ascii.eqb_eq in Hab. subst b. simpl. f_equal. auto.
Qed.

Lemma length_app (p s : string) :
  String.length (p ++ s) = String.length p + String.length s.
Proof. induction p as [|a p IH]; simpl; auto. Qed.

Lemma app_assoc (p q r : string) : ((p ++ q) ++ r = p ++ (q ++ r))%string.
Proof. induction p as [|a p IH]; simpl; auto. now rewrite IH. Qed.

(** A text [q] without the character [b] cannot start before a [b] and
    run over it. *)
Lemma startswith_before q b pre rest :
  PyStr.lacks b q = true ->
  PyStr.startswith q (pre ++ String b rest) = true ->
  PyStr.startswith q pre = true.
Proof.
  revert pre. induction q as [|a q IH]; intros pre Hq H; simpl in *; auto.
  apply andb_true_iff in Hq. destruct Hq as [Hab Hq].
  destruct pre as [|d pre]; simpl in *.
  - apply andb_true_iff in H. destruct H as [H _].
    rewrite H in Hab. discriminate.
  - apply andb_true_iff in H. destruct H as [Had H].
    rewrite Had. simpl. eauto.
Qed.

Lemma until_brace_app name rest :
  PyStr.lacks "}" name = true ->
  until_brace (name ++ String "}" rest) = name.
Proof.
  induction name as [|a name IH]; simpl; intros H; auto.
  apply andb_true_iff in H. destruct H as [Ha H].
  destruct (Ascii.eqb a "}"); try discriminate. f_equal. auto.
Qed.

Lemma until_brace_lacks s : PyStr.lacks "}" (until_brace s) = true.
Proof.
  induction s as [|a s IH]; simpl; auto.
  destruct (Ascii.eqb a "}") eqn:E; simpl; auto. now rewrite E.
Qed.

Lemma until_brace_prefix s :
  s = (until_brace s ++ PyStr.drop (String.length (until_brace s)) s)%string.
Proof.
  induction s as [|a s IH]; simpl; auto.
  destruct (Ascii.eqb a "}"); simpl; auto. now f_equal.
Qed.

End PyStrFacts.

(** ** The marker scan *)

Section MarkerScan.

Import PyStr PyStrFacts.

(** The opening of a marker: a backslash, then text without one. *)
Variable b : ascii.
Variable q : string.
Hypothesis q_lacks_b : lacks b q = true.

Let opening : string := String b q.

Lemma marker_at_complete name rest :
  PyStr.is_empty name = false ->
  lacks "}" name = true ->
  marker_at opening (opening ++ name ++ String "}" rest)
  = Some (name, String.length opening + String.length name + 1).
Proof.
  intros Hne Hnb. unfold marker_at.
  rewrite startswith_app, drop_app, (until_brace_app _ _ Hnb), Hne.
  now rewrite drop_app.
Qed.

Lemma marker_at_sound s name len :
  marker_at opening s = Some (name, len) ->
  PyStr.startswith (opening ++ name ++ "}") s = true
  /\ len = String.length opening + String.length name + 1
  /\ PyStr.is_empty name = false
  /\ lacks "}" name = true.
Proof.
  unfold marker_at. intros H.
  destruct (PyStr.startswith opening s) eqn:Hs; try discriminate.
  set (rest := PyStr.drop (String.length opening) s) in *.
  destruct (PyStr.is_empty (until_brace rest)) eqn:He; try discriminate.
  destruct (PyStr.startswith "}"
              (PyStr.drop (String.length (until_brace rest)) rest)) eqn:Hb;
    try discriminate.
  injection H as <- <-.
  split; [|split; [reflexivity|split; [assumption|apply until_brace_lacks]]].
  rewrite (startswith_split _ _ Hs) at 1. fold rest.
  rewrite (until_brace_prefix rest) at 2.
  rewrite (startswith_split _ _ Hb) at 1.
  rewrite <- !PyStrFacts.app_assoc. apply startswith_app.
Qed.

Lemma no_marker_before pre rest :
  PyStr.startswith opening pre = false ->
  PyStr.is_empty pre = false ->
  marker_at opening (pre ++ String b rest) = None.
Proof.
  intros Hp Hne. unfold marker_at.
  destruct (PyStr.startswith opening (pre ++ String b rest)) eqn:Hs; auto.
  exfalso. destruct pre as [|c pre]; try discriminate.
  unfold opening in *. simpl in *.
  apply andb_true_iff in Hs. destruct Hs as [Hbc Hq].
  rewrite Hbc in Hp. simpl in Hp.
  rewrite (startswith_before _ _ _ _ q_lacks_b Hq) in Hp. discriminate.
Qed.

(** Text without the opening is passed over. *)
Lemma finditer_skips pre rest pos :
  PyStr.contains opening pre = false ->
  finditer_from opening 0 pos (pre ++ String b rest)
  = finditer_from opening 0 (pos + String.length pre) (String b rest).
Proof.
  revert pos. induction pre as [|c pre IH]; intros pos Hc.
  - simpl. now rewrite Nat.add_0_r.
  - cbn [PyStr.contains] in Hc. apply orb_false_iff in Hc.
    destruct Hc as [Hs Hc].
    change ((String c pre ++ String b rest)%string)
      with (String c (pre ++ String b rest)).
    cbn [finditer_from].
    change (String c (pre ++ String b rest))
      with ((String c pre ++ String b rest)%string).
    rewrite (no_marker_before _ _ Hs eq_refl).
    rewrite (IH (S pos) Hc).
    replace (pos + String.length (String c pre))
      with (S pos + String.length pre) by (simpl; lia).
    reflexivity.
Qed.

(** A marker after text without the opening is found, at its offsets. *)
Lemma finditer_finds pre name post :
  PyStr.contains opening pre = false ->
  PyStr.is_empty name = false ->
  lacks "}" name = true ->
  In (mkMatch name (String.length pre)
        (String.length pre + (String.length opening + String.length name + 1)))
     (finditer opening (pre ++ opening ++ name ++ String "}" post)).
Proof.
  intros Hc Hne Hnb. unfold finditer.
  change ((opening ++ name ++ String "}" post)%string)
    with (String b (q ++ name ++ String "}" post)).
  rewrite (finditer_skips _ _ 0 Hc). simpl Nat.add.
  change (String b (q ++ name ++ String "}" post))
    with ((opening ++ name ++ String "}" post)%string).
  unfold opening at 2. cbn [append finditer_from].
  change (String b (q ++ name ++ String "}" post))
    with ((opening ++ name ++ String "}" post)%string).
  rewrite (marker_at_complete _ _ Hne Hnb). now left.
Qed.

(** Every match starts a marker of the text. *)
Lemma finditer_sound s skip pos m :
  In m (finditer_from opening skip pos s) ->
  pos <= m_start m
  /\ PyStr.startswith (opening ++ m_group1 m ++ "}")
       (PyStr.drop (m_start m - pos) s) = true
  /\ m_end m
     = m_start m + (String.length opening + String.length (m_group1 m) + 1)
  /\ PyStr.is_empty (m_group1 m) = false
  /\ lacks "}" (m_group1 m) = true.
Proof.
  revert skip pos. induction s as [|c s IH]; intros skip pos Hin;
    [contradiction|].
  assert (Hrec : forall skip',
             In m (finditer_from opening skip' (S pos) s) ->
             pos <= m_start m
             /\ PyStr.startswith (opening ++ m_group1 m ++ "}")
                  (PyStr.drop (m_start m - pos) (String c s)) = true
             /\ m_end m
                = m_start m
                  + (String.length opening + String.length (m_group1 m) + 1)
             /\ PyStr.is_empty (m_group1 m) = false
             /\ lacks "}" (m_group1 m) = true).
  { intros skip' H. destruct (IH _ _ H) as [Hle [Hst Hrest]].
    split; [lia|]. split; [|exact Hrest].
    replace (m_start m - pos) with (S (m_start m - S pos)) by lia.
    exact Hst. }
  cbn [finditer_from] in Hin. destruct skip as [|k]; [|eauto].
  destruct (marker_at opening (String c s)) as [[name len]|] eqn:Hm; [|eauto].
  destruct Hin as [<-|Hin]; [|eauto].
  destruct (marker_at_sound _ Hm) as [Hst [-> [Hne Hnb]]].
  simpl. rewrite Nat.sub_diag. simpl. auto.
Qed.

End MarkerScan.

(** ** Resolving the markers *)

Lemma any_pattern_total patterns name :
  forallb pattern_modelled patterns = true ->
  exists hit, any_pattern_matches patterns name = Ok hit.
Proof.
  induction patterns as [|p patterns IH]; simpl; intros H; eauto.
  apply andb_true_iff in H. destruct H as [Hp H].
  unfold pattern_modelled in Hp. unfold Re.re_match.
  destruct (Re.parse (glob_to_regex p)) as [r|]; try discriminate. simpl.
  destruct (Re.match_items r name); eauto.
Qed.

Lemma last_item_total l : l <> [] -> exists x, last_item l = Ok x.
Proof.
  intros Hl. unfold last_item. destruct (rev l) as [|x r] eqn:E; eauto.
  apply (f_equal (@rev string)) in E. rewrite rev_involutive in E.
  now destruct Hl.
Qed.

Lemma find_metadata_total (pipeline : Config) name :
  manifest_modelled pipeline = true ->
  exists o, find_metadata_in pipeline name = Ok o.
Proof.
  induction pipeline as [|step pipeline IH]; simpl; intros H; eauto.
  apply andb_true_iff in H. destruct H as [Hs H].
  apply andb_true_iff in Hs. destruct Hs as [Hp Hc].
  destruct (any_pattern_total _ name Hp) as [hit ->]. simpl.
  destruct hit; auto.
  unfold has_script in Hc.
  destruct (last_item_total (l := PyStr.split (default "" (sc_cmd step))))
    as [x ->]; simpl; eauto.
  destruct (PyStr.split (default "" (sc_cmd step))); discriminate.
Qed.

Lemma resolve_matches_spec self artifact_type ms :
  manifest_modelled (config self) = true ->
  exists arts warns,
    resolve_matches self artifact_type ms = Ok (arts, warns)
    /\ List.length arts + List.length warns = List.length ms
    /\ (forall m md,
          In m ms ->
          _find_metadata_for_artifact self (m_group1 m) artifact_type
          = Ok (Some md) ->
          In (mkArtifact artifact_type (m_group1 m) (m_start m) (m_end m) md)
             arts)
    /\ (forall m,
          In m ms ->
          _find_metadata_for_artifact self (m_group1 m) artifact_type = Ok None ->
          In (warning artifact_type (m_group1 m)) warns)
    /\ (forall a,
          In a arts ->
          a_type a = artifact_type
          /\ In (mkMatch (a_name a) (a_match_start a) (a_match_end a)) ms
          /\ _find_metadata_for_artifact self (a_name a) (a_type a)
             = Ok (Some (a_metadata a))).
Proof.
  intros Hm. induction ms as [|m ms (arts & warns & Hr & Hlen & Hhit & Hmiss & Hback)].
  - exists [], []. simpl. repeat split; try contradiction; auto.
  - simpl. unfold _find_metadata_for_artifact in *.
    destruct (find_metadata_total (config self) (m_group1 m) Hm) as [o Ho].
    rewrite Ho, Hr. simpl. destruct o as [md|].
    + eexists _, _. split; [reflexivity|]. simpl.
      split; [lia|]. split; [|split].
      * intros m' md' [<-|Hin] Hl; [left; congruence | right; auto].
      * intros m' [<-|Hin] Hl; [congruence | auto].
      * intros a [<-|Hin]; simpl.
        -- split; auto. split; auto. left. now destruct m.
        -- destruct (Hback a Hin) as (? & ? & ?). auto.
    + eexists _, _. split; [reflexivity|]. simpl.
      split; [lia|]. split; [|split].
      * intros m' md' [<-|Hin] Hl; [congruence | auto].
      * intros m' [<-|Hin] Hl; [now left | right; auto].
      * intros a Hin. destruct (Hback a Hin) as (? & ? & ?). auto.
Qed.

Lemma discover_in_spec self content pats :
  manifest_modelled (config self) = true ->
  exists arts warns,
    discover_in self content pats = Ok (arts, warns)
    /\ List.length arts + List.length warns
       = list_sum (map (fun p => List.length (finditer (snd p) content)) pats)
    /\ (forall artifact_type opening m md,
          In (artifact_type, opening) pats ->
          In m (finditer opening content) ->
          _find_metadata_for_artifact self (m_group1 m) artifact_type
          = Ok (Some md) ->
          In (mkArtifact artifact_type (m_group1 m) (m_start m) (m_end m) md)
             arts)
    /\ (forall artifact_type opening m,
          In (artifact_type, opening) pats ->
          In m (finditer opening content) ->
          _find_metadata_for_artifact self (m_group1 m) artifact_type = Ok None ->
          In (warning artifact_type (m_group1 m)) warns)
    /\ (forall a,
          In a arts ->
          _find_metadata_for_artifact self (a_name a) (a_type a)
          = Ok (Some (a_metadata a))
          /\ exists opening,
               In (a_type a, opening) pats
               /\ In (mkMatch (a_name a) (a_match_start a) (a_match_end a))
                     (finditer opening content)).
Proof.
  intros Hm.
  induction pats as [|[ty op] pats (arts & warns & Hr & Hlen & Hhit & Hmiss & Hback)].
  - exists [], []. simpl. repeat split; try contradiction; auto.
  - simpl.
    destruct (resolve_matches_spec self ty (finditer op content) Hm)
      as (a1 & w1 & Hr1 & Hlen1 & Hhit1 & Hmiss1 & Hback1).
    rewrite Hr1, Hr. simpl.
    eexists _, _. split; [reflexivity|].
    split; [rewrite !length_app; lia|]. split; [|split].
    + intros ty' op' m md [Heq|Hin] Him Hl; apply in_or_app.
      * injection Heq as <- <-. left. auto.
      * right. eauto.
    + intros ty' op' m [Heq|Hin] Him Hl; apply in_or_app.
      * injection Heq as <- <-. left. auto.
      * right. eauto.
    + intros a Hin. apply in_app_or in Hin. destruct Hin as [Hin|Hin].
      * destruct (Hback1 a Hin) as (Ht & Hi & Hl). split; auto.
        exists op. rewrite Ht. split; [now left | auto].
      * destruct (Hback a Hin) as (Hl & op' & Hp & Hi). split; auto.
        exists op'. split; [now right | auto].
Qed.

(** When a name repeats, [pipeline_steps] is no longer in declaration
    order: the later step takes the place of the earlier one, and the two
    lookups part ways. *)
Example repeated_name_moves_a_step :
  let pipeline :=
    [ mkStep (Some "s") (Some "python a.py") [] ["x"];
      mkStep (Some "t") (Some "python b.py") [] ["y"];
      mkStep (Some "s") (Some "python c.py") [] ["y"] ] in
  exists self,
    new_processor pipeline = Ok self
    /\ Dict.keys (pipeline_steps self) = ["s"; "t"]
    /\ _match_artifact_to_step self no_files "y"
       = Ok (Some (mkArtifactMetadata "y" "s" None None []))
    /\ _find_metadata_for_artifact self "y" "artifact"
       = Ok (Some (mkMetadata (Some "t") "b.py" [])).
Proof. eexists. repeat split. Qed.

(** ** The glob and its regular expression *)

Module GlobFacts.

Lemma glob_to_regex_cons c p :
  glob_to_regex (String c p)
  = if Ascii.eqb c "*" then String "." (String "*" (glob_to_regex p))
    else if Ascii.eqb c "?" then String "." (glob_to_regex p)
    else String c (glob_to_regex p).
Proof.
  unfold glob_to_regex. simpl.
  destruct (Ascii.eqb c "*") eqn:Es; simpl; auto.
Qed.

(** No star of the regular expression stands at its head. *)
Lemma glob_to_regex_head p :
  match glob_to_regex p with
  | String d _ => Ascii.eqb d "*" = false
  | EmptyString => True
  end.
Proof.
  destruct p as [|c p]; [exact I|].
  rewrite glob_to_regex_cons.
  destruct (Ascii.eqb c "*") eqn:Es; [reflexivity|].
  destruct (Ascii.eqb c "?"); [reflexivity | exact Es].
Qed.

Lemma parse_dot r :
  match r with
  | String d _ => Ascii.eqb d "*" = false
  | EmptyString => True
  end ->
  Re.parse (String "." r) = option_map (cons Re.Dot) (Re.parse r).
Proof.
  destruct r as [|d r]; simpl; auto. now intros ->.
Qed.

Lemma match_star_nil r :
  Re.match_items (Re.DotStar :: r) EmptyString = Re.match_items r EmptyString.
Proof. reflexivity. Qed.

Lemma match_star_cons r a s :
  Re.match_items (Re.DotStar :: r) (String a s)
  = (Re.dot_ok a && Re.match_items (Re.DotStar :: r) s)
    || Re.match_items r (String a s).
Proof. reflexivity. Qed.

Lemma match_star_skip r s : 
  Re.match_items r s = true -> Re.match_items (Re.DotStar :: r) s = true.
Proof.
  destruct s as [|a s]; intros H.
  - now rewrite match_star_nil.
  - rewrite match_star_cons, H. apply orb_true_r.
Qed.

Lemma glob_star p s :
  glob_match (String "*" p) s
  = glob_match p s
    || match s with
       | String _ s' => glob_match (String "*" p) s'
       | EmptyString => false
       end.
Proof. destruct s; reflexivity. Qed.

(** Whatever the glob matches, the regular expression matches too, and
    any continuation of it: the code can only accept too much.  (A dot of
    the regular expression stops at a newline, hence the proviso.) *)
Lemma glob_match_is_accepted p :
  forall r, Re.parse (glob_to_regex p) = Some r ->
  forall s t,
    PyStr.lacks Re.newline s = true ->
    glob_match p s = true ->
    Re.match_items r (s ++ t) = true.
Proof.
  induction p as [|c p IH]; intros r Hr s t Hnl Hg.
  - simpl in Hr. injection Hr as <-. reflexivity.
  - rewrite glob_to_regex_cons in Hr.
    destruct (Ascii.eqb c "*") eqn:Es.
    + apply Ascii.eqb_eq in Es. subst c. simpl in Hr.
      destruct (Re.parse (glob_to_regex p)) as [r'|]; try discriminate.
      injection Hr as <-.
      induction s as [|a s IHs].
      * rewrite glob_star, orb_false_r in Hg.
        apply match_star_skip. now apply IH.
      * rewrite glob_star in Hg. pose proof Hnl as Hnl0. simpl in Hnl.
        apply andb_true_iff in Hnl. destruct Hnl as [Ha Hnl].
        apply orb_true_iff in Hg. destruct Hg as [Hg|Hg].
        -- apply match_star_skip. now apply IH.
        -- change ((String a s ++ t)%string) with (String a (s ++ t)).
           rewrite match_star_cons, (IHs Hnl Hg).
           unfold Re.dot_ok. rewrite Ha. reflexivity.
    + destruct (Ascii.eqb c "?") eqn:Eq.
      * rewrite (parse_dot _ (glob_to_regex_head p)) in Hr.
        destruct (Re.parse (glob_to_regex p)) as [r'|]; try discriminate.
        injection Hr as <-.
        apply Ascii.eqb_eq in Eq. subst c.
        destruct s as [|a s]; [discriminate|].
        simpl in Hg, Hnl. apply andb_true_iff in Hnl. destruct Hnl as [Ha Hnl].
        simpl. unfold Re.dot_ok. rewrite Ha. simpl. now apply IH.
      * assert (Hlit : forall a s',
                   s = String a s' ->
                   Ascii.eqb a c = true /\ glob_match p s' = true).
        { intros a s' ->. simpl in Hg. rewrite Es, Eq in Hg.
          now apply andb_true_iff in Hg. }
        destruct s as [|a s].
        { simpl in Hg. rewrite Es, Eq in Hg. discriminate. }
        destruct (Hlit a s eq_refl) as [Hac Hp].
        simpl in Hnl. apply andb_true_iff in Hnl. destruct Hnl as [Ha Hnl].
        destruct (Ascii.eqb c ".") eqn:Ed.
        -- apply Ascii.eqb_eq in Ed. subst c.
           rewrite (parse_dot _ (glob_to_regex_head p)) in Hr.
           destruct (Re.parse (glob_to_regex p)) as [r'|]; try discriminate.
           injection Hr as <-.
           simpl. unfold Re.dot_ok. rewrite Ha. simpl. now apply IH.
        -- simpl in Hr. rewrite Ed in Hr.
           destruct (Re.is_special c); try discriminate.
           destruct (Re.parse (glob_to_regex p)) as [r'|]; try discriminate.
           injection Hr as <-.
           simpl. rewrite Hac. simpl. now apply IH.
Qed.

(** X4: within its provisos the code accepts what the glob accepts.  A
    name without a newline that matches one of a step's output patterns
    as a glob (star for any run, question mark for one character, the
    whole name) is matched by the loop over those patterns, when they
    are globs of ordinary characters, dots, stars and question marks.
    Nothing is said of a name that holds a newline, which the dot of the
    regular expression does not match, nor of patterns with other
    metacharacters. *)
Lemma glob_match_is_found patterns p name :
  forallb pattern_modelled patterns = true ->
  In p patterns ->
  PyStr.lacks Re.newline name = true ->
  glob_match p name = true ->
  any_pattern_matches patterns name = Ok true.
Proof.
  induction patterns as [|p0 patterns IH]; simpl; intros Hm Hin Hnl Hg;
    [contradiction|].
  apply andb_true_iff in Hm. destruct Hm as [Hp0 Hm].
  unfold pattern_modelled in Hp0. unfold Re.re_match.
  destruct (Re.parse (glob_to_regex p0)) as [r|] eqn:Hr; try discriminate.
  simpl. destruct (Re.match_items r name) eqn:Hmatch; auto.
  destruct Hin as [->|Hin]; [|auto].
  assert (H := glob_match_is_accepted p Hr name EmptyString Hnl Hg).
  replace (name ++ "")%string with name in H; [congruence|].
  clear. induction name; simpl; congruence.
Qed.

End GlobFacts.

(** ** Offsets of one kind increase *)

Lemma finditer_increasing opening s :
  forall skip pos,
    StronglySorted lt (map m_start (finditer_from opening skip pos s))
    /\ Forall (fun m => pos <= m_start m) (finditer_from opening skip pos s).
Proof.
  induction s as [|c s IH]; intros skip pos; [split; constructor|].
  assert (Hrec : forall skip',
             StronglySorted lt
               (map m_start (finditer_from opening skip' (S pos) s))
             /\ Forall (fun m => pos <= m_start m)
                       (finditer_from opening skip' (S pos) s)).
  { intros skip'. destruct (IH skip' (S pos)) as [Hs Hf]. split; auto.
    eapply Forall_impl; [|exact Hf]. simpl. intros; lia. }
  cbn [finditer_from]. destruct skip as [|k]; [|apply Hrec].
  destruct (marker_at opening (String c s)) as [[name len]|]; [|apply Hrec].
  destruct (IH (len - 1) (S pos)) as [Hs Hf]. split.
  - simpl. constructor; auto. apply Forall_map.
    eapply Forall_impl; [|exact Hf]. simpl. intros; lia.
  - constructor; [simpl; lia|]. eapply Forall_impl; [|exact Hf].
    simpl. intros; lia.
Qed.

(** The entries of one kind keep the order of their matches. *)
Lemma resolve_matches_increasing self artifact_type ms arts warns :
  StronglySorted lt (map m_start ms) ->
  resolve_matches self artifact_type ms = Ok (arts, warns) ->
  StronglySorted lt (map a_match_start arts)
  /\ Forall (fun a => In (a_match_start a) (map m_start ms)) arts.
Proof.
  revert arts warns. induction ms as [|m ms IH]; intros arts warns Hs Hr.
  - simpl in Hr. injection Hr as <- <-. split; constructor.
  - simpl in Hr. inversion Hs as [|? ? Hs' Hlt]; subst.
    destruct (_find_metadata_for_artifact self (m_group1 m) artifact_type)
      as [o| |]; try discriminate.
    simpl in Hr.
    destruct (resolve_matches self artifact_type ms) as [[arts' warns']| |];
      try discriminate.
    destruct (IH arts' warns' Hs' eq_refl) as [Hsa Hin].
    assert (Hin' : Forall (fun a => In (a_match_start a)
                                       (map m_start (m :: ms))) arts').
    { eapply Forall_impl; [|exact Hin]. simpl. auto. }
    simpl in Hr. destruct o as [md|]; injection Hr as <- <-.
    + split.
      * simpl. constructor; auto. apply Forall_map.
        eapply Forall_impl; [|exact Hin]. simpl. intros a Ha.
        rewrite Forall_forall in Hlt. auto.
      * constructor; [simpl; auto | exact Hin'].
    + split; auto.
Qed.

(** ** Markers after text whose markers are closed *)

Lemma lacks_app c a b :
  PyStr.lacks c (a ++ b) = PyStr.lacks c a && PyStr.lacks c b.
Proof.
  induction a as [|x a IH]; simpl; auto. now rewrite IH, andb_assoc.
Qed.

Lemma finditer_after opening s :
  forall skip pos,
    Forall (fun m => pos + skip <= m_start m)
           (finditer_from opening skip pos s).
Proof.
  induction s as [|c s IH]; intros skip pos; [constructor|].
  cbn [finditer_from]. destruct skip as [|k].
  - destruct (marker_at opening (String c s)) as [[name len]|].
    + constructor; [simpl; lia|].
      eapply Forall_impl; [|apply (IH (len - 1) (S pos))]. simpl. intros; lia.
    + eapply Forall_impl; [|apply (IH 0 (S pos))]. simpl. intros; lia.
  - eapply Forall_impl; [|apply (IH k (S pos))]. simpl. intros; lia.
Qed.

Lemma until_brace_stops a t :
  PyStr.lacks "}" a = false ->
  until_brace (a ++ t) = until_brace a
  /\ String.length (until_brace a) < String.length a.
Proof.
  induction a as [|x a IH]; simpl; [discriminate|].
  destruct (Ascii.eqb x "}"); simpl; intros H; [split; [reflexivity|lia]|].
  destruct (IH H) as [-> Hlt]. split; [reflexivity|]. simpl. lia.
Qed.

(** A match that starts at an opening closed within [d] ends within it. *)
Lemma marker_stays_within opening d t name len :
  PyStr.lacks "}" d = false ->
  marker_at opening ((opening ++ d) ++ t) = Some (name, len) ->
  len <= String.length opening + String.length d.
Proof.
  intros Hd. unfold marker_at.
  rewrite PyStrFacts.app_assoc, PyStrFacts.startswith_app, PyStrFacts.drop_app.
  destruct (until_brace_stops d t Hd) as [-> Hlt].
  destruct (PyStr.is_empty (until_brace d)); [discriminate|].
  destruct (PyStr.startswith "}" _); [|discriminate].
  intros H. injection H as _ <-. lia.
Qed.

Section ClosedMarkers.

Import PyStr PyStrFacts.

Variable b : ascii.
Variable q : string.
Hypothesis q_lacks_b : lacks b q = true.

Let opening : string := String b q.

Variables name post : string.
Hypothesis name_not_empty : PyStr.is_empty name = false.
Hypothesis name_lacks_brace : lacks "}" name = true.

(** A marker is found when every opening before it is closed before it:
    the scan is then outside every match when it reaches the marker. *)
Lemma finditer_finds_closed pre :
  forall skip pos,
    markers_closed opening pre = true ->
    skip <= String.length pre ->
    In (mkMatch name (pos + String.length pre)
          (pos + String.length pre
           + (String.length opening + String.length name + 1)))
       (finditer_from opening skip pos
          (pre ++ opening ++ name ++ String "}" post)).
Proof.
  induction pre as [|c pre IH]; intros skip pos Hc Hskip.
  - simpl in Hskip. assert (skip = 0) as -> by lia.
    change (("" ++ opening ++ name ++ String "}" post)%string)
      with (String b (q ++ name ++ String "}" post)).
    cbn [finditer_from].
    change (String b (q ++ name ++ String "}" post))
      with ((opening ++ name ++ String "}" post)%string).
    pose proof (@marker_at_complete b q name post name_not_empty
                  name_lacks_brace) as Hmc.
    fold opening in Hmc. rewrite Hmc.
    left. simpl. now rewrite Nat.add_0_r.
  - cbn [markers_closed] in Hc. apply andb_true_iff in Hc.
    destruct Hc as [Hhere Hrest].
    replace (pos + String.length (String c pre))
      with (S pos + String.length pre) by (simpl; lia).
    change ((String c pre ++ opening ++ name ++ String "}" post)%string)
      with (String c (pre ++ opening ++ name ++ String "}" post)).
    cbn [finditer_from]. destruct skip as [|k].
    + destruct (marker_at opening
                  (String c (pre ++ opening ++ name ++ String "}" post)))
        as [[name' len']|] eqn:Hm.
      * right. apply IH; [exact Hrest|].
        change (String c (pre ++ opening ++ name ++ String "}" post))
          with ((String c pre ++ String b (q ++ name ++ String "}" post))%string)
          in Hm.
        destruct (startswith opening (String c pre)) eqn:Hs.
        -- apply negb_true_iff in Hhere.
           rewrite (startswith_split _ _ Hs) in Hm.
           apply marker_stays_within in Hm; [|exact Hhere].
           rewrite <- length_app, <- (startswith_split _ _ Hs) in Hm.
           simpl in Hm. lia.
        -- pose proof (@no_marker_before b q q_lacks_b (String c pre)
                         (q ++ name ++ String "}" post) Hs eq_refl) as Hno.
           fold opening in Hno. rewrite Hno in Hm. discriminate.
      * apply IH; [exact Hrest | lia].
    + apply IH; [exact Hrest | simpl in Hskip; lia].
Qed.

End ClosedMarkers.

(** *** Markers inside an earlier match *)

Lemma until_brace_past p s :
  PyStr.lacks "}" p = true ->
  PyStr.startswith p s = true ->
  until_brace s = (p ++ until_brace (PyStr.drop (String.length p) s))%string.
Proof.
  revert s. induction p as [|a p IH]; intros s Hp Hs; [reflexivity|].
  destruct s as [|c s]; [discriminate|]. simpl in Hp, Hs |- *.
  apply andb_true_iff in Hp. destruct Hp as [Ha Hp].
  apply andb_true_iff in Hs. destruct Hs as [Hac Hs].
  apply Ascii.eqb_eq in Hac. subst c.
  apply negb_true_iff in Ha. rewrite Ha. f_equal. auto.
Qed.

(** A match ends right after the first closing brace of the text it
    starts. *)
Lemma marker_ends_at_brace opening s name len :
  PyStr.lacks "}" opening = true ->
  marker_at opening s = Some (name, len) ->
  len = String.length (until_brace s) + 1.
Proof.
  intros Ho. unfold marker_at.
  destruct (PyStr.startswith opening s) eqn:Hs; [|discriminate].
  destruct (PyStr.is_empty _); [discriminate|].
  destruct (PyStr.startswith "}" _); [|discriminate].
  intros H. injection H as _ <-.
  now rewrite (until_brace_past _ _ Ho Hs), PyStrFacts.length_app.
Qed.

Lemma inside_match_next c s k :
  inside_match (S k) (String c s) -> inside_match k s.
Proof.
  unfold inside_match. intros [H|H]; [discriminate|]. simpl in H.
  destruct (Ascii.eqb c "}"); simpl in H; [left | right]; lia.
Qed.

Section SwallowedMarkers.

Import PyStr PyStrFacts.

Variable b : ascii.
Variable q : string.
Hypothesis b_not_brace : Ascii.eqb b "}" = false.
Hypothesis q_lacks_brace : lacks "}" q = true.

Let opening : string := String b q.

Variables name post : string.
Hypothesis name_lacks_brace : lacks "}" name = true.

Lemma opening_lacks_brace : lacks "}" opening = true.
Proof.
  unfold opening. simpl. now rewrite b_not_brace, q_lacks_brace.
Qed.

Lemma inside_match_started c s name' len' :
  marker_at opening (String c s) = Some (name', len') ->
  inside_match (len' - 1) s.
Proof.
  intros Hm. pose proof (@marker_ends_at_brace _ _ _ _ opening_lacks_brace Hm) as Hl.
  unfold marker_at in Hm.
  destruct (startswith opening (String c s)) eqn:Hs; [|discriminate].
  unfold opening in Hs. simpl in Hs.
  apply andb_true_iff in Hs. destruct Hs as [Hbc _].
  apply Ascii.eqb_eq in Hbc. subst c.
  simpl in Hl. rewrite b_not_brace in Hl. simpl in Hl.
  right. lia.
Qed.

(** An opening that is not closed before the marker starts a match that
    runs to the closing brace of the marker. *)
Lemma unclosed_opening_swallows pre :
  startswith opening pre = true ->
  lacks "}" (drop (String.length opening) pre) = true ->
  lacks "}" pre = true
  /\ marker_at opening (pre ++ opening ++ name ++ String "}" post)
     = Some ((drop (String.length opening) pre ++ opening ++ name)%string,
             String.length pre + String.length opening + String.length name
             + 1).
Proof.
  intros Hs Hd. set (d := drop (String.length opening) pre) in *.
  assert (Hpre : pre = (opening ++ d)%string) by apply (startswith_split _ _ Hs).
  split.
  - rewrite Hpre, lacks_app, opening_lacks_brace. exact Hd.
  - rewrite Hpre at 1 2.
    replace ((opening ++ d) ++ opening ++ name ++ String "}" post)%string
      with (opening ++ (d ++ opening ++ name) ++ String "}" post)%string
      by (now rewrite !app_assoc).
    pose proof (@marker_at_complete b q (d ++ opening ++ name) post) as Hmc.
    fold opening in Hmc. rewrite Hmc.
    + f_equal. f_equal. rewrite !length_app. lia.
    + destruct d; reflexivity.
    + now rewrite !lacks_app, Hd, opening_lacks_brace, name_lacks_brace.
Qed.

(** A marker standing after an opening that is not closed before it is
    never the start of a match. *)
Lemma finditer_swallows pre :
  forall skip pos,
    markers_closed opening pre = false ->
    inside_match skip (pre ++ opening ++ name ++ String "}" post) ->
    Forall (fun m => m_start m <> pos + String.length pre)
           (finditer_from opening skip pos
              (pre ++ opening ++ name ++ String "}" post)).
Proof.
  induction pre as [|c pre IH]; intros skip pos Hc Hin; [discriminate|].
  change ((String c pre ++ opening ++ name ++ String "}" post)%string)
    with (String c (pre ++ opening ++ name ++ String "}" post)) in *.
  cbn [markers_closed] in Hc.
  assert (Hshift : forall l,
             Forall (fun m => m_start m <> S pos + String.length pre) l ->
             Forall (fun m => m_start m <> pos + String.length (String c pre)) l).
  { intros l. apply Forall_impl. simpl. intros; lia. }
  assert (Hfar : forall k l,
             String.length pre < k ->
             Forall (fun m => S pos + k <= m_start m) l ->
             Forall (fun m => m_start m <> pos + String.length (String c pre)) l).
  { intros k l Hk. apply Forall_impl. simpl. intros; lia. }
  destruct (markers_closed opening pre) eqn:Hrest.
  - rewrite andb_true_r in Hc.
    destruct (startswith opening (String c pre)) eqn:Hs; [|discriminate].
    apply negb_false_iff in Hc.
    destruct (unclosed_opening_swallows _ Hs Hc) as [Hpre Hm].
    change ((String c pre ++ opening ++ name ++ String "}" post)%string)
      with (String c (pre ++ opening ++ name ++ String "}" post)) in Hm.
    cbn [finditer_from]. destruct skip as [|k].
    + rewrite Hm. constructor; [simpl; lia|].
      apply (Hfar (String.length (String c pre) + String.length opening
                   + String.length name + 1 - 1)); [simpl; lia|].
      apply finditer_after.
    + destruct Hin as [Hin|Hin]; [discriminate|].
      change (String c (pre ++ opening ++ name ++ String "}" post))
        with ((String c pre ++ opening ++ name ++ String "}" post)%string)
        in Hin.
      replace ((String c pre ++ opening ++ name ++ String "}" post)%string)
        with (((String c pre ++ opening ++ name) ++ String "}" post)%string)
        in Hin by (now rewrite !app_assoc).
      rewrite until_brace_app in Hin
        by (now rewrite !lacks_app, Hpre, opening_lacks_brace,
              name_lacks_brace).
      rewrite !length_app in Hin.
      apply (Hfar k); [simpl in Hin; lia|]. apply finditer_after.
  - cbn [finditer_from]. destruct skip as [|k].
    + destruct (marker_at opening
                  (String c (pre ++ opening ++ name ++ String "}" post)))
        as [[name' len']|] eqn:Hm.
      * constructor; [simpl; lia|]. apply Hshift, IH; [reflexivity|].
        eapply inside_match_started; exact Hm.
      * apply Hshift, IH; [reflexivity | now left].
    + apply Hshift, IH; [reflexivity|].
      eapply inside_match_next; exact Hin.
Qed.

End SwallowedMarkers.

Lemma markers_closed_without opening pre :
  PyStr.contains opening pre = false -> markers_closed opening pre = true.
Proof.
  induction pre as [|c pre IH]; [reflexivity|].
  cbn [PyStr.contains markers_closed]. intros H.
  apply orb_false_iff in H. destruct H as [-> H]. simpl. auto.
Qed.

(** ** The claims on the pattern matcher and the marker scan *)

(** C1, where the code leaves glob semantics: [re.match] anchors the start
    of the candidate only and the dot of the pattern is not escaped, so
    the step declaring fig_*.png is returned for fig_1.pngx and for
    fig_1xpng, which the glob does not match.  The three examples of the
    specification come out as it says. *)
Theorem glob_regex_accepts_beyond_the_glob :
  any_pattern_matches ["fig_*.png"] "fig_1.png" = Ok true
  /\ any_pattern_matches ["fig_*.png"] "fig_1.pdf" = Ok false
  /\ any_pattern_matches ["fig_*.png"] "sub/fig_1.png" = Ok false
  /\ glob_match "fig_*.png" "fig_1.pngx" = false
  /\ _find_metadata_for_artifact fig_processor "fig_1.pngx" "artifact"
     = Ok (Some (mkMetadata (Some "plot") "plot.py" []))
  /\ _match_artifact_to_step fig_processor no_files "fig_1.pngx"
     = Ok (Some (mkArtifactMetadata "fig_1.pngx" "plot" None None []))
  /\ glob_match "fig_*.png" "fig_1xpng" = false
  /\ _find_metadata_for_artifact fig_processor "fig_1xpng" "artifact"
     = Ok (Some (mkMetadata (Some "plot") "plot.py" [])).
Proof. repeat split. Qed.



(** C7, against the claim: the markers the scan knows are spelled
    \csfvaluelink and \csflink; \valuelink{acc} and \link{acc} are not
    recognized, although a step declares acc. *)
Lemma plain_marker_names_are_not_recognized :
  _find_metadata_for_artifact demo_processor "acc" "value"
  = Ok (Some (mkMetadata (Some "plot") "analyze.py" ["plot.py"]))
  /\ discover_artifacts_in_latex demo_processor
       (demo_files "\valuelink{acc} and \link{acc}") "paper.tex"
     = Ok ([], []).
Proof. split; reflexivity. Qed.

(** C7, as the code has it: the two markers are \csfvaluelink{NAME} and
    \csflink{NAME}, NAME being one or more characters other than a closing
    brace.  On a manifest whose output patterns the matcher reads and
    whose commands are not blank, such a marker with a name some step
    declares gives an entry with that name, its kind and its offsets
    exactly when it does not stand inside an earlier match of its kind,
    that is when every opening of its kind in the text before it is
    followed by a closing brace before it; otherwise no entry of its
    kind starts where it stands.  And every entry returned stands for a
    marker of one of the two forms at its offset. *)
Theorem csf_markers_are_recognized :
  forall (self : MetadataProcessor) (fs : Files) (latex_file : string)
         (artifact_type opening pre name post : string) (md : Metadata),
    In (artifact_type, opening) patterns ->
    manifest_modelled (config self) = true ->
    PyStr.is_empty name = false ->
    PyStr.lacks "}" name = true ->
    _find_metadata_for_artifact self name artifact_type = Ok (Some md) ->
    fs latex_file = Some (pre ++ opening ++ name ++ String "}" post)%string ->
    exists arts warns,
      discover_artifacts_in_latex self fs latex_file = Ok (arts, warns)
      /\ (markers_closed opening pre = true ->
          In (mkArtifact artifact_type name (String.length pre)
                (String.length pre
                 + (String.length opening + String.length name + 1)) md)
             arts)
      /\ (markers_closed opening pre = false ->
          forall a,
            In a arts ->
            a_type a = artifact_type ->
            a_match_start a <> String.length pre)
      /\ forall a,
           In a arts ->
           exists opening',
             In (a_type a, opening') patterns
             /\ PyStr.startswith (opening' ++ a_name a ++ "}")
                  (PyStr.drop (a_match_start a)
                     (pre ++ opening ++ name ++ String "}" post)) = true
             /\ a_match_end a
                = a_match_start a
                  + (String.length opening' + String.length (a_name a) + 1).
Proof.
  intros self fs latex_file ty op pre name post md Hp Hm Hne Hnb Hl Hf.
  unfold discover_artifacts_in_latex. rewrite Hf.
  destruct (discover_in_spec self (pre ++ op ++ name ++ String "}" post)
              patterns Hm)
    as (arts & warns & Hr & _ & Hhit & _ & Hback).
  exists arts, warns. split; [exact Hr|]. split; [|split].
  - intros Hclosed.
    apply (Hhit ty op (mkMatch name (String.length pre)
                         (String.length pre
                          + (String.length op + String.length name + 1))) md
             Hp); [|exact Hl].
    destruct Hp as [Hp|[Hp|[]]]; injection Hp as <- <-;
      refine (@finditer_finds_closed "\"%char _ _ name post Hne Hnb pre 0 0
                Hclosed (Nat.le_0_l _)); reflexivity.
  - intros Hopen a Ha Hty. destruct (Hback a Ha) as (_ & op' & Hp' & Hi).
    rewrite Hty in Hp'.
    assert (Hsame : op' = op).
    { destruct Hp as [Hp|[Hp|[]]]; injection Hp as <- <-;
        destruct Hp' as [Hp'|[Hp'|[]]]; now inversion Hp'. }
    subst op'. unfold finditer in Hi.
    assert (Hno : Forall (fun m => m_start m <> 0 + String.length pre)
                    (finditer_from op 0 0
                       (pre ++ op ++ name ++ String "}" post))).
    { destruct Hp as [Hp|[Hp|[]]]; injection Hp as <- <-;
        refine (@finditer_swallows "\"%char _ _ _ name post Hnb pre 0 0
                  Hopen (or_introl eq_refl)); reflexivity. }
    rewrite Forall_forall in Hno. exact (Hno _ Hi).
  - intros a Ha. destruct (Hback a Ha) as (_ & op' & Hp' & Hi).
    exists op'. split; [exact Hp'|].
    assert (Hs : forall b q, op' = String b q ->
                 PyStr.startswith (op' ++ a_name a ++ "}")
                   (PyStr.drop (a_match_start a)
                      (pre ++ op ++ name ++ String "}" post)) = true
                 /\ a_match_end a
                    = a_match_start a
                      + (String.length op' + String.length (a_name a) + 1)).
    { intros b q ->. unfold finditer in Hi.
      destruct (@finditer_sound b q _ _ _ _ Hi) as (_ & Hst & He & _).
      simpl in Hst, He. rewrite Nat.sub_0_r in Hst. auto. }
    destruct Hp' as [Hp'|[Hp'|[]]]; injection Hp' as _ <-;
      eapply Hs; reflexivity.
Qed.

(** C8, where the code leaves document order: the loop runs over the kinds
    first, so every value marker comes before every artifact marker
    whatever their offsets.  [enhance_latex_document] inserts "in reverse
    to not mess up indices", which holds for a list in document order
    only: with an artifact marker before a value marker the comment of the
    value marker lands one place early, between the first marker and the
    blank. *)
Theorem discovery_is_by_kind_not_by_offset :
  exists art_b art_a,
    discover_artifacts_in_latex demo_processor
      (demo_files "\csflink{a} \csfvaluelink{b}") "paper.tex"
    = Ok ([art_b; art_a], [])
    /\ (a_type art_b, a_name art_b, a_match_start art_b) = ("value", "b", 12)
    /\ (a_type art_a, a_name art_a, a_match_start art_a) = ("artifact", "a", 0)
    /\ insert_metadata_comments "\csflink{a} \csfvaluelink{b}" [art_b; art_a]
       = (metadata_comment art_a ++ "\csflink{a}"
          ++ metadata_comment art_b ++ " \csfvaluelink{b}")%string
    /\ insert_metadata_comments "\csflink{a} \csfvaluelink{b}" [art_a; art_b]
       = (metadata_comment art_a ++ "\csflink{a} "
          ++ metadata_comment art_b ++ "\csfvaluelink{b}")%string.
Proof. do 2 eexists. repeat split. Qed.

(** ** The claims at the worked data *)

Lemma demo_entries_complete :
  forall e, In e demo_entries -> is_value_record e = true -> complete e = true.
Proof.
  intros e H Hv.
  repeat (destruct H as [<-|H]; [first [reflexivity | discriminate]|]).
  contradiction.
Qed.


Lemma first_declared_step_wins_witness :
  _find_step_for_script demo_cfg "analyze.py" = Some "analyze"
  /\ (exists md,
         _match_artifact_to_step demo_processor no_files "results/acc.json"
         = Ok (Some md)
         /\ Some "analyze" = Some (am_step_name md))
  /\ exists md,
       _find_metadata_for_artifact demo_processor "results/acc.json" "artifact"
       = Ok (Some md)
       /\ md_step md = Some "analyze".
Proof.
  destruct (first_declared_step_wins []
              [ mkStep (Some "plot") (Some "python plot.py analyze.py")
                  ["plot.py"] ["fig_*.png"; "a"; "b"; "acc"; "results/*"] ]
              (mkStep (Some "analyze") (Some "python analyze.py") []
                 ["results/acc.json"])
              no_files)
    as (Hscript & Hstep & Hmeta & _).
  split; [|split].
  - apply Hscript; [reflexivity | intros s' []].
  - apply Hstep; [reflexivity | | reflexivity | intros s' []].
    repeat constructor; simpl; intuition discriminate.
  - apply (Hmeta demo_processor "results/acc.json" "artifact" "analyze.py");
      [reflexivity | reflexivity | reflexivity | intros s' []].
Defined.


Lemma values_tex_is_reproducible_witness :
  exists self1 fs1,
    process_document str_int demo_extractor demo_project = Ok (self1, fs1)
    /\ process_document str_int self1 fs1 = Ok (self1, fs1)
    /\ Dict.keys (ve_values self1) = ["acc"; "n"]
    /\ values_tex fs1
       = Some
           (PyStr.join (String Re.newline EmptyString)
              [ "% CSF Values - Auto-generated by extract-values.py";
                "% Generated from 2 statistical annotations";
                "% Do not edit manually - regenerate with 'cstex-compile'";
                "";
                "\csfdefinevalue{acc}{94}{analyze}{unknown}";
                "\csfdefinevalue{n}{7}{unknown}{unknown}";
                "";
                "% Mark values as cached";
                "\csfvaluescachedtrue";
                "" ]).
Proof.
  eexists _, _. split; [reflexivity|].
  destruct (@values_tex_is_reproducible Z str_int demo_extractor _
              demo_project _ eq_refl)
    as (Hagain & _ & _ & _ & Htext & _).
  split; [exact Hagain|]. split; [reflexivity|].
  rewrite Htext; [reflexivity | discriminate].
Defined.

(** C6, against the claim: the entry the log gives for acc has value type
    "unknown", not "value". *)
Lemma log_value_type_is_not_value :
  exists self1 values ev,
    extract_values_from_log str_int demo_extractor demo_project
    = Ok (self1, values)
    /\ Dict.get "acc" values = Some ev
    /\ ev_value_type ev = "unknown"
    /\ ev_value_type ev <> "value".
Proof.
  eexists _, _, _. split; [reflexivity|]. split; [reflexivity|].
  split; [reflexivity | discriminate].
Qed.

Lemma log_value_type_is_unknown_witness :
  exists ev,
    option_map (fun r => Dict.get "acc" (snd r))
      (match extract_values_from_log str_int demo_extractor demo_project with
       | Ok r => Some r
       | _ => None
       end)
    = Some (Some ev)
    /\ ev_value_type ev = "unknown".
Proof.
  eexists. split; [reflexivity|].
  apply (@log_value_type_is_unknown Z str_int demo_extractor _ demo_project _
           eq_refl "acc" _ eq_refl).
Defined.

Lemma csf_markers_are_recognized_witness :
  (exists arts warns,
      discover_artifacts_in_latex demo_processor
        (demo_files "\csflink{a} and \csflink{b}.") "paper.tex"
      = Ok (arts, warns)
      /\ In (mkArtifact "artifact" "b" 16 27
               (mkMetadata (Some "plot") "analyze.py" ["plot.py"])) arts)
  /\ (exists arts warns,
         discover_artifacts_in_latex demo_processor
           (demo_files "\csflink{a \csflink{b}.") "paper.tex"
         = Ok (arts, warns)
         /\ arts = [ mkArtifact "artifact" "a \csflink{b" 0 22
                       (mkMetadata (Some "plot") "analyze.py" ["plot.py"]) ]
         /\ Forall (fun a => Nat.eqb (a_match_start a) 11 = false) arts).
Proof.
  split.
  - destruct (@csf_markers_are_recognized demo_processor
                (demo_files "\csflink{a} and \csflink{b}.") "paper.tex"
                "artifact" "\csflink{" "\csflink{a} and " "b" "."
                (mkMetadata (Some "plot") "analyze.py" ["plot.py"])
                (or_intror (or_introl eq_refl)) eq_refl eq_refl eq_refl
                eq_refl eq_refl)
      as (arts & warns & Hd & Hin & _).
    exists arts, warns. split; [exact Hd | exact (Hin eq_refl)].
  - destruct (@csf_markers_are_recognized demo_processor
                (demo_files "\csflink{a \csflink{b}.") "paper.tex"
                "artifact" "\csflink{" "\csflink{a " "b" "."
                (mkMetadata (Some "plot") "analyze.py" ["plot.py"])
                (or_intror (or_introl eq_refl)) eq_refl eq_refl eq_refl
                eq_refl eq_refl)
      as (arts & warns & Hd & _ & Hout & _).
    exists arts, warns. split; [exact Hd|].
    assert (Harts : arts = [ mkArtifact "artifact" "a \csflink{b" 0 22
                               (mkMetadata (Some "plot") "analyze.py"
                                  ["plot.py"]) ]).
    { vm_compute in Hd. injection Hd as <- _. reflexivity. }
    split; [exact Harts|].
    apply Forall_forall. intros a Ha. apply Nat.eqb_neq.
    apply (Hout eq_refl a Ha). rewrite Harts in Ha.
    destruct Ha as [<-|[]]. reflexivity.
Defined.

Lemma incomplete_value_record_is_fatal_witness :
  let fs := mkProject
              (Some (log_of [ value_record "acc" 80 "analyze.py" 42;
                              mkEntry (Some "value") (Some "n") (Some 7%Z)
                                      None (Some 3%Z) ]))
              (Some "old") in
  (exists key, extract_values_from_log str_int demo_extractor fs
               = Raise (KeyError key))
  /\ main str_int demo_cfg fs = Ok (1, fs).
Proof.
  destruct (@incomplete_value_record_is_fatal Z str_int demo_cfg (Some "old")
              [ value_record "acc" 80 "analyze.py" 42 ]
              (mkEntry (Some "value") (Some "n") (Some 7%Z) None (Some 3%Z))
              [] [None] eq_refl eq_refl (or_introl eq_refl))
    as ((key & _ & Hk) & Hmain & _).
  split; [exists key; apply Hk | exact Hmain].
Defined.

(** * Further properties *)

(** ** Loading the manifest *)

Lemma load_steps_get_other (pipeline : Config) acc steps n :
  load_steps pipeline acc = Ok steps ->
  (forall sc, In sc pipeline -> sc_name sc <> Some n) ->
  Dict.get n steps = Dict.get n acc.
Proof.
  revert acc. induction pipeline as [|sc pipeline IH]; simpl; intros acc Hl Hn.
  - now injection Hl as <-.
  - destruct (sc_name sc) as [n0|] eqn:En; try discriminate.
    destruct (sc_cmd sc) as [c|]; try discriminate. simpl in Hl.
    rewrite (IH _ Hl) by (intros; apply Hn; auto).
    apply DictFacts.get_set_other. intros ->.
    apply (Hn sc); auto.
Qed.

Lemma load_steps_get_last (l1 l2 : Config) sc acc steps n c :
  load_steps (l1 ++ sc :: l2) acc = Ok steps ->
  sc_name sc = Some n -> sc_cmd sc = Some c ->
  (forall s', In s' l2 -> sc_name s' <> Some n) ->
  Dict.get n steps = Some (mkPipelineStep n c (sc_inputs sc) (sc_outputs sc)).
Proof.
  revert acc. induction l1 as [|s1 l1 IH]; simpl; intros acc Hl Hn Hc Hlater.
  - rewrite Hn, Hc in Hl. simpl in Hl.
    rewrite (load_steps_get_other _ _ Hl Hlater).
    apply DictFacts.get_set_same.
  - destruct (sc_name s1); try discriminate.
    destruct (sc_cmd s1); try discriminate. eauto.
Qed.

Lemma load_steps_keys (pipeline : Config) acc steps :
  load_steps pipeline acc = Ok steps ->
  Dict.keys steps
  = Dict.keys acc ++ first_occurrences (Dict.keys acc) (step_names pipeline).
Proof.
  revert acc. induction pipeline as [|sc pipeline IH]; simpl; intros acc Hl.
  - injection Hl as <-. now rewrite app_nil_r.
  - destruct (sc_name sc) as [n|]; try discriminate.
    destruct (sc_cmd sc) as [c|]; try discriminate. simpl in *.
    rewrite (IH _ Hl), DictFacts.keys_set.
    destruct (existsb (String.eqb n) (Dict.keys acc)); auto.
    now rewrite <- app_assoc.
Qed.

(** X1: [_load_config] keeps one step per name.  The names stand in
    [pipeline_steps] in the order of their first declaration, and the
    step kept under a name is the last one declared with it. *)
Theorem load_config_keeps_the_last_step :
  forall (cfg : Config) (self : MetadataProcessor),
    new_processor cfg = Ok self ->
    config self = cfg
    /\ Dict.keys (pipeline_steps self) = first_occurrences [] (step_names cfg)
    /\ forall l1 sc l2 n c,
         cfg = l1 ++ sc :: l2 ->
         sc_name sc = Some n -> sc_cmd sc = Some c ->
         (forall s', In s' l2 -> sc_name s' <> Some n) ->
         Dict.get n (pipeline_steps self)
         = Some (mkPipelineStep n c (sc_inputs sc) (sc_outputs sc)).
Proof.
  intros cfg self Hnew. unfold new_processor in Hnew.
  destruct (load_steps cfg (Dict.empty _)) as [steps| |] eqn:Hl;
    try discriminate.
  simpl in Hnew. injection Hnew as <-. simpl.
  split; [reflexivity|]. split.
  - now rewrite (load_steps_keys _ _ Hl).
  - intros l1 sc l2 n c -> Hn Hc Hlater.
    eapply load_steps_get_last; eauto.
Qed.

Lemma load_config_keeps_the_last_step_witness :
  exists self,
    new_processor
      [ mkStep (Some "s") (Some "python a.py") [] ["x"];
        mkStep (Some "t") (Some "python b.py") [] ["y"];
        mkStep (Some "s") (Some "python c.py") ["c.py"] ["y"] ]
    = Ok self
    /\ Dict.keys (pipeline_steps self) = ["s"; "t"]
    /\ Dict.get "s" (pipeline_steps self)
       = Some (mkPipelineStep "s" "python c.py" ["c.py"] ["y"]).
Proof.
  eexists. split; [reflexivity|].
  destruct (load_config_keeps_the_last_step
              [ mkStep (Some "s") (Some "python a.py") [] ["x"];
                mkStep (Some "t") (Some "python b.py") [] ["y"];
                mkStep (Some "s") (Some "python c.py") ["c.py"] ["y"] ]
              eq_refl)
    as (_ & Hkeys & Hlast).
  split; [exact Hkeys|].
  apply (Hlast [ mkStep (Some "s") (Some "python a.py") [] ["x"];
                 mkStep (Some "t") (Some "python b.py") [] ["y"] ]
               (mkStep (Some "s") (Some "python c.py") ["c.py"] ["y"]) []
               "s" "python c.py" eq_refl eq_refl eq_refl).
  intros s' [].
Defined.

Lemma load_steps_total (pipeline : Config) acc :
  forallb has_name_and_cmd pipeline = true ->
  exists steps, load_steps pipeline acc = Ok steps.
Proof.
  revert acc. induction pipeline as [|sc pipeline IH]; simpl; intros acc H;
    eauto.
  apply andb_true_iff in H. destruct H as [Hsc H]. unfold has_name_and_cmd in Hsc.
  destruct (sc_name sc); try discriminate.
  destruct (sc_cmd sc); try discriminate. simpl. auto.
Qed.

Lemma load_steps_stops (l1 l2 : Config) sc acc :
  forallb has_name_and_cmd l1 = true ->
  has_name_and_cmd sc = false ->
  load_steps (l1 ++ sc :: l2) acc
  = Raise (KeyError (match sc_name sc with None => "name" | Some _ => "cmd" end)).
Proof.
  revert acc. induction l1 as [|s1 l1 IH]; simpl; intros acc H Hsc.
  - unfold has_name_and_cmd in Hsc.
    destruct (sc_name sc); [destruct (sc_cmd sc)|]; try discriminate; auto.
  - apply andb_true_iff in H. destruct H as [H1 H].
    unfold has_name_and_cmd in H1.
    destruct (sc_name s1); try discriminate.
    destruct (sc_cmd s1); try discriminate. simpl. auto.
Qed.

(** X2: the manifest loads exactly when every step has a name and a
    command.  The first step that lacks one stops the load with
    [KeyError], on "name" when the name is missing and on "cmd" when only
    the command is; nothing of the later steps is looked at. *)
Theorem load_config_needs_name_and_cmd :
  forall (cfg : Config),
    (forallb has_name_and_cmd cfg = true <->
     exists self, new_processor cfg = Ok self)
    /\ forall l1 sc l2,
         cfg = l1 ++ sc :: l2 ->
         forallb has_name_and_cmd l1 = true ->
         has_name_and_cmd sc = false ->
         new_processor cfg
         = Raise (KeyError (match sc_name sc with
                            | None => "name"
                            | Some _ => "cmd"
                            end)).
Proof.
  intros cfg.
  assert (Hstop : forall l1 sc l2,
             cfg = l1 ++ sc :: l2 ->
             forallb has_name_and_cmd l1 = true ->
             has_name_and_cmd sc = false ->
             new_processor cfg
             = Raise (KeyError (match sc_name sc with
                                | None => "name"
                                | Some _ => "cmd"
                                end))).
  { intros l1 sc l2 -> Hl1 Hsc. unfold new_processor.
    now rewrite (load_steps_stops l1 l2 sc _ Hl1 Hsc). }
  split; [|exact Hstop]. split.
  - intros H. unfold new_processor.
    destruct (load_steps_total cfg (Dict.empty _) H) as [steps ->].
    simpl. eauto.
  - intros [self Hself].
    destruct (forallb has_name_and_cmd cfg) eqn:Hall; auto. exfalso.
    assert (Hsplit : exists l1 sc l2,
               cfg = l1 ++ sc :: l2
               /\ forallb has_name_and_cmd l1 = true
               /\ has_name_and_cmd sc = false).
    { clear - Hall. induction cfg as [|sc cfg IH]; [discriminate|].
      simpl in Hall. destruct (has_name_and_cmd sc) eqn:Hsc.
      - destruct (IH Hall) as (l1 & sc' & l2 & -> & Hl1 & Hsc').
        exists (sc :: l1), sc', l2. simpl. rewrite Hsc. auto.
      - exists [], sc, cfg. auto. }
    destruct Hsplit as (l1 & sc & l2 & Hcfg & Hl1 & Hsc).
    rewrite (Hstop l1 sc l2 Hcfg Hl1 Hsc) in Hself. discriminate.
Qed.

Lemma load_config_needs_name_and_cmd_witness :
  new_processor
    [ mkStep (Some "s") (Some "python a.py") [] ["x"];
      mkStep (Some "t") None [] ["y"];
      mkStep None None [] [] ]
  = Raise (KeyError "cmd").
Proof.
  destruct (load_config_needs_name_and_cmd
              [ mkStep (Some "s") (Some "python a.py") [] ["x"];
                mkStep (Some "t") None [] ["y"];
                mkStep None None [] [] ])
    as [_ Hstop].
  apply (Hstop [ mkStep (Some "s") (Some "python a.py") [] ["x"] ]
               (mkStep (Some "t") None [] ["y"])
               [ mkStep None None [] [] ] eq_refl eq_refl eq_refl).
Defined.

(** ** What the pattern matcher accepts *)

Lemma match_items_extends r :
  forall s t, Re.match_items r s = true -> Re.match_items r (s ++ t) = true.
Proof.
  induction r as [|i r IH]; intros s t H; [reflexivity|].
  destruct i as [c| |].
  - destruct s as [|a s]; [discriminate|]. simpl in *.
    apply andb_true_iff in H. destruct H as [-> H]. simpl. auto.
  - destruct s as [|a s]; [discriminate|]. simpl in *.
    apply andb_true_iff in H. destruct H as [-> H]. simpl. auto.
  - induction s as [|a s IHs].
    + rewrite GlobFacts.match_star_nil in H.
      apply GlobFacts.match_star_skip. now apply (IH EmptyString t).
    + rewrite GlobFacts.match_star_cons in H.
      change ((String a s ++ t)%string) with (String a (s ++ t)).
      rewrite GlobFacts.match_star_cons.
      apply orb_true_iff in H. destruct H as [H|H].
      * apply andb_true_iff in H. destruct H as [-> H].
        rewrite (IHs H). reflexivity.
      * apply (IH _ t) in H.
        change ((String a s ++ t)%string) with (String a (s ++ t)) in H.
        rewrite H. apply orb_true_r.
Qed.

Lemma any_pattern_extends patterns name t :
  any_pattern_matches patterns name = Ok true ->
  any_pattern_matches patterns (name ++ t) = Ok true.
Proof.
  induction patterns as [|p patterns IH]; simpl; [discriminate|].
  unfold Re.re_match.
  destruct (Re.parse (glob_to_regex p)) as [r|]; simpl; [|discriminate].
  destruct (Re.match_items r name) eqn:Hm.
  - now rewrite (match_items_extends r name t Hm).
  - intros H. destruct (Re.match_items r (name ++ t)); auto.
Qed.

(** X3: matching is by prefix.  When a name is matched to a step, so is
    every name that continues it (by that step or by one declared before
    it); an output pattern that matches the empty name matches every
    name. *)
Theorem matched_names_extend :
  forall (self : MetadataProcessor) (name t artifact_type : string)
         (md : Metadata),
    manifest_modelled (config self) = true ->
    _find_metadata_for_artifact self name artifact_type = Ok (Some md) ->
    exists md',
      _find_metadata_for_artifact self (name ++ t) artifact_type
      = Ok (Some md').
Proof.
  intros self name t artifact_type md Hm.
  unfold _find_metadata_for_artifact.
  induction (config self) as [|step pipeline IH]; simpl; [discriminate|].
  simpl in Hm. apply andb_true_iff in Hm. destruct Hm as [Hs Hm].
  apply andb_true_iff in Hs. destruct Hs as [Hp Hc].
  destruct (any_pattern_total _ (name ++ t) Hp) as [hit' Hhit'].
  destruct (any_pattern_total _ name Hp) as [hit Hhit].
  rewrite Hhit, Hhit'. simpl.
  destruct hit.
  - rewrite (any_pattern_extends _ _ t Hhit) in Hhit'.
    injection Hhit' as <-.
    destruct (last_item (PyStr.split (default "" (sc_cmd step)))); simpl;
      try discriminate. eauto.
  - intros H. destruct hit'; [|auto].
    unfold has_script in Hc.
    destruct (last_item_total (l := PyStr.split (default "" (sc_cmd step))))
      as [x ->]; simpl; eauto.
    destruct (PyStr.split (default "" (sc_cmd step))); discriminate.
Qed.

Lemma matched_names_extend_witness :
  exists md',
    _find_metadata_for_artifact demo_processor
      ("results/acc.json" ++ ".bak") "artifact"
    = Ok (Some md').
Proof.
  apply (@matched_names_extend demo_processor "results/acc.json" ".bak"
           "artifact" (mkMetadata (Some "analyze") "analyze.py" [])
           eq_refl eq_refl).
Defined.

(** ** What a lookup returns *)

Lemma generating_script_is_python fs step sp :
  _find_generating_script fs step = Some sp ->
  PyStr.endswith ".py" sp = true
  /\ (In sp (PyStr.split (ps_cmd step)) /\ file_exists fs sp = true
      \/ In sp (ps_inputs step)).
Proof.
  unfold _find_generating_script.
  destruct (find _ (PyStr.split (ps_cmd step))) as [part|] eqn:Hf.
  - intros H. injection H as <-.
    apply find_some in Hf. destruct Hf as [Hin Hb].
    apply andb_true_iff in Hb. destruct Hb. auto.
  - intros H. apply find_some in H. destruct H. auto.
Qed.

Lemma match_in_steps_sound fs items artifact_path md :
  match_in_steps fs items artifact_path = Ok (Some md) ->
  exists l1 step l2,
    items = l1 ++ (am_step_name md, step) :: l2
    /\ any_pattern_matches (ps_outputs step) artifact_path = Ok true
    /\ (forall item, In item l1 ->
          any_pattern_matches (ps_outputs (snd item)) artifact_path = Ok false)
    /\ md = mkArtifactMetadata artifact_path (am_step_name md)
              (_find_generating_script fs step) None (ps_inputs step).
Proof.
  induction items as [|[n step] items IH]; simpl; [discriminate|].
  destruct (any_pattern_matches (ps_outputs step) artifact_path)
    as [hit| |] eqn:Hhit; try discriminate.
  simpl. destruct hit.
  - intros H. injection H as <-. simpl. exists [], step, items.
    repeat split; auto. intros item [].
  - intros H. destruct (IH H) as (l1 & st & l2 & -> & Hs & Hl1 & Hmd).
    exists ((n, step) :: l1), st, l2. repeat split; auto.
    intros item [<-|Hin]; auto.
Qed.

(** X5: what [_match_artifact_to_step] returns names a step of
    [pipeline_steps], one of whose output patterns matches the artifact,
    no step before it doing so; the metadata carry the artifact path as it
    was given, that step's inputs as dependencies, no line number, and a
    script that, when there is one, ends in ".py" and is a word of the
    step's command that exists on disk or one of its inputs. *)
Theorem matched_artifact_belongs_to_a_step :
  forall (self : MetadataProcessor) (fs : Files) (artifact_path : string)
         (md : ArtifactMetadata),
    _match_artifact_to_step self fs artifact_path = Ok (Some md) ->
    am_path md = artifact_path
    /\ am_line_number md = None
    /\ exists l1 step l2,
         pipeline_steps self = l1 ++ (am_step_name md, step) :: l2
         /\ any_pattern_matches (ps_outputs step) artifact_path = Ok true
         /\ (forall item, In item l1 ->
               any_pattern_matches (ps_outputs (snd item)) artifact_path
               = Ok false)
         /\ am_dependencies md = ps_inputs step
         /\ forall sp,
              am_script_path md = Some sp ->
              PyStr.endswith ".py" sp = true
              /\ (In sp (PyStr.split (ps_cmd step)) /\ file_exists fs sp = true
                  \/ In sp (ps_inputs step)).
Proof.
  intros self fs artifact_path md H. unfold _match_artifact_to_step in H.
  destruct (match_in_steps_sound _ _ _ H) as (l1 & step & l2 & Hi & Hs & Hl & Hmd).
  rewrite Hmd. simpl. split; [reflexivity|]. split; [reflexivity|].
  exists l1, step, l2. rewrite Hmd in Hi. simpl in Hi.
  split; [exact Hi|]. split; [exact Hs|]. split; [exact Hl|].
  split; [reflexivity|]. intros sp Hsp.
  now apply generating_script_is_python.
Qed.

Lemma matched_artifact_belongs_to_a_step_witness :
  exists md step,
    _match_artifact_to_step demo_processor (demo_files "") "fig_1.png"
    = Ok (Some md)
    /\ In (am_step_name md, step) (pipeline_steps demo_processor)
    /\ am_dependencies md = ps_inputs step
    /\ am_script_path md = Some "plot.py".
Proof.
  destruct (@matched_artifact_belongs_to_a_step demo_processor (demo_files "")
              "fig_1.png"
              (mkArtifactMetadata "fig_1.png" "plot" (Some "plot.py") None
                 ["plot.py"])
              eq_refl)
    as (_ & _ & l1 & step & l2 & Hi & _ & _ & Hd & _).
  exists (mkArtifactMetadata "fig_1.png" "plot" (Some "plot.py") None ["plot.py"]),
         step.
  split; [reflexivity|]. split; [|split; [exact Hd | reflexivity]].
  rewrite Hi. apply in_elt.
Defined.

Lemma all_chars_app f s t :
  all_chars f (s ++ t) = all_chars f s && all_chars f t.
Proof.
  induction s as [|c s IH]; simpl; auto. now rewrite IH, andb_assoc.
Qed.

(** The words of [str.split()] are not empty and hold no whitespace. *)
Lemma split_from_words cur s w :
  all_chars not_space cur = true ->
  In w (PyStr.split_from cur s) ->
  PyStr.is_empty w = false /\ all_chars not_space w = true.
Proof.
  revert cur. induction s as [|c s IH]; simpl; intros cur Hcur Hin.
  - destruct cur; simpl in Hin; [contradiction|].
    destruct Hin as [<-|[]]. auto.
  - destruct (PyStr.isspace c) eqn:Hc.
    + destruct cur as [|a cur]; simpl in Hin.
      * apply (IH EmptyString); auto.
      * destruct Hin as [<-|Hin]; [auto|]. apply (IH EmptyString); auto.
    + apply (IH (cur ++ String c EmptyString)%string); auto.
      rewrite all_chars_app, Hcur. simpl. unfold not_space. now rewrite Hc.
Qed.

Lemma last_item_in l x : last_item l = Ok x -> In x l.
Proof.
  unfold last_item. destruct (rev l) as [|y r] eqn:E; [discriminate|].
  intros H. injection H as ->. apply in_rev. rewrite E. now left.
Qed.

Lemma find_metadata_sound (pipeline : Config) name md :
  find_metadata_in pipeline name = Ok (Some md) ->
  exists l1 step l2,
    pipeline = l1 ++ step :: l2
    /\ any_pattern_matches (sc_outputs step) name = Ok true
    /\ (forall s', In s' l1 ->
          any_pattern_matches (sc_outputs s') name = Ok false)
    /\ last_item (PyStr.split (default "" (sc_cmd step))) = Ok (md_script md)
    /\ md = mkMetadata (sc_name step) (md_script md) (sc_inputs step).
Proof.
  induction pipeline as [|step pipeline IH]; simpl; [discriminate|].
  destruct (any_pattern_matches (sc_outputs step) name) as [hit| |] eqn:Hhit;
    try discriminate.
  simpl. destruct hit.
  - destruct (last_item (PyStr.split (default "" (sc_cmd step))))
      as [script| |] eqn:Hs; try discriminate.
    simpl. intros H. injection H as <-. simpl.
    exists [], step, pipeline. repeat split; auto. intros s' [].
  - intros H. destruct (IH H) as (l1 & st & l2 & -> & Hm & Hl1 & Hs & Hmd).
    exists (step :: l1), st, l2. repeat split; auto.
    intros s' [<-|Hin]; auto.
Qed.

(** X6: what [_find_metadata_for_artifact] returns comes from the first
    step of the manifest with a matching output pattern: its name, its
    inputs, and as script the last word of its command, whatever that word
    is; the script is never empty and holds no whitespace. *)
Theorem metadata_comes_from_the_first_matching_step :
  forall (self : MetadataProcessor) (name artifact_type : string)
         (md : Metadata),
    _find_metadata_for_artifact self name artifact_type = Ok (Some md) ->
    exists l1 step l2,
      config self = l1 ++ step :: l2
      /\ any_pattern_matches (sc_outputs step) name = Ok true
      /\ (forall s', In s' l1 ->
            any_pattern_matches (sc_outputs s') name = Ok false)
      /\ md_step md = sc_name step
      /\ md_dependencies md = sc_inputs step
      /\ last_item (PyStr.split (default "" (sc_cmd step))) = Ok (md_script md)
      /\ PyStr.is_empty (md_script md) = false
      /\ all_chars not_space (md_script md) = true.
Proof.
  intros self name artifact_type md H.
  destruct (find_metadata_sound _ _ H) as (l1 & step & l2 & Hc & Hm & Hl & Hs & Hmd).
  exists l1, step, l2. rewrite Hmd at 1 2. simpl.
  repeat (split; [assumption || reflexivity|]).
  apply (split_from_words EmptyString (default "" (sc_cmd step))); auto.
  now apply last_item_in.
Qed.

Lemma metadata_comes_from_the_first_matching_step_witness :
  exists step,
    In step (config demo_processor)
    /\ sc_name step = Some "plot"
    /\ last_item (PyStr.split (default "" (sc_cmd step))) = Ok "analyze.py".
Proof.
  destruct (@metadata_comes_from_the_first_matching_step demo_processor
              "fig_1.png" "artifact"
              (mkMetadata (Some "plot") "analyze.py" ["plot.py"]) eq_refl)
    as (l1 & step & l2 & Hc & _ & _ & Hn & _ & Hs & _).
  exists step. split; [rewrite Hc; apply in_elt|].
  split; [symmetry; exact Hn | exact Hs].
Defined.

Lemma no_outputs_no_metadata (pipeline : Config) name :
  (forall step, In step pipeline -> sc_outputs step = []) ->
  find_metadata_in pipeline name = Ok None.
Proof.
  induction pipeline as [|step pipeline IH]; simpl; intros H; auto.
  rewrite (H step (or_introl eq_refl)). simpl. auto.
Qed.

Lemma no_outputs_no_step fs items artifact_path :
  (forall item, In item items -> ps_outputs (snd item) = []) ->
  match_in_steps fs items artifact_path = Ok None.
Proof.
  induction items as [|[n step] items IH]; simpl; intros H; auto.
  pose proof (H (n, step) (or_introl eq_refl)) as H1. simpl in H1.
  rewrite H1. simpl. auto.
Qed.

(** X7: steps that declare no outputs match nothing.  On a manifest none
    of whose steps has an output pattern (the empty manifest among them)
    both lookups return [None] for every name, the empty name included,
    without raising, whatever the commands are. *)
Theorem steps_without_outputs_match_nothing :
  forall (self : MetadataProcessor) (fs : Files) (name artifact_type : string),
    (forall step, In step (config self) -> sc_outputs step = []) ->
    (forall item, In item (pipeline_steps self) -> ps_outputs (snd item) = []) ->
    _find_metadata_for_artifact self name artifact_type = Ok None
    /\ _match_artifact_to_step self fs name = Ok None.
Proof.
  intros self fs name artifact_type Hc Hp. split.
  - now apply no_outputs_no_metadata.
  - now apply no_outputs_no_step.
Qed.

Lemma steps_without_outputs_match_nothing_witness :
  _find_metadata_for_artifact
    (mkProcessor [("s", mkPipelineStep "s" "" [] [])] [mkStep (Some "s") None [] []])
    "" "value" = Ok None
  /\ _match_artifact_to_step
       (mkProcessor [("s", mkPipelineStep "s" "" [] [])]
                    [mkStep (Some "s") None [] []])
       no_files "" = Ok None.
Proof.
  apply (@steps_without_outputs_match_nothing
           (mkProcessor [("s", mkPipelineStep "s" "" [] [])]
                        [mkStep (Some "s") None [] []])
           no_files "" "value").
  - intros step [<-|[]]. reflexivity.
  - intros item [<-|[]]. reflexivity.
Defined.

(** ** What the marker scan returns *)

Lemma contains_tail p c s :
  PyStr.contains p (String c s) = false -> PyStr.contains p s = false.
Proof.
  cbn [PyStr.contains]. intros H. now apply orb_false_iff in H.
Qed.

Lemma contains_head p c s :
  PyStr.contains p (String c s) = false ->
  PyStr.startswith p (String c s) = false.
Proof.
  cbn [PyStr.contains]. intros H. now apply orb_false_iff in H.
Qed.

Lemma finditer_nothing opening s :
  PyStr.contains opening s = false ->
  forall skip pos, finditer_from opening skip pos s = [].
Proof.
  induction s as [|c s IH]; intros Hc skip pos; [reflexivity|].
  cbn [finditer_from]. destruct skip as [|k].
  - unfold marker_at. rewrite (contains_head _ _ _ Hc).
    apply IH. eapply contains_tail; eauto.
  - apply IH. eapply contains_tail; eauto.
Qed.

(** X8: a document that holds neither \csfvaluelink{ nor \csflink{ gives
    no entry and no warning, and the manifest is not consulted: this holds
    for every manifest, also one whose patterns or commands would make a
    lookup fail. *)
Theorem document_without_markers_gives_nothing :
  forall (self : MetadataProcessor) (fs : Files) (latex_file content : string),
    fs latex_file = Some content ->
    PyStr.contains "\csfvaluelink{" content = false ->
    PyStr.contains "\csflink{" content = false ->
    discover_artifacts_in_latex self fs latex_file = Ok ([], []).
Proof.
  intros self fs latex_file content Hf Hv Ha.
  unfold discover_artifacts_in_latex. rewrite Hf. simpl.
  unfold finditer.
  now rewrite (finditer_nothing _ _ Hv), (finditer_nothing _ _ Ha).
Qed.

Lemma document_without_markers_gives_nothing_witness :
  discover_artifacts_in_latex
    (mkProcessor [] [mkStep None None [] ["[("]])
    (demo_files "\section{Results} \valuelink{acc}") "paper.tex"
  = Ok ([], []).
Proof.
  apply (@document_without_markers_gives_nothing _ _ "paper.tex"
           "\section{Results} \valuelink{acc}" eq_refl eq_refl eq_refl).
Defined.

Lemma resolve_matches_back self artifact_type ms arts warns :
  resolve_matches self artifact_type ms = Ok (arts, warns) ->
  forall a,
    In a arts ->
    a_type a = artifact_type
    /\ In (mkMatch (a_name a) (a_match_start a) (a_match_end a)) ms
    /\ _find_metadata_for_artifact self (a_name a) (a_type a)
       = Ok (Some (a_metadata a)).
Proof.
  revert arts warns. induction ms as [|m ms IH]; intros arts warns Hr a Ha.
  - simpl in Hr. injection Hr as <- <-. contradiction.
  - simpl in Hr.
    destruct (_find_metadata_for_artifact self (m_group1 m) artifact_type)
      as [o| |] eqn:Hl; try discriminate.
    simpl in Hr.
    destruct (resolve_matches self artifact_type ms) as [[arts' warns']| |];
      try discriminate.
    simpl in Hr. specialize (IH arts' warns' eq_refl).
    destruct o as [md|]; injection Hr as <- <-.
    + destruct Ha as [<-|Ha]; simpl.
      * split; auto. split; [left; now destruct m | exact Hl].
      * destruct (IH a Ha) as (? & ? & ?). auto.
    + destruct (IH a Ha) as (? & ? & ?). simpl. auto.
Qed.

Lemma startswith_take p s :
  PyStr.startswith p s = true ->
  take (String.length p) s = p /\ String.length p <= String.length s.
Proof.
  revert s. induction p as [|a p IH]; intros s H; simpl in *.
  - split; [now destruct s | lia].
  - destruct s as [|b s]; [discriminate|].
    apply andb_true_iff in H. destruct H as [Hab H].
    apply Ascii.eqb_eq in Hab. subst b.
    destruct (IH s H) as [Ht Hlen]. simpl. rewrite Ht. split; auto. lia.
Qed.

Lemma length_drop n s :
  String.length (PyStr.drop n s) = String.length s - n.
Proof.
  revert s. induction n as [|n IH]; intros s; simpl; [lia|].
  destruct s as [|c s]; simpl; auto.
Qed.

(** X9: every entry [discover_artifacts_in_latex] returns stands in the
    document: its kind is "value" or "artifact", the text from its start
    to its end is the marker of that kind around its name, the offsets
    lie inside the document, the name is not empty and holds no closing
    brace, and its metadata are what the lookup gives for the name. *)
Theorem discovered_entries_are_markers :
  forall (self : MetadataProcessor) (fs : Files) (latex_file content : string)
         (arts : list Artifact) (warns : list string),
    fs latex_file = Some content ->
    discover_artifacts_in_latex self fs latex_file = Ok (arts, warns) ->
    forall a,
      In a arts ->
      exists opening,
        In (a_type a, opening) patterns
        /\ take (a_match_end a - a_match_start a)
                (PyStr.drop (a_match_start a) content)
           = (opening ++ a_name a ++ "}")%string
        /\ a_match_end a
           = a_match_start a
             + (String.length opening + String.length (a_name a) + 1)
        /\ a_match_end a <= String.length content
        /\ PyStr.is_empty (a_name a) = false
        /\ PyStr.lacks "}" (a_name a) = true
        /\ _find_metadata_for_artifact self (a_name a) (a_type a)
           = Ok (Some (a_metadata a)).
Proof.
  intros self fs latex_file content arts warns Hf Hd a Ha.
  unfold discover_artifacts_in_latex in Hd. rewrite Hf in Hd. simpl in Hd.
  destruct (resolve_matches self "value" (finditer "\csfvaluelink{" content))
    as [[a1 w1]| |] eqn:H1; try discriminate.
  simpl in Hd.
  destruct (resolve_matches self "artifact" (finditer "\csflink{" content))
    as [[a2 w2]| |] eqn:H2; try discriminate.
  simpl in Hd. injection Hd as <- <-. rewrite app_nil_r in Ha.
  assert (Hgen : forall b q ty,
             In (ty, String b q) patterns ->
             a_type a = ty ->
             In (mkMatch (a_name a) (a_match_start a) (a_match_end a))
                (finditer (String b q) content) ->
             _find_metadata_for_artifact self (a_name a) (a_type a)
             = Ok (Some (a_metadata a)) ->
             exists opening,
               In (a_type a, opening) patterns
               /\ take (a_match_end a - a_match_start a)
                       (PyStr.drop (a_match_start a) content)
                  = (opening ++ a_name a ++ "}")%string
               /\ a_match_end a
                  = a_match_start a
                    + (String.length opening + String.length (a_name a) + 1)
               /\ a_match_end a <= String.length content
               /\ PyStr.is_empty (a_name a) = false
               /\ PyStr.lacks "}" (a_name a) = true
               /\ _find_metadata_for_artifact self (a_name a) (a_type a)
                  = Ok (Some (a_metadata a))).
  { intros b q ty Hp Ht Hi Hl. exists (String b q). rewrite Ht.
    split; [exact Hp|]. unfold finditer in Hi.
    destruct (@finditer_sound b q _ _ _ _ Hi) as (_ & Hst & He & Hne & Hnb).
    simpl m_start in *. simpl m_end in *. simpl m_group1 in *.
    rewrite Nat.sub_0_r in Hst.
    destruct (startswith_take _ _ Hst) as [Htake Hlen].
    rewrite length_drop in Hlen.
    rewrite !PyStrFacts.length_app in Htake, Hlen.
    change (String.length "}") with 1 in *.
    assert (Hn : a_match_end a - a_match_start a
                 = String.length (String b q)
                   + (String.length (a_name a) + 1)) by lia.
    rewrite Hn, Htake.
    repeat split; auto. simpl String.length in *. lia. }
  apply in_app_or in Ha. destruct Ha as [Ha|Ha].
  - destruct (resolve_matches_back _ _ _ H1 a Ha) as (Ht & Hi & Hl).
    apply (Hgen "\"%char "csfvaluelink{" "value"); auto. now left.
  - destruct (resolve_matches_back _ _ _ H2 a Ha) as (Ht & Hi & Hl).
    apply (Hgen "\"%char "csflink{" "artifact"); auto. right; now left.
Qed.

Lemma discovered_entries_are_markers_witness :
  exists opening,
    In ("value", opening) patterns
    /\ take (28 - 10) (PyStr.drop 10 "Accuracy: \csfvaluelink{acc}.")
       = (opening ++ "acc" ++ "}")%string.
Proof.
  destruct (@discovered_entries_are_markers demo_processor
              (demo_files "Accuracy: \csfvaluelink{acc}.") "paper.tex"
              "Accuracy: \csfvaluelink{acc}."
              [ mkArtifact "value" "acc" 10 28
                  (mkMetadata (Some "plot") "analyze.py" ["plot.py"]) ]
              [] eq_refl eq_refl
              (mkArtifact "value" "acc" 10 28
                 (mkMetadata (Some "plot") "analyze.py" ["plot.py"]))
              (or_introl eq_refl))
    as (opening & Hp & Ht & _).
  exists opening. split; [exact Hp | exact Ht].
Defined.

Lemma marker_at_len opening s name len :
  marker_at opening s = Some (name, len) -> 1 <= len.
Proof.
  unfold marker_at. destruct (PyStr.startswith opening s); [|discriminate].
  destruct (PyStr.is_empty _); [discriminate|].
  destruct (PyStr.startswith "}" _); [|discriminate].
  intros H. injection H as _ <-. lia.
Qed.

Lemma finditer_disjoint opening s :
  forall skip pos,
    StronglySorted (fun m1 m2 => m_end m1 <= m_start m2)
                   (finditer_from opening skip pos s).
Proof.
  induction s as [|c s IH]; intros skip pos; [constructor|].
  cbn [finditer_from]. destruct skip as [|k]; [|apply IH].
  destruct (marker_at opening (String c s)) as [[name len]|] eqn:Hm; [|apply IH].
  constructor; [apply IH|].
  apply marker_at_len in Hm.
  eapply Forall_impl; [|apply (finditer_after opening s (len - 1) (S pos))].
  simpl. intros; lia.
Qed.

Lemma resolve_matches_disjoint self artifact_type ms arts warns :
  StronglySorted (fun m1 m2 => m_end m1 <= m_start m2) ms ->
  resolve_matches self artifact_type ms = Ok (arts, warns) ->
  StronglySorted ends_before arts.
Proof.
  revert arts warns. induction ms as [|m ms IH]; intros arts warns Hs Hr.
  - simpl in Hr. injection Hr as <- <-. constructor.
  - simpl in Hr. inversion Hs as [|? ? Hs' Hlt]; subst.
    destruct (_find_metadata_for_artifact self (m_group1 m) artifact_type)
      as [o| |]; try discriminate.
    simpl in Hr.
    destruct (resolve_matches self artifact_type ms) as [[arts' warns']| |] eqn:Hr';
      try discriminate.
    simpl in Hr. pose proof (IH arts' warns' Hs' eq_refl) as Hsa.
    destruct o as [md|]; injection Hr as <- <-; auto.
    constructor; auto. apply Forall_forall. intros a Ha.
    destruct (resolve_matches_back _ _ _ Hr' a Ha) as (_ & Hi & _).
    rewrite Forall_forall in Hlt. apply (Hlt _ Hi).
Qed.

(** X10: the order of the list returned.  The entries of kind "value"
    come first, those of kind "artifact" after them; within a kind the
    entries follow the document and do not overlap: each ends before the
    next one starts. *)
Theorem discovered_entries_are_ordered_within_a_kind :
  forall (self : MetadataProcessor) (fs : Files) (latex_file : string)
         (arts : list Artifact) (warns : list string),
    discover_artifacts_in_latex self fs latex_file = Ok (arts, warns) ->
    exists values artifacts,
      arts = values ++ artifacts
      /\ Forall (fun a => a_type a = "value") values
      /\ Forall (fun a => a_type a = "artifact") artifacts
      /\ StronglySorted ends_before values
      /\ StronglySorted ends_before artifacts.
Proof.
  intros self fs latex_file arts warns Hd.
  unfold discover_artifacts_in_latex in Hd.
  destruct (fs latex_file) as [content|]; try discriminate. simpl in Hd.
  destruct (resolve_matches self "value" (finditer "\csfvaluelink{" content))
    as [[a1 w1]| |] eqn:H1; try discriminate.
  simpl in Hd.
  destruct (resolve_matches self "artifact" (finditer "\csflink{" content))
    as [[a2 w2]| |] eqn:H2; try discriminate.
  simpl in Hd. injection Hd as <- <-. rewrite app_nil_r.
  exists a1, a2. split; [reflexivity|].
  split; [|split; [|split]].
  - apply Forall_forall. intros a Ha.
    now destruct (resolve_matches_back _ _ _ H1 a Ha).
  - apply Forall_forall. intros a Ha.
    now destruct (resolve_matches_back _ _ _ H2 a Ha).
  - eapply resolve_matches_disjoint; [|exact H1]. apply finditer_disjoint.
  - eapply resolve_matches_disjoint; [|exact H2]. apply finditer_disjoint.
Qed.

Lemma discovered_entries_are_ordered_within_a_kind_witness :
  exists values artifacts,
    [ mkArtifact "value" "b" 12 28
        (mkMetadata (Some "plot") "analyze.py" ["plot.py"]);
      mkArtifact "artifact" "a" 0 11
        (mkMetadata (Some "plot") "analyze.py" ["plot.py"]) ]
    = values ++ artifacts
    /\ Forall (fun a => a_type a = "value") values
    /\ Forall (fun a => a_type a = "artifact") artifacts.
Proof.
  destruct (@discovered_entries_are_ordered_within_a_kind demo_processor
              (demo_files "\csflink{a} \csfvaluelink{b}") "paper.tex"
              _ _ eq_refl)
    as (values & artifacts & He & Hv & Ha & _).
  exists values, artifacts. split; [exact He|]. split; [exact Hv | exact Ha].
Defined.

Lemma glob_match_is_found_witness :
  glob_match "fig_?_*.png" "fig_a_2024.png" = true
  /\ any_pattern_matches ["results/acc.json"; "fig_?_*.png"] "fig_a_2024.png"
     = Ok true.
Proof.
  split; [reflexivity|].
  apply (@GlobFacts.glob_match_is_found ["results/acc.json"; "fig_?_*.png"]
           "fig_?_*.png" "fig_a_2024.png" eq_refl
           (or_intror (or_introl eq_refl)) eq_refl eq_refl).
Defined.

(** ** The text [enhance_latex_document] writes *)

Lemma join_empty_cons x l :
  PyStr.join "" (x :: l) = (x ++ PyStr.join "" l)%string.
Proof.
  destruct l; simpl; auto.
  clear. induction x; simpl; congruence.
Qed.

Lemma join_empty_app l1 l2 :
  PyStr.join "" (l1 ++ l2) = (PyStr.join "" l1 ++ PyStr.join "" l2)%string.
Proof.
  induction l1 as [|x l1 IH]; [reflexivity|].
  change ((x :: l1) ++ l2) with (x :: (l1 ++ l2)).
  now rewrite !join_empty_cons, IH, PyStrFacts.app_assoc.
Qed.

Lemma join_chars s : PyStr.join "" (chars s) = s.
Proof.
  induction s as [|c s IH]; [reflexivity|].
  change (chars (String c s)) with (String c EmptyString :: chars s).
  now rewrite join_empty_cons, IH.
Qed.

Lemma length_chars s : List.length (chars s) = String.length s.
Proof. induction s; simpl; auto. Qed.

Lemma firstn_chars n s : firstn n (chars s) = chars (take n s).
Proof.
  revert s. induction n as [|n IH]; intros [|c s]; simpl; auto.
  now rewrite IH.
Qed.

Lemma skipn_chars n s : skipn n (chars s) = chars (PyStr.drop n s).
Proof.
  revert s. induction n as [|n IH]; intros [|c s]; simpl; auto.
Qed.

Lemma insert_length i x l : List.length (insert i x l) = S (List.length l).
Proof.
  unfold insert. rewrite length_app. simpl.
  pose proof (firstn_skipn i l) as H.
  apply (f_equal (@List.length string)) in H. rewrite length_app in H. lia.
Qed.

Lemma inserted_length off l arts :
  List.length (inserted off l arts) = List.length arts + List.length l.
Proof.
  induction arts as [|a arts IH]; simpl; auto.
  now rewrite insert_length, IH.
Qed.

(** Insertions at or after [m] leave the first [m] places alone. *)
Lemma inserted_split arts :
  forall l off m,
    Forall (fun a => off + m <= a_match_start a
                     /\ a_match_start a - off <= List.length l) arts ->
    firstn m (inserted off l arts) = firstn m l
    /\ skipn m (inserted off l arts) = inserted (off + m) (skipn m l) arts.
Proof.
  induction arts as [|a arts IH]; intros l off m H; [split; reflexivity|].
  inversion H as [|? ? [Hm Hb] H']; subst.
  destruct (IH l off m H') as [Hf Hs]. simpl.
  set (R := inserted off l arts) in *.
  assert (HR : a_match_start a - off <= List.length R).
  { unfold R. rewrite inserted_length. lia. }
  set (j := a_match_start a - off) in *.
  assert (Hj : m <= j) by (unfold j; lia).
  assert (Hlen : List.length (firstn j R) = j) by (apply firstn_length_le; lia).
  unfold insert. split.
  - rewrite firstn_app, Hlen.
    replace (m - j) with 0 by lia. simpl. rewrite app_nil_r.
    rewrite firstn_firstn. replace (Init.Nat.min m j) with m by lia.
    exact Hf.
  - rewrite skipn_app, Hlen.
    replace (m - j) with 0 by lia. simpl.
    rewrite skipn_firstn_comm, <- Hs.
    replace (a_match_start a - (off + m)) with (j - m) by (unfold j; lia).
    f_equal. f_equal.
    rewrite skipn_skipn. f_equal. lia.
Qed.

Lemma inserted_woven arts :
  forall s off,
    StronglySorted starts_before arts ->
    Forall (fun a => off <= a_match_start a
                     /\ a_match_start a - off <= String.length s) arts ->
    PyStr.join "" (inserted off (chars s) arts) = woven s off arts.
Proof.
  induction arts as [|a arts IH]; intros s off Hs Hb; [apply join_chars|].
  inversion Hs as [|? ? Hs' Hlt]; subst.
  inversion Hb as [|? ? [Hoff Hlen] Hb']; subst.
  simpl. set (j := a_match_start a - off) in *.
  assert (Hrest : Forall (fun a' => off + j <= a_match_start a'
                                    /\ a_match_start a' - off
                                       <= List.length (chars s)) arts).
  { rewrite Forall_forall in *. intros a' Ha'.
    specialize (Hlt a' Ha'). destruct (Hb' a' Ha') as [? ?].
    unfold starts_before in Hlt. rewrite length_chars. unfold j. lia. }
  destruct (@inserted_split arts (chars s) off j Hrest) as [Hf Hk].
  unfold insert.
  rewrite join_empty_app, join_empty_cons, Hf, Hk.
  rewrite firstn_chars, join_chars, skipn_chars.
  replace (off + j) with (a_match_start a) by (unfold j; lia).
  rewrite IH; auto.
  rewrite Forall_forall in *. intros a' Ha'.
  specialize (Hlt a' Ha'). destruct (Hb' a' Ha') as [? ?].
  unfold starts_before in Hlt. rewrite length_drop. unfold j. lia.
Qed.

Lemma insert_metadata_comments_inserted content arts :
  insert_metadata_comments content arts
  = PyStr.join "" (inserted 0 (chars content) arts).
Proof.
  unfold insert_metadata_comments, inserted. f_equal.
  rewrite <- fold_left_rev_right, rev_involutive.
  induction arts as [|a arts IH]; simpl; auto.
  now rewrite IH, Nat.sub_0_r.
Qed.

(** X11: for a list in document order the insertion loop does what its
    comment promises.  When the starts of the entries do not decrease
    along the list and lie inside the document, every metadata comment
    stands right before the text at its entry's start, and the document
    is otherwise unchanged. *)
Theorem comments_land_before_their_markers :
  forall (content : string) (artifacts : list Artifact),
    StronglySorted starts_before artifacts ->
    Forall (fun a => a_match_start a <= String.length content) artifacts ->
    insert_metadata_comments content artifacts = woven content 0 artifacts.
Proof.
  intros content artifacts Hs Hb.
  rewrite insert_metadata_comments_inserted. apply inserted_woven; auto.
  eapply Forall_impl; [|exact Hb]. simpl. intros; lia.
Qed.

Lemma comments_land_before_their_markers_witness :
  insert_metadata_comments "\csflink{a} \csflink{b}"
    [ mkArtifact "artifact" "a" 0 11 (mkMetadata (Some "plot") "plot.py" []);
      mkArtifact "artifact" "b" 12 23 (mkMetadata (Some "plot") "plot.py" []) ]
  = (metadata_comment
       (mkArtifact "artifact" "a" 0 11 (mkMetadata (Some "plot") "plot.py" []))
     ++ "\csflink{a} "
     ++ metadata_comment
          (mkArtifact "artifact" "b" 12 23
             (mkMetadata (Some "plot") "plot.py" []))
     ++ "\csflink{b}")%string.
Proof.
  rewrite comments_land_before_their_markers; [reflexivity | |].
  - repeat constructor; unfold starts_before; simpl; lia.
  - repeat constructor; simpl; lia.
Defined.

Lemma take_drop n s : (take n s ++ PyStr.drop n s)%string = s.
Proof.
  revert s. induction n as [|n IH]; intros [|c s]; simpl; auto.
  now rewrite IH.
Qed.

Lemma contains_app p a b : PyStr.contains p (a ++ p ++ b) = true.
Proof.
  induction a as [|c a IH].
  - simpl. destruct (p ++ b)%string eqn:E.
    + destruct p; [reflexivity | discriminate].
    + cbn [PyStr.contains]. rewrite <- E, PyStrFacts.startswith_app.
      reflexivity.
  - change ((String c a ++ p ++ b)%string) with (String c (a ++ p ++ b)).
    cbn [PyStr.contains]. rewrite IH. apply orb_true_r.
Qed.

Lemma add_package_cases t :
  add_package t = t
  \/ exists e,
       add_package t
       = (take e t ++ String Re.newline "\usepackage{composable}"
          ++ PyStr.drop e t)%string.
Proof.
  unfold add_package.
  destruct (PyStr.contains "\usepackage{composable}" t); auto.
  destruct (search "\documentclass{" t) as [m|]; eauto.
Qed.

(** X12: the package line is added at most once.  [add_package] applied
    to its own result changes nothing; a text that already holds
    \usepackage{composable}, and a text without \documentclass{ (a class
    given with options is such a text), are returned as they are; and
    when the text does change, the result holds the package line and is
    longer by exactly that line and its newline. *)
Theorem package_line_is_added_once :
  forall (t : string),
    add_package (add_package t) = add_package t
    /\ (PyStr.contains "\usepackage{composable}" t = true -> add_package t = t)
    /\ (PyStr.contains "\documentclass{" t = false -> add_package t = t)
    /\ (add_package t <> t ->
        PyStr.contains "\usepackage{composable}" (add_package t) = true
        /\ String.length (add_package t) = String.length t + 24).
Proof.
  intros t.
  assert (Hhas : forall u, PyStr.contains "\usepackage{composable}" u = true ->
                           add_package u = u).
  { intros u Hu. unfold add_package. now rewrite Hu. }
  assert (Hnew : forall e,
             PyStr.contains "\usepackage{composable}"
               (take e t ++ String Re.newline "\usepackage{composable}"
                ++ PyStr.drop e t) = true).
  { intros e.
    change (take e t ++ String Re.newline "\usepackage{composable}"
            ++ PyStr.drop e t)%string
      with (take e t ++ String Re.newline EmptyString
            ++ "\usepackage{composable}" ++ PyStr.drop e t)%string.
    rewrite <- PyStrFacts.app_assoc. apply contains_app. }
  split; [|split; [exact (Hhas t)|split]].
  - destruct (add_package_cases t) as [Heq|[e Heq]].
    + now rewrite !Heq.
    + rewrite Heq. apply Hhas, Hnew.
  - intros Hc. unfold add_package, search, finditer.
    rewrite (finditer_nothing _ _ Hc).
    now destruct (PyStr.contains "\usepackage{composable}" t).
  - intros Hne. destruct (add_package_cases t) as [Heq|[e Heq]];
      [contradiction|].
    rewrite Heq. split; [apply Hnew|].
    rewrite !PyStrFacts.length_app.
    change (String.length (String Re.newline "\usepackage{composable}"))
      with 24.
    rewrite <- (take_drop e t) at 3. rewrite PyStrFacts.length_app. lia.
Qed.

Lemma package_line_is_added_once_witness :
  add_package "\documentclass[11pt]{article} text"
  = "\documentclass[11pt]{article} text"
  /\ String.length (add_package "\documentclass{article} text")
     = String.length "\documentclass{article} text" + 24.
Proof.
  destruct (package_line_is_added_once "\documentclass[11pt]{article} text")
    as (_ & _ & Hnone & _).
  destruct (package_line_is_added_once "\documentclass{article} text")
    as (_ & _ & _ & Hadd).
  split; [apply Hnone; reflexivity|].
  apply Hadd. discriminate.
Defined.

(** ** The line finders *)

Lemma first_line_some test lines :
  forall i n,
    first_line test i lines = Some n <->
    i <= n /\ n - i < List.length lines
    /\ test (nth (n - i) lines EmptyString) = true
    /\ forall k, k < n - i -> test (nth k lines EmptyString) = false.
Proof.
  induction lines as [|line lines IH]; intros i n; simpl.
  - split; [discriminate | intros (_ & H & _); lia].
  - destruct (test line) eqn:Ht.
    + split.
      * intros H. injection H as <-. rewrite Nat.sub_diag.
        repeat split; auto; lia.
      * intros (Hi & Hlen & Hn & Hbefore).
        destruct (n - i) as [|d] eqn:Hd; [f_equal; lia|].
        specialize (Hbefore 0 (Nat.lt_0_succ d)). simpl in Hbefore. congruence.
    + rewrite IH. split.
      * intros (Hi & Hlen & Hn & Hbefore).
        replace (n - i) with (S (n - S i)) by lia.
        repeat split; auto; try lia.
        intros [|k] Hk; auto. apply Hbefore. lia.
      * intros (Hi & Hlen & Hn & Hbefore).
        destruct (n - i) as [|d] eqn:Hd; [simpl in Hn; congruence|].
        replace (n - S i) with d by lia.
        repeat split; auto; try lia.
        intros k Hk. apply (Hbefore (S k)). lia.
Qed.

Lemma startswith_app_left p q s :
  PyStr.startswith (p ++ q) s = true -> PyStr.startswith p s = true.
Proof.
  revert s. induction p as [|a p IH]; intros s H; [reflexivity|].
  destruct s as [|b s]; [discriminate|]. simpl in *.
  apply andb_true_iff in H. destruct H as [-> H]. simpl. auto.
Qed.

(** A line that holds a text holds its beginning. *)
Lemma contains_app_left p q s :
  PyStr.contains (p ++ q) s = true -> PyStr.contains p s = true.
Proof.
  induction s as [|c s IH]; cbn [PyStr.contains]; intros H.
  - now apply startswith_app_left in H.
  - apply orb_true_iff in H. destruct H as [H|H].
    + apply startswith_app_left in H. now rewrite H.
    + rewrite (IH H). apply orb_true_r.
Qed.

Lemma writes_artifact_save name line :
  writes_artifact name line
  = PyStr.contains name line
    && (PyStr.contains "save" line || PyStr.contains "write" line).
Proof.
  unfold writes_artifact. f_equal.
  destruct (PyStr.contains "savefig" line) eqn:Hf; auto.
  now rewrite (contains_app_left "save" "fig" line Hf).
Qed.

(** X13: [_find_script_line_for_artifact] returns the number, counted
    from 1, of the first line of the script that holds the file name of
    the artifact together with "save" or "write" (the test for "savefig"
    adds nothing: such a line holds "save"); it returns a number only for
    a script path that is not empty and a script that exists. *)
Theorem script_line_is_the_first_that_saves :
  forall (fs : Files) (script_path artifact_path : string) (n : nat),
    _find_script_line_for_artifact fs script_path artifact_path = Some n <->
    PyStr.is_empty script_path = false
    /\ exists text,
         fs script_path = Some text
         /\ 1 <= n <= List.length (readlines text)
         /\ (let line := nth (n - 1) (readlines text) EmptyString in
             PyStr.contains (path_name artifact_path) line
             && (PyStr.contains "save" line || PyStr.contains "write" line)
             = true)
         /\ forall k,
              k < n - 1 ->
              let line := nth k (readlines text) EmptyString in
              PyStr.contains (path_name artifact_path) line
              && (PyStr.contains "save" line || PyStr.contains "write" line)
              = false.
Proof.
  intros fs script_path artifact_path n. unfold _find_script_line_for_artifact.
  destruct (PyStr.is_empty script_path).
  { split; [discriminate | intros [H _]; discriminate]. }
  destruct (fs script_path) as [text|].
  2:{ split; [discriminate | intros (_ & text & H & _); discriminate]. }
  rewrite first_line_some. cbv zeta. split.
  - intros (Hi & Hlen & Hn & Hbefore). split; [reflexivity|].
    exists text. split; [reflexivity|]. split; [lia|].
    rewrite <- writes_artifact_save. split; [exact Hn|].
    intros k Hk. rewrite <- writes_artifact_save. auto.
  - intros (_ & text' & Heq & Hb & Hn & Hbefore). injection Heq as <-.
    split; [lia|]. split; [lia|].
    rewrite writes_artifact_save. split; [exact Hn|].
    intros k Hk. rewrite writes_artifact_save. auto.
Qed.

Lemma script_line_is_the_first_that_saves_witness :
  let script :=
    ("import plot" ++ String Re.newline
       ("fig = draw('fig_1.png')" ++ String Re.newline
          "fig.savefig('out/fig_1.png')"))%string in
  _find_script_line_for_artifact
    (fun path => if String.eqb path "plot.py" then Some script else None)
    "plot.py" "out/fig_1.png"
  = Some 3.
Proof.
  apply script_line_is_the_first_that_saves.
  split; [reflexivity|]. eexists. split; [reflexivity|].
  split; [simpl; lia|]. split; [reflexivity|].
  intros [|[|k]] Hk; try reflexivity. simpl in Hk. lia.
Defined.

Lemma first_line_bounds test lines i n :
  first_line test i lines = Some n -> i <= n < i + List.length lines.
Proof.
  intros H. apply first_line_some in H. lia.
Qed.

(** X14: the three line finders give valid line numbers or nothing.  An
    empty script path or a script that is not there gives [None]; a number
    returned lies between 1 and the number of lines of the script. *)
Theorem line_numbers_are_within_the_script :
  forall (fs : Files) (script_path target : string),
    (PyStr.is_empty script_path = true \/ fs script_path = None ->
     _find_script_line_for_artifact fs script_path target = None
     /\ _find_script_line_for_csv fs script_path target = None
     /\ _find_statistical_line fs script_path target = None)
    /\ forall text n,
         fs script_path = Some text ->
         _find_script_line_for_artifact fs script_path target = Some n
         \/ _find_script_line_for_csv fs script_path target = Some n
         \/ _find_statistical_line fs script_path target = Some n ->
         1 <= n <= List.length (readlines text).
Proof.
  intros fs script_path target.
  unfold _find_script_line_for_artifact, _find_script_line_for_csv,
    _find_statistical_line.
  split.
  - intros [Hempty | Hnone].
    + rewrite Hempty. auto.
    + rewrite Hnone. now destruct (PyStr.is_empty script_path).
  - intros text n ->. destruct (PyStr.is_empty script_path).
    + intros [H|[H|H]]; discriminate.
    + intros [H|[H|H]]; apply first_line_bounds in H; lia.
Qed.

Lemma line_numbers_are_within_the_script_witness :
  _find_script_line_for_csv no_files "analyze.py" "out/table.csv" = None
  /\ _find_statistical_line no_files "" "p = 0.05" = None.
Proof.
  destruct (line_numbers_are_within_the_script no_files "analyze.py"
              "out/table.csv") as [Hnone _].
  destruct (line_numbers_are_within_the_script no_files "" "p = 0.05")
    as [Hempty _].
  split.
  - apply Hnone. right. reflexivity.
  - apply Hempty. left. reflexivity.
Defined.

(** ** The entries of the reduced log *)

Lemma find_step_sound (pipeline : Config) script n :
  _find_step_for_script pipeline script = Some n ->
  exists step,
    In step pipeline /\ sc_name step = Some n
    /\ PyStr.contains script (default "" (sc_cmd step)) = true.
Proof.
  induction pipeline as [|step pipeline IH]; simpl; [discriminate|].
  destruct (PyStr.contains script (default "" (sc_cmd step))) eqn:Hc.
  - intros H. exists step. auto.
  - intros H. destruct (IH H) as (st & Hin & Hn & Hs). exists st. auto.
Qed.

Lemma or_unknown_cases (o : option string) :
  PyStr.is_empty (or_unknown o) = false
  /\ (or_unknown o = "unknown" \/ o = Some (or_unknown o)).
Proof.
  destruct o as [[|c s]|]; simpl; auto.
Qed.

Lemma first_occurrences_in seen l x :
  In x (first_occurrences seen l) <-> In x l /\ ~ In x seen.
Proof.
  revert seen. induction l as [|y l IH]; intros seen; simpl; [tauto|].
  destruct (existsb (String.eqb y) seen) eqn:E.
  - rewrite IH. apply existsb_exists in E. destruct E as (z & Hz & Hyz).
    apply String.eqb_eq in Hyz. subst z. split.
    + tauto.
    + intros [[<-|Hx] Hn]; [contradiction | tauto].
  - assert (Hy : ~ In y seen).
    { intros Hy. assert (existsb (String.eqb y) seen = true).
      { apply existsb_exists. exists y. split; auto. apply String.eqb_refl. }
      congruence. }
    simpl. rewrite IH, in_app_iff. simpl. split.
    + intros [<-|(Hx & Hn)]; [tauto|]. tauto.
    + intros [[<-|Hx] Hn]; [tauto|].
      destruct (String.eqb_spec y x); [tauto|]. right. tauto.
Qed.

Lemma first_occurrences_nodup seen l : NoDup (first_occurrences seen l).
Proof.
  revert seen. induction l as [|y l IH]; intros seen; simpl; [constructor|].
  destruct (existsb (String.eqb y) seen); auto.
  constructor; auto. rewrite first_occurrences_in, in_app_iff. simpl. tauto.
Qed.

Lemma first_occurrences_length seen l :
  List.length (first_occurrences seen l) <= List.length l.
Proof.
  revert seen. induction l as [|y l IH]; intros seen; simpl; auto.
  destruct (existsb (String.eqb y) seen); simpl.
  - specialize (IH seen). lia.
  - specialize (IH (seen ++ [y])). lia.
Qed.

Section ReducedLog.

Variable Value : Type.
Variable py_str : Value -> string.

Lemma reduce_shape pipeline (l : list (Json Value)) values values' :
  reduce_entries py_str pipeline l values = Ok values' ->
  forall k ev,
    In (k, ev) values' ->
    In (k, ev) values
    \/ exists value script line,
         ev = extracted py_str pipeline k value script line.
Proof.
  revert values. induction l as [|j l IH]; intros values Hr k ev Hin;
    simpl in Hr.
  - injection Hr as <-. auto.
  - destruct j as [e|]; try discriminate.
    destruct (is_value_record e); simpl in Hr; eauto.
    destruct (e_name e) as [n|]; try discriminate.
    destruct (e_value e) as [v|]; try discriminate.
    destruct (e_filepath e) as [sc|]; try discriminate.
    destruct (e_lineno e) as [z|]; try discriminate.
    destruct (IH _ Hr k ev Hin) as [Hset|]; auto.
    clear - Hset. induction values as [|[k0 v0] values IHv]; simpl in Hset.
    + destruct Hset as [Hk|[]]. injection Hk as <- <-. right. eauto.
    + destruct (String.eqb k0 n) eqn:E; simpl in Hset.
      * destruct Hset as [Hk|Hk].
        -- injection Hk as <- <-. apply String.eqb_eq in E. subst n.
           right. eauto.
        -- left. now right.
      * destruct Hset as [Hk|Hk]; [left; now left|].
        destruct (IHv Hk) as [?|?]; [left; now right | now right].
Qed.

(** X15: every entry of the mapping [extract_values_from_log] returns is
    well formed.  It is filed under its own name, its formatted value is
    [str] of its value, it has a script and a line, and its step is
    never empty: it is "unknown", or the name of a step of the manifest
    whose command holds the entry's script path. *)
Theorem reduced_entries_are_well_formed :
  forall (self self1 : ValueExtractor Value) (fs : Project Value)
         (values : Dict.t (ExtractedValue Value)) (name : string)
         (ev : ExtractedValue Value),
    extract_values_from_log py_str self fs = Ok (self1, values) ->
    In (name, ev) values ->
    ev_name ev = name
    /\ ev_formatted_value ev = py_str (ev_value ev)
    /\ PyStr.is_empty (ev_step ev) = false
    /\ exists script line,
         ev_script ev = Some script
         /\ ev_line ev = Some line
         /\ (ev_step ev = "unknown"
             \/ exists step,
                  In step (ve_config self)
                  /\ sc_name step = Some (ev_step ev)
                  /\ PyStr.contains script (default "" (sc_cmd step)) = true).
Proof.
  intros self self1 fs values name ev He Hin.
  unfold extract_values_from_log in He.
  destruct (read_provenance_log fs) as [entries| |]; try discriminate.
  simpl in He.
  destruct (reduce_entries py_str (ve_config self) entries (Dict.empty _))
    as [vs| |] eqn:Hr; try discriminate.
  simpl in He. injection He as <- <-.
  destruct (reduce_shape _ _ _ Hr name ev Hin) as [[]|(value & script & line & ->)].
  simpl.
  destruct (or_unknown_cases (_find_step_for_script (ve_config self) script))
    as [Hne Hcases].
  repeat split; auto. exists script, line. repeat split.
  destruct Hcases as [Hu|Hs]; [now left|right].
  destruct (find_step_sound _ _ Hs) as (step & Hi & Hn & Hc). eauto.
Qed.

(** X16: the mapping holds each name once.  Its keys are the names of the
    value records of the log, without repetition, so there are at most
    as many entries as value records. *)
Theorem reduced_names_are_distinct :
  forall (self self1 : ValueExtractor Value) (fs : Project Value)
         (values : Dict.t (ExtractedValue Value)),
    extract_values_from_log py_str self fs = Ok (self1, values) ->
    exists entries,
      read_provenance_log fs = Ok entries
      /\ NoDup (Dict.keys values)
      /\ (forall name, In name (Dict.keys values) <->
                       In name (value_names entries))
      /\ List.length values <= List.length (value_names entries).
Proof.
  intros self self1 fs values He.
  unfold extract_values_from_log in He.
  destruct (read_provenance_log fs) as [entries| |]; try discriminate.
  simpl in He.
  destruct (reduce_entries py_str (ve_config self) entries (Dict.empty _))
    as [vs| |] eqn:Hr; try discriminate.
  simpl in He. injection He as <- <-.
  exists entries. split; [reflexivity|].
  pose proof (reduce_keys _ _ _ _ Hr) as Hk. simpl in Hk.
  rewrite Hk. split; [apply first_occurrences_nodup|]. split.
  - intros name. rewrite first_occurrences_in. simpl. tauto.
  - replace (List.length vs) with (List.length (Dict.keys vs))
      by apply length_map.
    rewrite Hk. apply first_occurrences_length.
Qed.

Lemma join_contains sep x l :
  In x l -> PyStr.contains x (PyStr.join sep l) = true.
Proof.
  induction l as [|y l IH]; [contradiction|].
  intros [->|Hin].
  - destruct l as [|z l]; simpl.
    + replace x with (EmptyString ++ x ++ EmptyString)%string at 2.
      * apply contains_app.
      * simpl. clear. induction x; simpl; congruence.
    + apply (contains_app x EmptyString).
  - specialize (IH Hin). destruct l as [|z l]; [contradiction|].
    change (PyStr.join sep (y :: z :: l))
      with (y ++ sep ++ PyStr.join sep (z :: l))%string.
    clear - IH. rewrite <- PyStrFacts.app_assoc.
    induction (y ++ sep)%string as [|c s IHs]; [exact IH|].
    change ((String c s ++ PyStr.join sep (z :: l))%string)
      with (String c (s ++ PyStr.join sep (z :: l))).
    cbn [PyStr.contains]. rewrite IHs. apply orb_true_r.
Qed.

(** X17: the flag \csfvaluescachedtrue tells the two outputs apart.  The
    text [generate_values_tex] returns holds the flag exactly when the
    mapping is not empty. *)
Theorem cached_flag_iff_some_value :
  forall (self : ValueExtractor Value),
    PyStr.contains "\csfvaluescachedtrue" (generate_values_tex py_str self)
    = true
    <-> ve_values self <> [].
Proof.
  intros self. unfold generate_values_tex.
  destruct (ve_values self) as [|item items] eqn:Hv.
  - split; [discriminate | congruence].
  - split; [discriminate|]. intros _.
    apply join_contains. apply in_or_app. right. apply in_or_app. right.
    simpl. auto.
Qed.

End ReducedLog.

Lemma reduced_entries_are_well_formed_witness :
  exists ev step,
    Dict.get "acc"
      (Dict.set "acc" (extracted str_int demo_cfg "acc" 94%Z "analyze.py" 43%Z)
         (Dict.empty _)) = Some ev
    /\ In step demo_cfg
    /\ sc_name step = Some (ev_step ev).
Proof.
  destruct (@reduced_entries_are_well_formed Z str_int demo_extractor _
              demo_project _ "acc"
              (extracted str_int demo_cfg "acc" 94%Z "analyze.py" 43%Z)
              eq_refl (or_introl eq_refl))
    as (_ & _ & _ & script & line & _ & _ & [Hu|(step & Hi & Hn & _)]).
  - discriminate.
  - eexists _, step. split; [reflexivity|]. split; [exact Hi | exact Hn].
Defined.

Lemma reduced_names_are_distinct_witness :
  exists values,
    option_map snd
      (match extract_values_from_log str_int demo_extractor demo_project with
       | Ok r => Some r
       | _ => None
       end) = Some values
    /\ NoDup (Dict.keys values)
    /\ List.length values <= 3.
Proof.
  eexists. split; [reflexivity|].
  destruct (@reduced_names_are_distinct Z str_int demo_extractor _
              demo_project _ eq_refl)
    as (entries & Hread & Hnd & _ & Hlen).
  split; [exact Hnd|].
  injection Hread as <-. exact Hlen.
Defined.

Lemma cached_flag_iff_some_value_witness :
  PyStr.contains "\csfvaluescachedtrue"
    (generate_values_tex str_int
       (mkExtractor demo_cfg
          [("acc", extracted str_int demo_cfg "acc" 94%Z "analyze.py" 43%Z)]))
  = true.
Proof.
  apply cached_flag_iff_some_value. discriminate.
Defined.

(** ** The dry run *)

Lemma dry_run_loop_empty artifacts :
  dry_run_loop artifacts = true <-> artifacts = [].
Proof.
  destruct artifacts; simpl; split; auto; discriminate.
Qed.

(** X18: with --dry-run the run ends with status 0 only when no marker
    of the document is matched to a step.  As soon as the list of
    entries is not empty the loop that prints it fails on its first
    entry (it unpacks a dictionary of five keys into two names) and the
    status is 1, as it is when the manifest or the document cannot be
    read. *)
Theorem dry_run_succeeds_only_without_entries :
  forall (cfg : Config) (fs : Files) (latex_file : string),
    (main_dry_run cfg fs latex_file = Ok 0 <->
     exists processor warns,
       new_processor cfg = Ok processor
       /\ discover_artifacts_in_latex processor fs latex_file = Ok ([], warns))
    /\ forall processor artifacts warns,
         new_processor cfg = Ok processor ->
         discover_artifacts_in_latex processor fs latex_file
         = Ok (artifacts, warns) ->
         artifacts <> [] ->
         main_dry_run cfg fs latex_file = Ok 1.
Proof.
  intros cfg fs latex_file. unfold main_dry_run. split.
  - destruct (new_processor cfg) as [processor| |] eqn:Hnew.
    + destruct (discover_artifacts_in_latex processor fs latex_file)
        as [[artifacts warns]| |] eqn:Hdisc.
      * destruct (dry_run_loop artifacts) eqn:Hl.
        -- apply dry_run_loop_empty in Hl. subst. split; [|reflexivity].
           intros _. exists processor, warns. auto.
        -- split; [discriminate|].
           intros (p & w & Hp & Hd). injection Hp as <-.
           rewrite Hdisc in Hd. injection Hd as -> _. discriminate.
      * split; [discriminate | intros (p & w & Hp & Hd)].
        injection Hp as <-. congruence.
      * split; [discriminate | intros (p & w & Hp & Hd)].
        injection Hp as <-. congruence.
    + split; [discriminate | intros (p & w & Hp & _); discriminate].
    + split; [discriminate | intros (p & w & Hp & _); discriminate].
  - intros processor artifacts warns -> -> Hne.
    destruct artifacts; [contradiction | reflexivity].
Qed.

Lemma dry_run_succeeds_only_without_entries_witness :
  main_dry_run demo_cfg (demo_files "Accuracy: \csfvaluelink{acc}.") "paper.tex"
  = Ok 1.
Proof.
  destruct (dry_run_succeeds_only_without_entries demo_cfg
              (demo_files "Accuracy: \csfvaluelink{acc}.") "paper.tex")
    as [_ Hfail].
  apply (Hfail demo_processor
               [ mkArtifact "value" "acc" 10 28
                   (mkMetadata (Some "plot") "analyze.py" ["plot.py"]) ]
               [] eq_refl eq_refl).
  discriminate.
Defined.

(** ** The metadata path *)

Lemma lower_char_idempotent c : lower_char (lower_char c) = lower_char c.
Proof.
  destruct c as [[] [] [] [] [] [] [] []]; reflexivity.
Qed.

Lemma lower_idempotent s : lower (lower s) = lower s.
Proof.
  induction s as [|c s IH]; simpl; auto.
  now rewrite lower_char_idempotent, IH.
Qed.

(** X19: the path through the manifest's value metadata.
    [_extract_value_from_metadata] returns nothing exactly when the
    script is absent or empty, does not exist on disk, or the expression
    is absent; otherwise it returns an entry under the given name whose
    value type defaults to "value" and whose step defaults to "unknown"
    when the metadata do not give them, and whose value depends on the
    expression only up to the case of its letters. *)
Theorem metadata_path_defaults :
  forall (fs : Files) (name : string) (metadata : ValueMetadata),
    (_extract_value_from_metadata fs name metadata = None <->
     vm_script metadata = None
     \/ vm_script metadata = Some EmptyString
     \/ (exists script, vm_script metadata = Some script
                        /\ file_exists fs script = false)
     \/ vm_expression metadata = None)
    /\ (forall ev,
          _extract_value_from_metadata fs name metadata = Some ev ->
          ev_name ev = name
          /\ ev_script ev = vm_script metadata
          /\ ev_line ev = vm_line metadata
          /\ ev_formatted_value ev = str_mock (ev_value ev)
          /\ ev_value_type ev = default "value" (vm_value_type metadata)
          /\ ev_step ev = default "unknown" (vm_step metadata))
    /\ forall script expression,
         _execute_expression script (lower expression)
         = _execute_expression script expression.
Proof.
  intros fs name metadata. unfold _extract_value_from_metadata.
  split; [|split].
  - destruct (vm_script metadata) as [script|]; [|split; auto].
    destruct script as [|c script]; [split; auto|].
    simpl PyStr.is_empty. cbv iota.
    destruct (file_exists fs (String c script)) eqn:Hx; simpl.
    + destruct (vm_expression metadata) as [expression|].
      * split; [discriminate|].
        intros [H|[H|[(s & H & Hs)|H]]]; try discriminate.
        injection H as <-. congruence.
      * split; auto.
    + split; auto. intros _. right. right. left. eauto.
  - intros ev.
    destruct (vm_script metadata) as [script|]; [|discriminate].
    destruct (PyStr.is_empty script); [discriminate|].
    destruct (negb (file_exists fs script)); [discriminate|].
    destruct (vm_expression metadata) as [expression|]; [|discriminate].
    intros H. injection H as <-. simpl. repeat split.
  - intros script expression. unfold _execute_expression.
    now rewrite lower_idempotent.
Qed.

Lemma metadata_path_defaults_witness :
  option_map (@ev_value_type MockValue)
    (_extract_value_from_metadata
       (fun path => if String.eqb path "analyze.py" then Some "" else None)
       "accuracy"
       (mkValueMetadata (Some "analyze") (Some "analyze.py") None
          (Some "model.Score()") None))
  = Some "value".
Proof.
  destruct (metadata_path_defaults
              (fun path => if String.eqb path "analyze.py" then Some "" else None)
              "accuracy"
              (mkValueMetadata (Some "analyze") (Some "analyze.py") None
                 (Some "model.Score()") None))
    as (_ & Hsome & _).
  destruct (_extract_value_from_metadata _ _ _) as [ev|] eqn:He;
    [|discriminate].
  destruct (Hsome ev eq_refl) as (_ & _ & _ & _ & Ht & _).
  simpl. now rewrite Ht.
Defined.

(** ** Script paths at the edge *)

Lemma contains_empty s : PyStr.contains "" s = true.
Proof. destruct s; reflexivity. Qed.

(** X20: the empty script path belongs to the first step.  Every command
    holds the empty text, so a record whose filepath is empty is given
    the name of the first step of the manifest ("unknown" when that step
    has no name or an empty one); on the empty manifest every record
    gets "unknown". *)
Theorem empty_script_path_takes_the_first_step :
  forall (Value : Type) (py_str : Value -> string) (step : StepConfig)
         (rest : Config) (name script : string) (value : Value) (line : Z),
    ev_step (extracted py_str (step :: rest) name value "" line)
    = or_unknown (sc_name step)
    /\ ev_step (extracted py_str [] name value script line) = "unknown".
Proof.
  intros. unfold extracted. simpl. now rewrite contains_empty.
Qed.

(** ** The caption of an artifact *)

Lemma length_take n s : String.length (take n s) <= n.
Proof.
  revert s. induction n as [|n IH]; intros [|c s]; simpl; try lia.
  specialize (IH s). lia.
Qed.

Lemma startswith_of_take p n s :
  PyStr.startswith p (take n s) = true -> PyStr.startswith p s = true.
Proof.
  revert n s. induction p as [|a p IH]; intros n s H; [reflexivity|].
  destruct n as [|n]; destruct s as [|b s]; simpl in *; try discriminate.
  apply andb_true_iff in H. destruct H as [-> H]. simpl. eauto.
Qed.

Lemma drop_take i n s : PyStr.drop i (take n s) = take (n - i) (PyStr.drop i s).
Proof.
  revert n s. induction i as [|i IH]; intros n s; simpl.
  - now rewrite Nat.sub_0_r.
  - destruct n as [|n]; destruct s as [|c s]; simpl; auto.
    now destruct (n - i).
Qed.

Lemma drop_drop i j s : PyStr.drop i (PyStr.drop j s) = PyStr.drop (j + i) s.
Proof.
  revert s. induction j as [|j IH]; intros s; simpl; auto.
  destruct s as [|c s]; simpl; auto. now destruct i.
Qed.

Lemma finditer_head opening s :
  forall pos m rest,
    finditer_from opening 0 pos s = m :: rest ->
    pos <= m_start m
    /\ forall k, k < m_start m - pos ->
                 marker_at opening (PyStr.drop k s) = None.
Proof.
  induction s as [|c s IH]; intros pos m rest H; [discriminate|].
  cbn [finditer_from] in H.
  destruct (marker_at opening (String c s)) as [[name len]|] eqn:Hm.
  - injection H as <- _. simpl. split; [lia|]. intros k Hk. lia.
  - destruct (IH _ _ _ H) as [Hle Hbefore]. split; [lia|].
    intros [|k] Hk; [exact Hm|]. simpl. apply Hbefore. lia.
Qed.

Lemma startswith_in_take p n s :
  PyStr.startswith p s = true -> String.length p <= n ->
  PyStr.startswith p (take n s) = true.
Proof.
  revert n s. induction p as [|a p IH]; intros n s H Hn; [reflexivity|].
  destruct s as [|b s]; [discriminate|]. simpl in H, Hn.
  destruct n as [|n]; [lia|]. simpl.
  apply andb_true_iff in H. destruct H as [-> H]. simpl. apply IH; [auto|lia].
Qed.

Lemma marker_at_empty opening : marker_at opening EmptyString = None.
Proof. destruct opening; reflexivity. Qed.

(** The first match stands at the first offset where the pattern
    matches: every offset of the text is tried, the last one included. *)
Lemma finditer_first opening s :
  forall i pos name len,
    marker_at opening (PyStr.drop i s) = Some (name, len) ->
    (forall k, k < i -> marker_at opening (PyStr.drop k s) = None) ->
    exists rest,
      finditer_from opening 0 pos s
      = mkMatch name (pos + i) (pos + i + len) :: rest.
Proof.
  induction s as [|c s IH]; intros i pos name len Hm Hbefore.
  - destruct i; simpl in Hm; rewrite marker_at_empty in Hm; discriminate.
  - destruct i as [|i].
    + simpl in Hm. cbn [finditer_from]. rewrite Hm, Nat.add_0_r. eauto.
    + cbn [finditer_from].
      pose proof (Hbefore 0 (Nat.lt_0_succ i)) as H0. simpl in H0.
      rewrite H0. simpl in Hm.
      destruct (IH i (S pos) name len Hm) as [rest Hr].
      { intros k Hk. apply (Hbefore (S k)). lia. }
      exists rest. rewrite Hr. do 2 f_equal; lia.
Qed.

Lemma no_marker_below opening s i :
  forallb (fun k => match marker_at opening (PyStr.drop k s) with
                    | None => true
                    | Some _ => false
                    end) (seq 0 i) = true ->
  forall k, k < i -> marker_at opening (PyStr.drop k s) = None.
Proof.
  intros H k Hk. rewrite forallb_forall in H.
  specialize (H k). rewrite in_seq in H.
  destruct (marker_at opening (PyStr.drop k s)); auto.
  discriminate H. lia.
Qed.

(** X21: the caption is looked for in a window.
    [_find_caption_for_artifact] returns the text, not empty and without
    a closing brace, of the first \caption{...} that lies wholly within
    the 500 characters after the artifact, and it returns it whenever
    there is one: a caption whose closing brace is the 500th character
    of the window is found, one whose closing brace comes later is not.
    When \caption{ does not occur in the window nothing is returned,
    however close behind it a caption may stand. *)
Theorem caption_lies_within_the_window :
  forall (content : string) (artifact_end_pos : nat),
    (forall caption,
        _find_caption_for_artifact content artifact_end_pos = Some caption ->
        PyStr.is_empty caption = false
        /\ PyStr.lacks "}" caption = true
        /\ exists i,
             i + (9 + String.length caption + 1) <= 500
             /\ PyStr.startswith ("\caption{" ++ caption ++ "}")
                  (PyStr.drop (artifact_end_pos + i) content) = true
             /\ forall k,
                  k < i ->
                  marker_at "\caption{"
                    (PyStr.drop k (take 500 (PyStr.drop artifact_end_pos content)))
                  = None)
    /\ (forall caption i,
          PyStr.is_empty caption = false ->
          PyStr.lacks "}" caption = true ->
          i + (9 + String.length caption + 1) <= 500 ->
          PyStr.startswith ("\caption{" ++ caption ++ "}")
            (PyStr.drop (artifact_end_pos + i) content) = true ->
          (forall k,
              k < i ->
              marker_at "\caption{"
                (PyStr.drop k (take 500 (PyStr.drop artifact_end_pos content)))
              = None) ->
          _find_caption_for_artifact content artifact_end_pos = Some caption)
    /\ (PyStr.contains "\caption{"
          (take 500 (PyStr.drop artifact_end_pos content)) = false ->
        _find_caption_for_artifact content artifact_end_pos = None).
Proof.
  intros content pos. unfold _find_caption_for_artifact, search, finditer.
  set (region := take 500 (PyStr.drop pos content)). split; [|split].
  - intros caption H.
    destruct (finditer_from "\caption{" 0 0 region) as [|m rest] eqn:Hf;
      [discriminate|].
    injection H as <-.
    assert (Hin : In m (finditer_from "\caption{" 0 0 region))
      by (rewrite Hf; now left).
    destruct (@finditer_sound "\"%char "caption{" _ _ _ _ Hin)
      as (_ & Hst & He & Hne & Hnb).
    destruct (finditer_head _ _ _ Hf) as [_ Hbefore].
    rewrite Nat.sub_0_r in Hst, Hbefore.
    split; [exact Hne|]. split; [exact Hnb|].
    exists (m_start m). split; [|split; [|exact Hbefore]].
    + destruct (startswith_take _ _ Hst) as [_ Hlen].
      rewrite length_drop in Hlen.
      pose proof (length_take 500 (PyStr.drop pos content)) as Hr.
      fold region in Hr.
      rewrite !PyStrFacts.length_app in Hlen.
      change (String.length "\caption{") with 9 in Hlen.
      change (String.length "}") with 1 in Hlen. lia.
    + unfold region in Hst. rewrite drop_take in Hst.
      apply startswith_of_take in Hst. now rewrite drop_drop in Hst.
  - intros caption i Hne Hnb Hfit Hst Hbefore.
    assert (Hm : marker_at "\caption{" (PyStr.drop i region)
                 = Some (caption, 9 + String.length caption + 1)).
    { unfold region. rewrite drop_take, drop_drop.
      apply (@startswith_in_take _ (500 - i)) in Hst.
      - rewrite (PyStrFacts.startswith_split _ _ Hst).
        rewrite !PyStrFacts.app_assoc.
        apply (@marker_at_complete "\"%char "caption{" caption _ Hne Hnb).
      - rewrite !PyStrFacts.length_app.
        change (String.length "\caption{") with 9.
        change (String.length "}") with 1. lia. }
    destruct (@finditer_first _ _ i 0 _ _ Hm Hbefore) as [rest ->].
    reflexivity.
  - intros Hc. now rewrite (finditer_nothing _ _ Hc).
Qed.

Lemma caption_lies_within_the_window_witness :
  String.length captioned_figure = 525
  /\ _find_caption_for_artifact captioned_figure 25
     = Some "Accuracy over time"
  /\ _find_caption_for_artifact captioned_figure 24 = None.
Proof.
  split; [reflexivity|].
  destruct (caption_lies_within_the_window captioned_figure 25)
    as (_ & Hfound & _).
  split; [|vm_compute; reflexivity].
  apply (Hfound "Accuracy over time" 472); try reflexivity.
  apply no_marker_below. vm_compute. reflexivity.
Defined.

(** ** Documents with one kind of marker *)

Lemma resolved_entry_within self artifact_type b q content arts warns a :
  resolve_matches self artifact_type (finditer (String b q) content)
  = Ok (arts, warns) ->
  In a arts ->
  a_type a = artifact_type
  /\ a_match_start a <= a_match_end a
  /\ a_match_start a <= String.length content.
Proof.
  intros Hr Ha.
  destruct (resolve_matches_back _ _ _ Hr a Ha) as (Ht & Hi & _).
  unfold finditer in Hi.
  destruct (@finditer_sound b q _ _ _ _ Hi) as (_ & Hst & He & _).
  simpl m_start in *. simpl m_end in *. simpl m_group1 in *.
  rewrite Nat.sub_0_r in Hst.
  destruct (startswith_take _ _ Hst) as [_ Hlen].
  rewrite length_drop in Hlen. simpl String.length in Hlen.
  split; [exact Ht|]. split; lia.
Qed.

Lemma ends_before_starts_before l :
  StronglySorted ends_before l ->
  Forall (fun a => a_match_start a <= a_match_end a) l ->
  StronglySorted starts_before l.
Proof.
  induction 1 as [|a l Hs IH Hlt]; intros Hb; [constructor|].
  inversion Hb as [|? ? Ha Hb']; subst.
  constructor; auto.
  eapply Forall_impl; [|exact Hlt].
  unfold ends_before, starts_before. intros; lia.
Qed.

Lemma one_kind_in_order self artifact_type b q content arts warns :
  resolve_matches self artifact_type (finditer (String b q) content)
  = Ok (arts, warns) ->
  insert_metadata_comments content arts = woven content 0 arts.
Proof.
  intros Hr. rewrite insert_metadata_comments_inserted.
  apply inserted_woven.
  - apply ends_before_starts_before.
    + eapply resolve_matches_disjoint; [|exact Hr]. apply finditer_disjoint.
    + apply Forall_forall. intros a Ha.
      now destruct (@resolved_entry_within _ _ _ _ _ _ _ a Hr Ha) as (_ & ? & _).
  - apply Forall_forall. intros a Ha.
    destruct (@resolved_entry_within _ _ _ _ _ _ _ a Hr Ha) as (_ & _ & ?). lia.
Qed.

(** X22: a document that uses one kind of marker is enhanced in place.
    When all the entries discovered are of kind "value", or all of kind
    "artifact", the text [enhance_latex_document] writes is the document
    with each metadata comment right before its marker, then the package
    line added; a document that is not there raises
    [FileNotFoundError]. *)
Theorem one_kind_of_marker_is_enhanced_in_place :
  forall (self : MetadataProcessor) (fs : Files) (latex_file content : string)
         (arts : list Artifact) (warns : list string),
    (fs latex_file = None ->
     enhanced_text self fs latex_file = Raise FileNotFoundError)
    /\ (fs latex_file = Some content ->
        discover_artifacts_in_latex self fs latex_file = Ok (arts, warns) ->
        Forall (fun a => a_type a = "value") arts
        \/ Forall (fun a => a_type a = "artifact") arts ->
        enhanced_text self fs latex_file
        = Ok (add_package (woven content 0 arts))).
Proof.
  intros self fs latex_file content arts warns. unfold enhanced_text. split.
  - now intros ->.
  - intros Hf Hd Hkind. rewrite Hf, Hd. simpl. do 2 f_equal.
    unfold discover_artifacts_in_latex in Hd. rewrite Hf in Hd. simpl in Hd.
    destruct (resolve_matches self "value" (finditer "\csfvaluelink{" content))
      as [[a1 w1]| |] eqn:H1; try discriminate.
    simpl in Hd.
    destruct (resolve_matches self "artifact" (finditer "\csflink{" content))
      as [[a2 w2]| |] eqn:H2; try discriminate.
    simpl in Hd. injection Hd as <- <-. rewrite app_nil_r in *.
    destruct Hkind as [Hv|Ha].
    + assert (a2 = []) as ->.
      { destruct a2 as [|a a2]; auto. exfalso.
        rewrite Forall_forall in Hv.
        assert (Hin : In a (a1 ++ a :: a2)) by apply in_elt.
        specialize (Hv a Hin).
        destruct (@resolved_entry_within _ _ _ _ _ _ _ a H2 (or_introl eq_refl))
          as (Ht & _). congruence. }
      rewrite app_nil_r. eapply one_kind_in_order; exact H1.
    + assert (a1 = []) as ->.
      { destruct a1 as [|a a1]; auto. exfalso.
        rewrite Forall_forall in Ha.
        specialize (Ha a (or_introl eq_refl)).
        destruct (@resolved_entry_within _ _ _ _ _ _ _ a H1 (or_introl eq_refl))
          as (Ht & _). congruence. }
      simpl. eapply one_kind_in_order; exact H2.
Qed.

Lemma one_kind_of_marker_is_enhanced_in_place_witness :
  enhanced_text demo_processor
    (demo_files "\documentclass{article} \csflink{a} and \csflink{b}")
    "paper.tex"
  = Ok (add_package
          (woven "\documentclass{article} \csflink{a} and \csflink{b}" 0
             [ mkArtifact "artifact" "a" 24 35
                 (mkMetadata (Some "plot") "analyze.py" ["plot.py"]);
               mkArtifact "artifact" "b" 40 51
                 (mkMetadata (Some "plot") "analyze.py" ["plot.py"]) ])).
Proof.
  destruct (one_kind_of_marker_is_enhanced_in_place demo_processor
              (demo_files "\documentclass{article} \csflink{a} and \csflink{b}")
              "paper.tex"
              "\documentclass{article} \csflink{a} and \csflink{b}"
              [ mkArtifact "artifact" "a" 24 35
                  (mkMetadata (Some "plot") "analyze.py" ["plot.py"]);
                mkArtifact "artifact" "b" 40 51
                  (mkMetadata (Some "plot") "analyze.py" ["plot.py"]) ]
              [])
    as [_ Hok].
  apply Hok; [reflexivity | reflexivity |].
  right. repeat constructor.
Defined.

(** ** Figures *)

Section FinditerWith.

Variable match_at : string -> option (string * nat).
Hypothesis match_at_len :
  forall s name len, match_at s = Some (name, len) -> 1 <= len.

Lemma finditer_with_after s :
  forall skip pos,
    Forall (fun m => pos + skip <= m_start m)
           (finditer_with match_at skip pos s).
Proof.
  induction s as [|c s IH]; intros skip pos; [constructor|].
  cbn [finditer_with]. destruct skip as [|k].
  - destruct (match_at (String c s)) as [[name len]|].
    + constructor; [simpl; lia|].
      eapply Forall_impl; [|apply (IH (len - 1) (S pos))]. simpl. intros; lia.
    + eapply Forall_impl; [|apply (IH 0 (S pos))]. simpl. intros; lia.
  - eapply Forall_impl; [|apply (IH k (S pos))]. simpl. intros; lia.
Qed.

Lemma finditer_with_disjoint s :
  forall skip pos,
    StronglySorted (fun m1 m2 => m_end m1 <= m_start m2)
                   (finditer_with match_at skip pos s).
Proof.
  induction s as [|c s IH]; intros skip pos; [constructor|].
  cbn [finditer_with]. destruct skip as [|k]; [|apply IH].
  destruct (match_at (String c s)) as [[name len]|] eqn:Hm; [|apply IH].
  constructor; [apply IH|].
  apply match_at_len in Hm.
  eapply Forall_impl; [|apply (finditer_with_after s (len - 1) (S pos))].
  simpl. intros; lia.
Qed.

Lemma finditer_with_sound s :
  forall skip pos m,
    In m (finditer_with match_at skip pos s) ->
    pos <= m_start m
    /\ match_at (PyStr.drop (m_start m - pos) s)
       = Some (m_group1 m, m_end m - m_start m).
Proof.
  induction s as [|c s IH]; intros skip pos m Hin; [contradiction|].
  assert (Hrec : forall skip',
             In m (finditer_with match_at skip' (S pos) s) ->
             pos <= m_start m
             /\ match_at (PyStr.drop (m_start m - pos) (String c s))
                = Some (m_group1 m, m_end m - m_start m)).
  { intros skip' H. destruct (IH _ _ _ H) as [Hle Hm]. split; [lia|].
    replace (m_start m - pos) with (S (m_start m - S pos)) by lia.
    exact Hm. }
  cbn [finditer_with] in Hin. destruct skip as [|k]; [|eauto].
  destruct (match_at (String c s)) as [[name len]|] eqn:Hm; [|eauto].
  destruct Hin as [<-|Hin]; [|eauto].
  simpl. split; [lia|]. rewrite Nat.sub_diag. simpl.
  rewrite Hm. do 2 f_equal. lia.
Qed.

End FinditerWith.

Lemma braced_at_sound t name len :
  braced_at t = Some (name, len) ->
  PyStr.startswith (String "{" (name ++ "}")) t = true
  /\ len = String.length name + 2
  /\ PyStr.is_empty name = false
  /\ PyStr.lacks "}" name = true.
Proof.
  unfold braced_at. destruct t as [|c rest]; [discriminate|].
  destruct (Ascii.eqb c "{") eqn:Hc; [|discriminate].
  apply Ascii.eqb_eq in Hc. subst c.
  destruct (PyStr.is_empty (until_brace rest)) eqn:He; [discriminate|].
  destruct (PyStr.startswith "}"
              (PyStr.drop (String.length (until_brace rest)) rest)) eqn:Hb;
    [|discriminate].
  intros H. injection H as <- <-.
  split; [|split; [lia|split; [exact He | apply PyStrFacts.until_brace_lacks]]].
  simpl. rewrite (PyStrFacts.until_brace_prefix rest) at 2.
  rewrite (PyStrFacts.startswith_split _ _ Hb) at 1.
  rewrite <- PyStrFacts.app_assoc. apply PyStrFacts.startswith_app.
Qed.

Lemma until_bracket_lacks s : PyStr.lacks "]" (until_bracket s) = true.
Proof.
  induction s as [|a s IH]; simpl; auto.
  destruct (Ascii.eqb a "]") eqn:E; simpl; auto. now rewrite E.
Qed.

Lemma until_bracket_next s c rest :
  PyStr.drop (String.length (until_bracket s)) s = String c rest ->
  c = "]"%char
  /\ s = (until_bracket s ++ String "]" rest)%string.
Proof.
  induction s as [|a s IH]; simpl; [discriminate|].
  destruct (Ascii.eqb a "]") eqn:E; simpl.
  - intros H. injection H as <- <-. apply Ascii.eqb_eq in E. subst a. auto.
  - intros H. destruct (IH H) as [-> Hs]. split; auto. now f_equal.
Qed.

Lemma bracketed_assoc (a o p d : string) (b c : ascii) :
  (a ++ String b (o ++ String c (p ++ d)))%string
  = ((a ++ String b (o ++ String c EmptyString) ++ p) ++ d)%string.
Proof.
  induction a as [|x a IHa]; simpl; [|now f_equal].
  f_equal. induction o as [|y o IHo]; simpl; [reflexivity | now f_equal].
Qed.

(** What a match of the figure pattern looks like. *)
Lemma includegraphics_at_sound s name len :
  includegraphics_at s = Some (name, len) ->
  exists options,
    PyStr.startswith ("\includegraphics" ++ options ++ String "{" (name ++ "}"))
                     s = true
    /\ len = 16 + String.length options + (String.length name + 2)
    /\ (options = EmptyString
        \/ exists o, options = String "[" (o ++ "]")
                     /\ PyStr.lacks "]" o = true)
    /\ PyStr.is_empty name = false
    /\ PyStr.lacks "}" name = true.
Proof.
  unfold includegraphics_at.
  destruct (PyStr.startswith "\includegraphics" s) eqn:Hs; [|discriminate].
  pose proof (PyStrFacts.startswith_split _ _ Hs) as Hsplit.
  change (String.length "\includegraphics") with 16 in Hsplit.
  destruct (PyStr.drop 16 s) as [|c after_open] eqn:Hrest; [discriminate|].
  destruct (Ascii.eqb c "[") eqn:Hc.
  - apply Ascii.eqb_eq in Hc. subst c.
    destruct (PyStr.drop (String.length (until_bracket after_open)) after_open)
      as [|c2 after_close] eqn:Hafter; [discriminate|].
    destruct (until_bracket_next _ Hafter) as [-> Hopen].
    destruct (braced_at after_close) as [[name' len']|] eqn:Hb; [|discriminate].
    intros H. injection H as <- <-.
    destruct (braced_at_sound _ Hb) as (Hst & -> & Hne & Hnb).
    exists (String "[" (until_bracket after_open ++ "]")).
    split; [|split; [|split; [|auto]]].
    + assert (Heq : s = (("\includegraphics"
                          ++ String "[" (until_bracket after_open ++ "]")
                          ++ String "{" (name' ++ "}"))
                         ++ PyStr.drop
                              (String.length (String "{" (name' ++ "}")))
                              after_close)%string).
      { rewrite Hsplit at 1. rewrite Hopen at 1.
        rewrite (PyStrFacts.startswith_split _ _ Hst) at 1.
        apply bracketed_assoc. }
      rewrite Heq. apply PyStrFacts.startswith_app.
    + simpl String.length. rewrite PyStrFacts.length_app. simpl. lia.
    + right. exists (until_bracket after_open). split; auto.
      apply until_bracket_lacks.
  - destruct (braced_at (String c after_open)) as [[name' len']|] eqn:Hb;
      [|discriminate].
    intros H. injection H as <- <-.
    destruct (braced_at_sound _ Hb) as (Hst & -> & Hne & Hnb).
    exists EmptyString. split; [|split; [simpl; lia|auto]].
    rewrite Hsplit. rewrite (PyStrFacts.startswith_split _ _ Hst) at 1.
    change ("" ++ String "{" (name' ++ "}"))%string
      with (String "{" (name' ++ "}")).
    rewrite <- PyStrFacts.app_assoc. apply PyStrFacts.startswith_app.
Qed.

Lemma finditer_with_le match_at s :
  forall skip pos m,
    In m (finditer_with match_at skip pos s) -> m_start m <= m_end m.
Proof.
  induction s as [|c s IH]; intros skip pos m Hin; [contradiction|].
  cbn [finditer_with] in Hin. destruct skip as [|k]; [|eauto].
  destruct (match_at (String c s)) as [[name len]|]; [|eauto].
  destruct Hin as [<-|Hin]; [simpl; lia | eauto].
Qed.

Lemma includegraphics_at_len s name len :
  includegraphics_at s = Some (name, len) -> 1 <= len.
Proof.
  intros H. destruct (includegraphics_at_sound _ H) as (o & _ & -> & _). lia.
Qed.

Lemma figures_of_back self fs content ms figs :
  figures_of self fs content ms = Ok figs ->
  forall path info,
    In (path, info) figs ->
    exists m md,
      In m ms
      /\ path = m_group1 m
      /\ PyStr.contains "\csfigure" (context_of content m) = false
      /\ _match_artifact_to_step self fs path = Ok (Some md)
      /\ info = mkFigure path (am_step_name md) (am_script_path md)
                  (figure_line fs md path) (am_dependencies md)
                  (_find_caption_for_artifact content (m_end m))
                  (m_start m) (m_end m).
Proof.
  revert figs. induction ms as [|m ms IH]; intros figs Hf path info Hin;
    simpl in Hf.
  - injection Hf as <-. contradiction.
  - destruct (PyStr.contains "\csfigure" (context_of content m)) eqn:Hc.
    + destruct (IH _ Hf _ _ Hin) as (m' & md & Hm' & Hrest).
      exists m', md. split; [now right | exact Hrest].
    + destruct (_match_artifact_to_step self fs (m_group1 m))
        as [o| |] eqn:Hmatch; try discriminate.
      simpl in Hf.
      destruct (figures_of self fs content ms) as [figs'| |]; try discriminate.
      simpl in Hf. specialize (IH figs' eq_refl).
      assert (Htail : In (path, info) figs' ->
                      exists m' md,
                        In m' (m :: ms)
                        /\ path = m_group1 m'
                        /\ PyStr.contains "\csfigure" (context_of content m')
                           = false
                        /\ _match_artifact_to_step self fs path = Ok (Some md)
                        /\ info = mkFigure path (am_step_name md)
                                    (am_script_path md)
                                    (figure_line fs md path)
                                    (am_dependencies md)
                                    (_find_caption_for_artifact content
                                       (m_end m'))
                                    (m_start m') (m_end m')).
      { intros H. destruct (IH _ _ H) as (m' & md & Hm' & Hrest).
        exists m', md. split; [now right | exact Hrest]. }
      destruct o as [md|]; injection Hf as <-; [|auto].
      destruct Hin as [Heq|Hin]; [|auto].
      injection Heq as <- <-. exists m, md. repeat split; auto. now left.
Qed.

Lemma figures_of_disjoint self fs content ms figs :
  StronglySorted (fun m1 m2 => m_end m1 <= m_start m2) ms ->
  figures_of self fs content ms = Ok figs ->
  StronglySorted figure_ends_before figs.
Proof.
  revert figs. induction ms as [|m ms IH]; intros figs Hs Hf; simpl in Hf.
  - injection Hf as <-. constructor.
  - inversion Hs as [|? ? Hs' Hlt]; subst.
    destruct (PyStr.contains "\csfigure" (context_of content m)); [eauto|].
    destruct (_match_artifact_to_step self fs (m_group1 m)) as [o| |];
      try discriminate.
    simpl in Hf.
    destruct (figures_of self fs content ms) as [figs'| |] eqn:Hf';
      try discriminate.
    simpl in Hf. pose proof (IH figs' Hs' eq_refl) as Hsorted.
    destruct o as [md|]; injection Hf as <-; auto.
    constructor; auto. apply Forall_forall. intros [path info] Hin.
    destruct (figures_of_back _ _ _ _ Hf' _ _ Hin)
      as (m' & md' & Hm' & _ & _ & _ & ->).
    unfold figure_ends_before. simpl.
    rewrite Forall_forall in Hlt. apply (Hlt _ Hm').
Qed.

(** X23: figures are reported in document order.  The list
    [_discover_figure_artifacts] returns follows the document and its
    entries do not overlap: each ends before the next one starts. *)
Theorem figures_follow_the_document :
  forall (self : MetadataProcessor) (fs : Files) (content : string)
         (figs : list (string * FigureInfo)),
    _discover_figure_artifacts self fs content = Ok figs ->
    StronglySorted figure_ends_before figs.
Proof.
  intros self fs content figs H. unfold _discover_figure_artifacts in H.
  eapply figures_of_disjoint; [|exact H].
  apply finditer_with_disjoint. exact includegraphics_at_len.
Qed.

Lemma figures_follow_the_document_witness :
  exists figs,
    _discover_figure_artifacts demo_processor (demo_files "")
      "\includegraphics{fig_1.png} and \includegraphics[w]{fig_2.png}"
    = Ok figs
    /\ List.length figs = 2
    /\ StronglySorted figure_ends_before figs.
Proof.
  eexists. split; [reflexivity|]. split; [reflexivity|].
  apply (@figures_follow_the_document demo_processor (demo_files "")
           "\includegraphics{fig_1.png} and \includegraphics[w]{fig_2.png}").
  reflexivity.
Defined.

(** X24: what a reported figure is.  Each entry of
    [_discover_figure_artifacts] is filed under the path in the braces of
    an \includegraphics (with or without options) that stands at its
    offsets inside the document; no \csfigure occurs within 200
    characters around it; its step, script and dependencies are those
    [_match_artifact_to_step] gives for the path; its caption is what
    [_find_caption_for_artifact] finds after it; and it has a line number
    only if it has a script. *)
Theorem reported_figures_are_includegraphics :
  forall (self : MetadataProcessor) (fs : Files) (content : string)
         (figs : list (string * FigureInfo)) (path : string)
         (info : FigureInfo),
    _discover_figure_artifacts self fs content = Ok figs ->
    In (path, info) figs ->
    f_path info = path
    /\ f_match_start info < f_match_end info <= String.length content
    /\ (exists options,
          slice (f_match_start info) (f_match_end info) content
          = ("\includegraphics" ++ options ++ String "{" (path ++ "}"))%string
          /\ (options = EmptyString
              \/ exists o, options = String "[" (o ++ "]")
                           /\ PyStr.lacks "]" o = true))
    /\ PyStr.contains "\csfigure"
         (slice (f_match_start info - 200)
                (Nat.min (String.length content) (f_match_end info + 200))
                content) = false
    /\ (exists md,
          _match_artifact_to_step self fs path = Ok (Some md)
          /\ f_step info = am_step_name md
          /\ f_script info = am_script_path md
          /\ f_dependencies info = am_dependencies md)
    /\ f_caption info = _find_caption_for_artifact content (f_match_end info)
    /\ (f_script info = None -> f_line info = None).
Proof.
  intros self fs content figs path info H Hin.
  unfold _discover_figure_artifacts in H.
  destruct (figures_of_back _ _ _ _ H _ _ Hin)
    as (m & md & Hm & -> & Hctx & Hmatch & ->).
  simpl.
  destruct (finditer_with_sound _ _ _ _ _ Hm) as [_ Hat].
  pose proof (finditer_with_le _ _ _ _ _ Hm) as Hle.
  rewrite Nat.sub_0_r in Hat.
  destruct (includegraphics_at_sound _ Hat)
    as (options & Hst & Hlen & Hopt & Hne & Hnb).
  destruct (startswith_take _ _ Hst) as [Htake Hbound].
  rewrite length_drop in Hbound.
  assert (Hsize : String.length
                    ("\includegraphics" ++ options
                     ++ String "{" (m_group1 m ++ "}"))
                  = m_end m - m_start m).
  { rewrite Hlen, !PyStrFacts.length_app. simpl String.length.
    rewrite PyStrFacts.length_app. simpl. lia. }
  rewrite Hsize in Htake, Hbound.
  split; [reflexivity|]. split; [lia|]. split.
  { exists options. split; [exact Htake | exact Hopt]. }
  split; [exact Hctx|]. split.
  { exists md. auto. }
  split; [reflexivity|].
  intros Hnone. unfold figure_line. rewrite Hnone.
  unfold _match_artifact_to_step in Hmatch.
  destruct (match_in_steps_sound _ _ _ Hmatch)
    as (l1 & step & l2 & _ & _ & _ & Hmd).
  rewrite Hmd. reflexivity.
Qed.

Lemma reported_figures_are_includegraphics_witness :
  exists md,
    _match_artifact_to_step demo_processor (demo_files "") "fig_1.png"
    = Ok (Some md)
    /\ am_step_name md = "plot".
Proof.
  destruct (@reported_figures_are_includegraphics demo_processor (demo_files "")
              "A \includegraphics[w]{fig_1.png} B"
              _ "fig_1.png"
              (mkFigure "fig_1.png" "plot" (Some "plot.py") None ["plot.py"]
                 None 2 32)
              eq_refl (or_introl eq_refl))
    as (_ & _ & _ & _ & (md & Hm & Hs & _) & _).
  exists md. split; [exact Hm | symmetry; exact Hs].
Defined.

(** ** The parameters of an annotation *)

Lemma split_on_lacks sep s :
  forall cur p,
    PyStr.lacks sep cur = true ->
    In p (split_on sep cur s) ->
    PyStr.lacks sep p = true.
Proof.
  induction s as [|c s IH]; intros cur p Hcur Hin; simpl in Hin.
  - destruct Hin as [<-|[]]. exact Hcur.
  - destruct (Ascii.eqb c sep) eqn:E.
    + destruct Hin as [<-|Hin]; [exact Hcur|]. apply (IH EmptyString); auto.
    + apply (IH (cur ++ String c EmptyString)%string); auto.
      rewrite lacks_app, Hcur. simpl. now rewrite E.
Qed.

Lemma lstrip_lacks f c s :
  PyStr.lacks c s = true -> PyStr.lacks c (lstrip_by f s) = true.
Proof.
  induction s as [|x s IH]; simpl; auto. intros H.
  destruct (f x); [|exact H].
  apply andb_true_iff in H. destruct H. auto.
Qed.

Lemma rstrip_lacks f c s :
  PyStr.lacks c s = true -> PyStr.lacks c (rstrip_by f s) = true.
Proof.
  induction s as [|x s IH]; simpl; auto. intros H.
  apply andb_true_iff in H. destruct H as [Hx H].
  destruct (PyStr.is_empty (rstrip_by f s) && f x); simpl; auto.
  now rewrite Hx, IH.
Qed.

Lemma strip_lacks f c s :
  PyStr.lacks c s = true -> PyStr.lacks c (strip_by f s) = true.
Proof. intros H. now apply rstrip_lacks, lstrip_lacks. Qed.

Lemma partition_at_split sep s before after :
  partition_at sep s = Some (before, after) ->
  PyStr.lacks sep before = true
  /\ s = (before ++ String sep after)%string.
Proof.
  revert before. induction s as [|c s IH]; intros before; simpl; [discriminate|].
  destruct (Ascii.eqb c sep) eqn:E.
  - intros H. injection H as <- <-. apply Ascii.eqb_eq in E. subst c. auto.
  - destruct (partition_at sep s) as [[b a]|]; [|discriminate].
    intros H. injection H as <- <-.
    destruct (IH b eq_refl) as [Hb Hs]. simpl. rewrite E, Hb.
    split; auto. now f_equal.
Qed.

Lemma rstrip_idempotent f s : rstrip_by f (rstrip_by f s) = rstrip_by f s.
Proof.
  induction s as [|c s IH]; simpl; auto.
  destruct (PyStr.is_empty (rstrip_by f s) && f c) eqn:E; simpl; auto.
  now rewrite IH, E.
Qed.

Lemma lstrip_fixed f s :
  match s with
  | String c _ => f c = false
  | EmptyString => True
  end ->
  lstrip_by f s = s.
Proof. destruct s as [|c s]; simpl; auto. now intros ->. Qed.

Lemma lstrip_head f s :
  match lstrip_by f s with
  | String c _ => f c = false
  | EmptyString => True
  end.
Proof.
  induction s as [|c s IH]; simpl; auto.
  destruct (f c) eqn:E; auto.
Qed.

Lemma rstrip_head f s :
  match s with
  | String c _ => f c = false
  | EmptyString => True
  end ->
  match rstrip_by f s with
  | String c _ => f c = false
  | EmptyString => True
  end.
Proof.
  destruct s as [|c s]; simpl; auto. intros H.
  rewrite H, andb_false_r. exact H.
Qed.

Lemma strip_trimmed f s :
  lstrip_by f (strip_by f s) = strip_by f s
  /\ rstrip_by f (strip_by f s) = strip_by f s.
Proof.
  unfold strip_by. split; [|apply rstrip_idempotent].
  apply lstrip_fixed, rstrip_head, lstrip_head.
Qed.

Lemma dict_get_in {V : Type} (d : Dict.t V) k v :
  Dict.get k d = Some v -> In (k, v) d.
Proof.
  induction d as [|[k0 v0] d IH]; simpl; [discriminate|].
  destruct (String.eqb k0 k) eqn:E; intros H.
  - apply String.eqb_eq in E. injection H as <-. subst. now left.
  - right; auto.
Qed.

Lemma dict_set_forall {V : Type} (P : string * V -> Prop) (d : Dict.t V) k v :
  Forall P d -> P (k, v) -> Forall P (Dict.set k v d).
Proof.
  intros Hd Hkv. induction Hd as [|[k0 v0] d H0 Hd IH]; simpl.
  - constructor; auto.
  - destruct (String.eqb k0 k) eqn:E.
    + apply String.eqb_eq in E. subst k0. constructor; auto.
    + constructor; auto.
Qed.

Lemma parse_params_loop_forall (P : string * string -> Prop) pieces :
  (forall param key value,
      In param pieces ->
      partition_at "=" (strip param) = Some (key, value) ->
      P (strip key, strip value)) ->
  forall params,
    Forall P params -> Forall P (parse_params_loop pieces params).
Proof.
  induction pieces as [|param pieces IH]; intros Hp params Hd; simpl; auto.
  assert (Hrest : forall param' key value,
             In param' pieces ->
             partition_at "=" (strip param') = Some (key, value) ->
             P (strip key, strip value))
    by (intros; eapply Hp; eauto; now right).
  destruct (partition_at "=" (strip param)) as [[key value]|] eqn:E; auto.
  apply IH; auto. apply dict_set_forall; auto.
  apply (Hp param key value); auto. now left.
Qed.

Lemma parse_params_all_clean params_str :
  Forall (fun kv => clean_pair kv = true) (parse_params params_str).
Proof.
  unfold parse_params. apply parse_params_loop_forall; [|constructor].
  intros param k v Hin Hpart.
  apply split_on_lacks in Hin; [|reflexivity].
  apply (strip_lacks PyStr.isspace) in Hin. fold (strip param) in Hin.
  destruct (partition_at_split _ _ Hpart) as [Hk Hs].
  rewrite Hs, lacks_app in Hin. simpl in Hin.
  apply andb_true_iff in Hin. destruct Hin as [Hck Hcv].
  unfold clean_pair, trimmed, strip. simpl.
  destruct (strip_trimmed PyStr.isspace k) as [Hlk Hrk].
  destruct (strip_trimmed PyStr.isspace v) as [Hlv Hrv].
  rewrite Hlk, Hrk, Hlv, Hrv, !String.eqb_refl.
  rewrite !strip_lacks; auto.
Qed.

Lemma parse_params_get_clean params_str key value :
  Dict.get key (parse_params params_str) = Some value ->
  clean_pair (key, value) = true.
Proof.
  intros Hg. apply dict_get_in in Hg.
  pose proof (parse_params_all_clean params_str) as Hall.
  rewrite Forall_forall in Hall. exact (Hall _ Hg).
Qed.

(** X25: what the parameters of an annotation can hold.  In the
    dictionary [_parse_csf_annotation] builds from the parameter text, no
    key and no value holds a comma, no key holds an equals sign, and
    neither has whitespace at its ends: a value written with a comma in
    it reaches the dictionary cut at the comma. *)
Theorem parsed_params_are_clean :
  forall (params_str key value : string),
    Dict.get key (parse_params params_str) = Some value ->
    clean_pair (key, value) = true.
Proof.
  intros params_str key value Hg. apply dict_get_in in Hg.
  pose proof (parse_params_all_clean params_str) as Hall.
  rewrite Forall_forall in Hall. exact (Hall _ Hg).
Qed.

Lemma parsed_params_are_clean_witness :
  Dict.get "expr" (parse_params "name = r , expr = f(a, b)") = Some "f(a"
  /\ clean_pair ("expr", "f(a") = true.
Proof.
  split; [reflexivity|].
  apply (@parsed_params_are_clean "name = r , expr = f(a, b)" "expr" "f(a").
  reflexivity.
Defined.

Lemma split_on_whole sep x :
  forall cur, PyStr.lacks sep x = true -> split_on sep cur x = [(cur ++ x)%string].
Proof.
  induction x as [|c x IH]; intros cur H; simpl.
  - f_equal. clear. induction cur; simpl; congruence.
  - simpl in H. apply andb_true_iff in H. destruct H as [Hc H].
    destruct (Ascii.eqb c sep); [discriminate|].
    rewrite (IH _ H), PyStrFacts.app_assoc. reflexivity.
Qed.

Lemma split_on_app sep x rest :
  forall cur,
    PyStr.lacks sep x = true ->
    split_on sep cur (x ++ String sep rest)
    = (cur ++ x)%string :: split_on sep EmptyString rest.
Proof.
  induction x as [|c x IH]; intros cur H; simpl.
  - rewrite Ascii.eqb_refl. f_equal. clear. induction cur; simpl; congruence.
  - simpl in H. apply andb_true_iff in H. destruct H as [Hc H].
    destruct (Ascii.eqb c sep); [discriminate|].
    rewrite (IH _ H), PyStrFacts.app_assoc. reflexivity.
Qed.

Lemma split_join_comma rs :
  forall cur r,
    Forall (fun x => PyStr.lacks "," x = true) (r :: rs) ->
    split_on "," cur (PyStr.join ", " (r :: rs))
    = (cur ++ r)%string :: map (fun x => String " " x) rs.
Proof.
  induction rs as [|r' rs IH]; intros cur r H.
  - inversion H; subst. simpl. now apply split_on_whole.
  - inversion H as [|? ? Hr Hrest]; subst.
    change (PyStr.join ", " (r :: r' :: rs))
      with (r ++ String "," (String " " (PyStr.join ", " (r' :: rs))))%string.
    rewrite (@split_on_app _ _ _ cur Hr). f_equal.
    cbn [split_on]. change (Ascii.eqb " " ",") with false. cbv iota.
    rewrite (IH _ _ Hrest). reflexivity.
Qed.

Lemma lstrip_length f s : String.length (lstrip_by f s) <= String.length s.
Proof.
  induction s as [|c s IH]; simpl; auto. destruct (f c); simpl; lia.
Qed.

Lemma trimmed_head s :
  lstrip_by PyStr.isspace s = s ->
  match s with
  | String c _ => PyStr.isspace c = false
  | EmptyString => True
  end.
Proof.
  destruct s as [|c s]; simpl; auto.
  destruct (PyStr.isspace c); auto. intros H.
  pose proof (lstrip_length PyStr.isspace s) as Hl. rewrite H in Hl.
  simpl in Hl. lia.
Qed.

Lemma rstrip_app_fixed f a b :
  rstrip_by f b = b -> PyStr.is_empty b = false ->
  rstrip_by f (a ++ b) = (a ++ b)%string.
Proof.
  intros Hb Hne. induction a as [|x a IH]; simpl; auto.
  rewrite IH. destruct (a ++ b)%string eqn:E; simpl; auto.
  destruct a; simpl in E; [subst b|]; discriminate.
Qed.

Lemma partition_at_first sep k v :
  PyStr.lacks sep k = true ->
  partition_at sep (k ++ String sep v) = Some (k, v).
Proof.
  induction k as [|c k IH]; simpl; intros H.
  - now rewrite Ascii.eqb_refl.
  - apply andb_true_iff in H. destruct H as [Hc H].
    destruct (Ascii.eqb c sep); [discriminate|]. now rewrite (IH H).
Qed.

Lemma trimmed_parts s :
  trimmed s = true ->
  lstrip_by PyStr.isspace s = s /\ rstrip_by PyStr.isspace s = s.
Proof.
  unfold trimmed. intros H. apply andb_true_iff in H. destruct H as [Hl Hr].
  apply String.eqb_eq in Hl, Hr. auto.
Qed.

Lemma strip_rendered kv :
  clean_pair kv = true ->
  strip (render_pair kv) = render_pair kv
  /\ strip (String " " (render_pair kv)) = render_pair kv
  /\ partition_at "=" (render_pair kv) = Some kv
  /\ strip (fst kv) = fst kv
  /\ strip (snd kv) = snd kv.
Proof.
  destruct kv as [k v]. unfold clean_pair, render_pair. simpl. intros H.
  repeat (apply andb_true_iff in H; destruct H as [H ?]).
  destruct (trimmed_parts k) as [Hlk Hrk]; auto.
  destruct (trimmed_parts v) as [Hlv Hrv]; auto.
  assert (Hl : lstrip_by PyStr.isspace (k ++ String "=" v) = (k ++ String "=" v)%string).
  { apply lstrip_fixed. pose proof (@trimmed_head k Hlk) as Hh.
    destruct k; simpl; auto. }
  assert (Hr : rstrip_by PyStr.isspace (k ++ String "=" v) = (k ++ String "=" v)%string).
  { apply rstrip_app_fixed; [|reflexivity].
    simpl. rewrite Hrv. now rewrite andb_false_r. }
  unfold strip, strip_by.
  split; [now rewrite Hl, Hr|]. split.
  { change (lstrip_by PyStr.isspace (String " " (k ++ String "=" v)))
      with (lstrip_by PyStr.isspace (k ++ String "=" v)).
    now rewrite Hl, Hr. }
  split; [now apply partition_at_first|].
  now rewrite Hlk, Hrk, Hlv, Hrv.
Qed.

Lemma parse_params_loop_rendered pieces kvs :
  Forall2 (fun p kv => strip p = render_pair kv) pieces kvs ->
  forallb clean_pair kvs = true ->
  forall params,
    parse_params_loop pieces params
    = fold_left (fun d kv => Dict.set (fst kv) (snd kv) d) kvs params.
Proof.
  induction 1 as [|p kv pieces kvs Hp Hrest IH]; intros Hc params; simpl; auto.
  simpl in Hc. apply andb_true_iff in Hc. destruct Hc as [Hkv Hc].
  destruct (strip_rendered kv Hkv) as (_ & _ & Hpart & Hk & Hv).
  rewrite Hp, Hpart. destruct kv as [k v]. simpl in *.
  rewrite Hk, Hv. now apply IH.
Qed.

(** X26: parameters written cleanly are read back.  A list of keys and
    values without commas (nor equals signs in the keys) and without
    whitespace at their ends, written as key=value and joined by a comma
    and a blank, parses to the dictionary obtained by assigning them in
    order; a key written twice keeps its last value. *)
Theorem params_round_trip :
  forall (kvs : list (string * string)),
    forallb clean_pair kvs = true ->
    parse_params (PyStr.join ", " (map render_pair kvs))
    = fold_left (fun d kv => Dict.set (fst kv) (snd kv) d) kvs (Dict.empty _).
Proof.
  intros kvs Hc. unfold parse_params.
  destruct kvs as [|kv kvs]; [reflexivity|].
  assert (Hlacks : Forall (fun x => PyStr.lacks "," x = true)
                          (map render_pair (kv :: kvs))).
  { apply Forall_forall. intros x Hx. apply in_map_iff in Hx.
    destruct Hx as ([k v] & <- & Hin).
    rewrite forallb_forall in Hc. specialize (Hc _ Hin).
    unfold clean_pair, render_pair in *. simpl in *.
    repeat (apply andb_true_iff in Hc; destruct Hc as [Hc ?]).
    rewrite lacks_app. simpl. now rewrite Hc, H1. }
  change (map render_pair (kv :: kvs))
    with (render_pair kv :: map render_pair kvs) in *.
  rewrite (@split_join_comma _ EmptyString _ Hlacks).
  apply parse_params_loop_rendered; [|exact Hc].
  simpl in Hc. apply andb_true_iff in Hc. destruct Hc as [Hkv Hc].
  constructor; [now destruct (strip_rendered kv Hkv)|].
  clear - Hc. induction kvs as [|kv' kvs IH]; simpl; constructor.
  - simpl in Hc. apply andb_true_iff in Hc. destruct Hc as [Hkv' _].
    now destruct (strip_rendered kv' Hkv') as (_ & ? & _).
  - apply IH. simpl in Hc. now apply andb_true_iff in Hc.
Qed.

Lemma params_round_trip_witness :
  parse_params "name=r_value, type=correlation, name=rho"
  = [("name", "rho"); ("type", "correlation")].
Proof.
  apply (params_round_trip
           [("name", "r_value"); ("type", "correlation"); ("name", "rho")]).
  reflexivity.
Defined.

(** ** What an annotation returns *)

Lemma present_some (o : option string) s :
  present o = Some s -> o = Some s /\ PyStr.is_empty s = false.
Proof.
  destruct o as [t|]; simpl; [|discriminate].
  destruct (PyStr.is_empty t) eqn:E; [discriminate|].
  intros H. injection H as <-. auto.
Qed.

Lemma clean_value_key params_str k s :
  present (Dict.get k (parse_params params_str)) = Some s ->
  PyStr.lacks "," s = true /\ PyStr.is_empty s = false /\ trimmed s = true.
Proof.
  intros H. apply present_some in H. destruct H as [Hg Hne].
  apply parse_params_get_clean in Hg. unfold clean_pair in Hg. simpl in Hg.
  repeat (apply andb_true_iff in Hg; destruct Hg as [Hg ?]). auto.
Qed.

Lemma prefixed_key_clean pre name :
  PyStr.lacks "," pre = true ->
  match pre with
  | String c _ => PyStr.isspace c = false
  | EmptyString => False
  end ->
  PyStr.lacks "," name = true /\ PyStr.is_empty name = false
  /\ trimmed name = true ->
  PyStr.lacks "," (pre ++ name) = true
  /\ PyStr.is_empty (pre ++ name) = false
  /\ trimmed (pre ++ name) = true.
Proof.
  intros Hpre Hhead (Hl & Hne & Ht).
  destruct pre as [|c pre]; [contradiction|].
  split; [now rewrite lacks_app, Hpre, Hl|]. split; [reflexivity|].
  destruct (trimmed_parts name Ht) as [_ Hr].
  unfold trimmed. rewrite rstrip_app_fixed; auto.
  rewrite lstrip_fixed; [|exact Hhead].
  now rewrite !String.eqb_refl.
Qed.

Section AnnotationFacts.

Variable py_int : string -> option Z.

(** X27: the key of a declarative annotation.  Whatever the parameter
    text, the key under which [_parse_csf_annotation] returns an
    annotation is not empty, holds no comma and has no whitespace at its
    ends, and the annotation carries the line number it was given. *)
Theorem annotation_key_is_clean :
  forall (annotation_type params_str key : string) (line_num : Z)
         (info : AnnotationInfo),
    _parse_csf_annotation py_int annotation_type params_str line_num
    = Annotation key info ->
    PyStr.lacks "," key = true
    /\ PyStr.is_empty key = false
    /\ trimmed key = true
    /\ an_annotation_line info = line_num
    /\ an_source info = "declarative".
Proof.
  intros ty ps key n info. unfold _parse_csf_annotation.
  destruct (line_param py_int (parse_params ps)) as [line|];
    repeat match goal with
           | |- context [if ?b then _ else _] => destruct b
           | |- context [present ?o] =>
               let E := fresh "E" in
               destruct (present o) as [?|] eqn:E
           end;
    try discriminate; intros H; injection H as <- <-; simpl;
    match goal with
    | E : present _ = Some _ |- _ => apply clean_value_key in E
    end.
  - tauto.
  - destruct (@prefixed_key_clean "stat_" s) as (? & ? & ?); auto.
  - tauto.
  - destruct (@prefixed_key_clean "compute_" s) as (? & ? & ?); auto.
Qed.

(** X28: when the line of an annotation is not a number.  [int] is
    reached only after the kind of the annotation and its path or name
    have been found: the [ValueError] arises only for a parameter text
    with a non-empty [line] that [int] refuses, and only for an
    annotation that would have been returned with a readable line.  An
    annotation without its path or name returns [None] whatever its
    line. *)
Theorem bad_line_raises_only_for_a_reported_annotation :
  forall (annotation_type params_str : string) (line_num : Z),
    _parse_csf_annotation py_int annotation_type params_str line_num
    = LineIsNotANumber ->
    (exists text,
        Dict.get "line" (parse_params params_str) = Some text
        /\ PyStr.is_empty text = false
        /\ py_int text = None)
    /\ (exists key info,
           _parse_csf_annotation (fun _ => Some 0%Z) annotation_type
             params_str line_num
           = Annotation key info).
Proof.
  intros ty ps n. unfold _parse_csf_annotation.
  assert (Hline : line_param py_int (parse_params ps) = None ->
                  exists text,
                    Dict.get "line" (parse_params ps) = Some text
                    /\ PyStr.is_empty text = false
                    /\ py_int text = None).
  { unfold line_param.
    destruct (Dict.get "line" (parse_params ps)) as [text|]; [|discriminate].
    destruct (PyStr.is_empty text) eqn:E; [discriminate|].
    destruct (py_int text) eqn:Ei; [discriminate|]. eauto. }
  assert (Hgood : exists line,
             line_param (fun _ => Some 0%Z) (parse_params ps) = Some line).
  { unfold line_param.
    destruct (Dict.get "line" (parse_params ps)) as [text|]; eauto.
    destruct (PyStr.is_empty text); eauto. }
  destruct Hgood as [line0 Hgood]. rewrite Hgood.
  destruct (line_param py_int (parse_params ps)) as [line|] eqn:El;
    repeat match goal with
           | |- context [if ?b then _ else _] => destruct b
           | |- context [present ?o] => destruct (present o) as [?|]
           end;
    try discriminate; intros _; (split; [now apply Hline|]); eauto.
Qed.

End AnnotationFacts.

Lemma annotation_key_is_clean_witness :
  _parse_csf_annotation (fun _ => None) "CSF-COMPUTE"
    " name = r_squared , expr = fit(x, y).rsquared , step = model " 12
  = Annotation "compute_r_squared"
      (mkAnnotation "csf_computation" None (Some "r_squared") None
         (Some "fit(x") "model" None None 12 "declarative")
  /\ PyStr.lacks "," "compute_r_squared" = true
  /\ PyStr.is_empty "compute_r_squared" = false
  /\ trimmed "compute_r_squared" = true
  /\ an_annotation_line
       (mkAnnotation "csf_computation" None (Some "r_squared") None
          (Some "fit(x") "model" None None 12 "declarative") = 12%Z
  /\ an_source
       (mkAnnotation "csf_computation" None (Some "r_squared") None
          (Some "fit(x") "model" None None 12 "declarative") = "declarative".
Proof.
  split; [reflexivity|].
  apply (@annotation_key_is_clean (fun _ => None) "CSF-COMPUTE"
           " name = r_squared , expr = fit(x, y).rsquared , step = model ").
  reflexivity.
Defined.

Lemma bad_line_raises_only_for_a_reported_annotation_witness :
  _parse_csf_annotation (fun _ => None) "CSF-STAT" "name=r, line=twelve" 7
  = LineIsNotANumber
  /\ (exists text,
         Dict.get "line" (parse_params "name=r, line=twelve") = Some text
         /\ PyStr.is_empty text = false
         /\ (fun _ : string => @None Z) text = None)
  /\ (exists key info,
         _parse_csf_annotation (fun _ => Some 0%Z) "CSF-STAT"
           "name=r, line=twelve" 7
         = Annotation key info).
Proof.
  split; [reflexivity|].
  apply (@bad_line_raises_only_for_a_reported_annotation (fun _ => None)
           "CSF-STAT" "name=r, line=twelve" 7%Z).
  reflexivity.
Defined.
